(** * The campaign bot's conversation graph: nodes, decisions and the event service

    A shallow embedding of the orchestration code of the campaign bot
    (router, event creator, WhatsApp group creator, group status checker and
    completion nodes, the decision functions, the event service and the
    graph's entry point), with the properties of its specification.

    The conversation state is the Python dict the nodes receive: a finite map
    from key names to Python values.  A node mutates that dict in place and
    returns it; an exception raised half-way leaves the earlier writes in
    place.  Node bodies are therefore written in a small state-and-exception
    monad over a heap that holds the state dict of the turn and the log of
    the external calls made (language-model calls and calls to the campaign
    backend). *)

From Stdlib Require Import ZArith Ascii String Lia.
From stdpp Require Import gmap strings list.

#[local] Set Warnings "-register-all".
Local Open Scope Z_scope.

(** ** Python values *)

(** The values that reach the conversation state: what [json.loads] builds
    from a model reply (numbers are integers here), strings made by the
    nodes, and the [AIMessage] objects stored under [messages].  A dict is
    kept as the list of its items. *)
Inductive value : Type :=
| VNone
| VBool (b : bool)
| VInt (z : Z)
| VStr (s : string)
| VList (l : list value)
| VDict (items : list (string * value))
| VMessage (content : value) (llm : string).

(** Python truth value: [None], [False], [0], the empty string, the empty
    list and the empty dict are false; everything else is true. *)
Definition truthy (v : value) : bool :=
  match v with
  | VNone => false
  | VBool b => b
  | VInt z => negb (z =? 0)
  | VStr EmptyString => false
  | VStr _ => true
  | VList [] => false
  | VList _ => true
  | VDict [] => false
  | VDict _ => true
  | VMessage _ _ => true
  end.

(** [a or b] *)
Definition py_or (a b : value) : value := if truthy a then a else b.

(** [v == "literal"] for a string literal: only a string can be equal to it. *)
Definition eq_str (v : value) (s : string) : bool :=
  match v with
  | VStr t => String.eqb t s
  | _ => false
  end.

(** [v is not None] *)
Definition is_not_none (v : value) : bool :=
  match v with VNone => false | _ => true end.

(** [all(values)] *)
Definition py_all (vs : list value) : bool := forallb truthy vs.

(** Item lookup by key, in the items of a dict or in a table. *)
Fixpoint assoc {A} (k : string) (items : list (string * A)) : option A :=
  match items with
  | [] => None
  | (k', v) :: rest => if String.eqb k k' then Some v else assoc k rest
  end.

(** ** Strings *)

(** A Python [str] is kept as the bytes of its UTF-8 encoding.  Comparing,
    appending, and finding or cutting at an ASCII character are the same on
    the bytes as on the characters.  Where the code looks at the characters
    themselves, to strip white space or to match digits, the text is cut
    into its characters and each one is decoded. *)
Definition is_continuation (c : ascii) : bool :=
  let n := N_of_ascii c in ((128 <=? n) && (n <? 192))%N.

Definition starts_with_continuation (ch : string) : bool :=
  match ch with
  | String c _ => is_continuation c
  | EmptyString => false
  end.

(** The characters of a text, each as the bytes that encode it: a byte that
    is no continuation byte, with the continuation bytes that follow it. *)
Fixpoint chars (s : string) : list string :=
  match s with
  | EmptyString => []
  | String c r =>
      match chars r with
      | ch :: rest =>
          if starts_with_continuation ch then String c ch :: rest
          else String c EmptyString :: ch :: rest
      | [] => [String c EmptyString]
      end
  end.

Definition byte (c : ascii) : Z := Z.of_N (N_of_ascii c).

(** The code point a character encodes; [-1] for bytes that encode none. *)
Definition codepoint (ch : string) : Z :=
  match ch with
  | String b0 EmptyString => if byte b0 <? 128 then byte b0 else -1
  | String b0 (String b1 EmptyString) =>
      if (192 <=? byte b0) && (byte b0 <? 224)
      then (byte b0 - 192) * 64 + (byte b1 - 128)
      else -1
  | String b0 (String b1 (String b2 EmptyString)) =>
      if (224 <=? byte b0) && (byte b0 <? 240)
      then (byte b0 - 224) * 4096 + (byte b1 - 128) * 64 + (byte b2 - 128)
      else -1
  | String b0 (String b1 (String b2 (String b3 EmptyString))) =>
      if (240 <=? byte b0) && (byte b0 <? 248)
      then (byte b0 - 240) * 262144 + (byte b1 - 128) * 4096
           + (byte b2 - 128) * 64 + (byte b3 - 128)
      else -1
  | _ => -1
  end.

(** [EmptyString.join(l)] *)
Definition join (l : list string) : string := fold_right append EmptyString l.

(** [s.index(c)]: position of the first occurrence ([None] for ValueError). *)
Fixpoint index (c : ascii) (s : string) : option nat :=
  match s with
  | EmptyString => None
  | String a r => if Ascii.eqb a c then Some O else S <$> index c r
  end.

(** [s.rindex(c)]: position of the last occurrence. *)
Fixpoint rindex (c : ascii) (s : string) : option nat :=
  match s with
  | EmptyString => None
  | String a r =>
      match rindex c r with
      | Some i => Some (S i)
      | None => if Ascii.eqb a c then Some O else None
      end
  end.

(** [s[start:stop]] for [0 <= start] and [0 <= stop]. *)
Definition slice (start stop : nat) (s : string) : string :=
  String.substring start (stop - start) s.

(** ** Exceptions *)

(** The exceptions the code catches are instances of [Exception]:
    [InvalidEventDate] carries its message and the message for the user;
    an instance of any other class is an [Exception] with its message. *)
Inductive exn : Type :=
| InvalidEventDate (message bot_message : string)
| Exception (message : string).

(** [InvalidEventDate(message, bot_message)]: [bot_message or message]. *)
Definition mkInvalidEventDate (message : string) (bot_message : option string) : exn :=
  match bot_message with
  | None | Some EmptyString => InvalidEventDate message message
  | Some b => InvalidEventDate message b
  end.

(** [str(e)] *)
Definition exn_str (e : exn) : string :=
  match e with
  | InvalidEventDate m _ => m
  | Exception m => m
  end.

(** ** Dates *)

(** A [datetime]: the wall-clock reading in microseconds since
    0001-01-01T00:00:00, and the UTC offset in microseconds of its [tzinfo]
    when it has one. *)
Record datetime : Type := mkDatetime { wall : Z; tzinfo : option Z }.

(** [datetime.max] = 9999-12-31T23:59:59.999999, day 3652059. *)
Definition datetime_max : Z := 3652059 * 86400 * 1000000 - 1.

(** ** The domain models of the backend *)

Record EventInput : Type := mkEventInput {
  ei_name : value;
  ei_campaign_id : value;
  ei_event_date : datetime;
  ei_administrators : value;
  ei_context : value;
  ei_timezone : value;
  ei_image_url : string }.

Record Event : Type := mkEvent { event_id_of : value }.

Record MessageGroup : Type := mkMessageGroup { link : value }.

(** ** Library functions and external collaborators *)

(** Functions of the Python runtime and its libraries that the code calls
    and this development does not look into.  A function that raises on an
    input returns [None] there. *)
Record pylib : Type := mkPylib {
  (** [json.loads] *)
  json_loads : string -> option value;
  (** [str(v)] of a value that is not a string *)
  py_repr : value -> string;
  (** [datetime.fromisoformat] *)
  fromisoformat : string -> option datetime;
  (** [datetime.strptime(text, fmt)] *)
  strptime : string -> string -> option datetime;
  (** field validation of the [EventInput] model *)
  event_input_valid : EventInput -> bool;
  (** [str.isspace] of the character with this code point: the white space
      of the runtime's Unicode database, which [str.strip()] removes *)
  isspace : Z -> bool;
  (** [str.isdecimal] of the character with this code point: the decimal
      digits of the runtime's Unicode database, which [\d] matches in a
      pattern that is a [str] *)
  isdecimal : Z -> bool }.

(** [str(v)] *)
Definition py_str (L : pylib) (v : value) : string :=
  match v with
  | VStr s => s
  | _ => py_repr L v
  end.

(** *** Stripping and the phone-number pattern *)

Fixpoint drop_spaces (L : pylib) (l : list string) : list string :=
  match l with
  | [] => []
  | ch :: r => if isspace L (codepoint ch) then drop_spaces L r else l
  end.

(** [s.strip()]: the text without the white space at its two ends. *)
Definition strip (L : pylib) (s : string) : string :=
  join (rev (drop_spaces L (rev (drop_spaces L (chars s))))).

(** The pattern of the router, [\+?\d{7,15}], on the characters of a text. *)

(** The longest run of digits at the head of [l], up to [n] of them. *)
Fixpoint take_digits (L : pylib) (n : nat) (l : list string) : list string :=
  match n, l with
  | S k, ch :: r =>
      if isdecimal L (codepoint ch) then ch :: take_digits L k r else []
  | _, _ => []
  end.

(** [\d{7,15}] at the head of [l]: as many digits as there are, up to
    fifteen, when they are seven at least. *)
Definition digits_at (L : pylib) (l : list string) : option (list string) :=
  let d := take_digits L 15 l in
  if (7 <=? length d)%nat then Some d else None.

(** The match of the pattern at the head of [l], if there is one: with the
    sign when it is there and digits follow it, else without it. *)
Definition match_phone (L : pylib) (l : list string) : option (list string) :=
  match l with
  | ch :: r =>
      if String.eqb ch "+" then
        match digits_at L r with
        | Some d => Some (ch :: d)
        | None => digits_at L l
        end
      else digits_at L l
  | [] => None
  end.

(** [re.findall]: the matches from left to right, without overlap; [skip]
    counts the characters of the last match still to step over. *)
Fixpoint findall_from (L : pylib) (skip : nat) (l : list string) : list string :=
  match l with
  | [] => []
  | _ :: r =>
      match skip with
      | S k => findall_from L k r
      | O =>
          match match_phone L l with
          | Some m => join m :: findall_from L (length m - 1) r
          | None => findall_from L 0 r
          end
      end
  end.

Definition findall_phone (L : pylib) (s : string) : list string :=
  findall_from L 0 (chars s).

Definition all_digits (L : pylib) (l : list string) : bool :=
  forallb (fun ch => isdecimal L (codepoint ch)) l.

(** The characters [l] contain a sequence of seven to fifteen digits. *)
Definition digit_run_in (L : pylib) (l : list string) : Prop :=
  exists before digits after,
    l = before ++ digits ++ after
    /\ (7 <= length digits <= 15)%nat
    /\ all_digits L digits = true.

(** The text contains a sequence of seven to fifteen digits. *)
Definition has_digit_run (L : pylib) (text : string) : Prop :=
  digit_run_in L (chars text).

(** What the outside answers during one turn: the text the language model
    returns at each call site (or the exception its client raises), the
    campaign backend's answers, the graph engine's run and the clock. *)
Record world : Type := mkWorld {
  llm : string -> exn + string;
  api_create_event : EventInput -> exn + option Event;
  api_update_event_status : value -> string -> exn + option Event;
  api_get_group_by_id : value -> exn + option MessageGroup;
  graph_ainvoke : string -> string -> exn + gmap string value;
  utcnow : Z }.

(** The external calls a turn can make. *)
Inductive call : Type :=
| LlmCall (site : string)
| CreateEvent (input : EventInput)
| UpdateEventStatus (event_id : value) (status : string)
| GetGroupById (group_id : value)
| GraphInvoke (user_message thread_id : string).

Definition is_backend_call (c : call) : bool :=
  match c with
  | CreateEvent _ | UpdateEventStatus _ _ | GetGroupById _ => true
  | LlmCall _ | GraphInvoke _ _ => false
  end.

(** ** The monad of node bodies *)

Record heap : Type := mkHeap {
  state : gmap string value;
  calls : list call }.

Definition M (A : Type) : Type := heap -> (exn + A) * heap.

Definition ret {A} (a : A) : M A := fun h => (inr a, h).

Definition raise {A} (e : exn) : M A := fun h => (inl e, h).

Definition bind {A B} (m : M A) (k : A -> M B) : M B :=
  fun h =>
    match m h with
    | (inl e, h') => (inl e, h')
    | (inr a, h') => k a h'
    end.

(** [try: m  except Exception as e: handler e] *)
Definition try_except {A} (m : M A) (handler : exn -> M A) : M A :=
  fun h =>
    match m h with
    | (inl e, h') => handler e h'
    | (inr a, h') => (inr a, h')
    end.

Notation "x <- m ;; k" := (bind m (fun x => k))
  (at level 100, m at next level, right associativity).
Notation "m ;;; k" := (bind m (fun _ => k))
  (at level 100, right associativity).

(** An external call: logged, then answered by the world. *)
Definition external {A} (c : call) (answer : exn + A) : M A :=
  fun h => (answer, mkHeap (state h) (calls h ++ [c])).

(** [state.get(k, dflt)] *)
Definition state_get (k : string) (dflt : value) : M value :=
  fun h => (inr (default dflt (state h !! k)), h).

(** [state[k]] *)
Definition state_item (k : string) : M value :=
  fun h =>
    match state h !! k with
    | Some v => (inr v, h)
    | None => (inl (Exception k), h)
    end.

(** [state[k] = v] *)
Definition state_set (k : string) (v : value) : M unit :=
  fun h => (inr tt, mkHeap (<[k := v]> (state h)) (calls h)).

(** [return state] *)
Definition return_state : M (gmap string value) :=
  fun h => (inr (state h), h).

(** [d.get(k, dflt)] on a value [d]; a value that is not a dict has no [get]. *)
Definition get (d : value) (k : string) (dflt : value) : M value :=
  match d with
  | VDict items => ret (default dflt (assoc k items))
  | _ => raise (Exception "object has no attribute 'get'")
  end.

(** [v[:50]] inside a log line: only its failure matters, and it fails on a
    value that cannot be sliced. *)
Definition log_slice (v : value) : M unit :=
  match v with
  | VStr _ | VList _ => ret tt
  | _ => raise (Exception "object is not subscriptable")
  end.

(** [AIMessage(content, additional_kwargs={"llm": tag})]: the content of a
    message is a string or a list of strings and dicts. *)
Definition message_content_ok (v : value) : bool :=
  match v with
  | VStr _ => true
  | VList l => forallb (fun x => match x with VStr _ | VDict _ => true | _ => false end) l
  | _ => false
  end.

Definition AIMessage (content : value) (tag : string) : M value :=
  if message_content_ok content then ret (VMessage content tag)
  else raise (Exception "validation error for AIMessage").

(** A node is run on the state it is given, with an empty call log; what it
    returns comes with the calls it made. *)
Definition run {A} (m : M A) (s : gmap string value) : (exn + A) * list call :=
  let (r, h) := m (mkHeap s []) in (r, calls h).

(** ** Parsing a model reply *)

(** [_parse_llm_response]: the reply as JSON, else the text from its first
    opening brace to its last closing brace as JSON, else the fallback.  The
    creator and completion nodes spell the same steps out in their bodies. *)
Definition parse_llm_response (L : pylib) (content : string) (fallback : value) : value :=
  match json_loads L content with
  | Some v => v
  | None =>
      match index "{"%char content with
      | None => fallback
      | Some start =>
          match rindex "}"%char content with
          | None => fallback
          | Some last =>
              match json_loads L (slice start (last + 1) content) with
              | Some v => v
              | None => fallback
              end
          end
      end
  end.

(** ** The service layer: [LukiaService] *)

(** [activate_event]: the event's status is set to "scheduled". *)
Definition activate_event (w : world) (event_id : value) : M (option Event) :=
  external (UpdateEventStatus event_id "scheduled")
           (api_update_event_status w event_id "scheduled").

(** [get_group_status] *)
Definition get_group_status (w : world) (group_id : value) : M (option MessageGroup) :=
  external (GetGroupById group_id) (api_get_group_by_id w group_id).

(** ** The WhatsApp group creator node *)

Definition whatsapp_fallback : value :=
  VDict [("should_activate", VBool true);
         ("bot_response", VStr "Activando evento para generar grupo.");
         ("next_step", VStr "pending_group");
         ("processing_status", VStr "completed")].

Definition whatsapp_group_creator_node (L : pylib) (w : world) : M (gmap string value) :=
  event_id <- state_get "event_id" VNone ;;
  status <- state_get "processing_status" VNone ;;
  if negb (eq_str status "creating_group") || negb (truthy event_id) then
    state_set "bot_response"
      (VStr "❌ No se puede crear el grupo porque no existe un evento válido.") ;;;
    state_set "current_step" (VStr "error") ;;;
    state_set "processing_status" (VStr "error") ;;;
    return_state
  else
    try_except
      (content <- external (LlmCall "whatsapp_group_creator")
                           (llm w "whatsapp_group_creator") ;;
       msg <- AIMessage (VStr content) "whatsapp_group_creator" ;;
       state_set "messages" msg ;;;
       let llm_response := parse_llm_response L content whatsapp_fallback in
       should_activate <- get llm_response "should_activate" (VBool true) ;;
       if truthy should_activate && truthy event_id then
         response <- activate_event w event_id ;;
         state_set "pending_event_id" event_id ;;;
         bot_response <- get llm_response "bot_response"
           (VStr ("✅ Evento activado correctamente. "
                  +:+ "El grupo de WhatsApp se está generando en segundo plano. "
                  +:+ "En unos momentos estará listo y podrás consultar el enlace.")) ;;
         state_set "bot_response" bot_response ;;;
         next_step <- get llm_response "next_step" (VStr "pending_group") ;;
         state_set "current_step" next_step ;;;
         processing_status <- get llm_response "processing_status" (VStr "completed") ;;
         state_set "processing_status" processing_status
       else
         bot_response <- get llm_response "bot_response" (VStr "Error en creación de grupo") ;;
         state_set "bot_response" bot_response ;;;
         next_step <- get llm_response "next_step" (VStr "error") ;;
         state_set "current_step" next_step ;;;
         processing_status <- get llm_response "processing_status" (VStr "error") ;;
         state_set "processing_status" processing_status)
      (fun e =>
         state_set "bot_response" (VStr ("❌ Error creando grupo: " +:+ exn_str e)) ;;;
         state_set "current_step" (VStr "error") ;;;
         state_set "processing_status" (VStr "error")) ;;;
    return_state.

(** [state.get(k)] on a state, outside a node body. *)
Definition field (s : gmap string value) (k : string) : value :=
  default VNone (s !! k).

(** The guard of the group creator lets the state through. *)
Definition passes_guard (s : gmap string value) : bool :=
  eq_str (field s "processing_status") "creating_group" && truthy (field s "event_id").

(** What [d.get(k, dflt)] gives on the items of a dict. *)
Definition item_or (dflt : value) (k : string) (items : list (string * value)) : value :=
  default dflt (assoc k items).

(** ** The event service *)

Definition date_formats : list string :=
  ["%Y-%m-%d %H:%M"; "%Y-%m-%d"; "%d/%m/%Y %H:%M"; "%d/%m/%Y"].

(** The loop over the formats: the first one that parses the text. *)
Fixpoint first_strptime (L : pylib) (text : string) (formats : list string)
  : option datetime :=
  match formats with
  | [] => None
  | fmt :: rest =>
      match strptime L text fmt with
      | Some d => Some d
      | None => first_strptime L text rest
      end
  end.

(** The [event_date] argument: a value of the state, or a [datetime]. *)
Inductive date_arg : Type :=
| DateValue (v : value)
| DateTime (d : datetime).

(** A naive datetime is given the UTC zone as it stands; an aware one is
    moved to UTC, which fails when the result leaves the range of dates. *)
Definition to_utc (d : datetime) : exn + datetime :=
  match tzinfo d with
  | None => inr (mkDatetime (wall d) (Some 0))
  | Some offset =>
      let utc := wall d - offset in
      if (0 <=? utc) && (utc <=? datetime_max) then inr (mkDatetime utc (Some 0))
      else inl (Exception "date value out of range")
  end.

(** Parsing a date given as text: ISO-8601 first, the fixed formats next. *)
Definition parse_date_text (L : pylib) (text : string) : option datetime :=
  match fromisoformat L text with
  | Some d => Some d
  | None => first_strptime L text date_formats
  end.

(** The first half of [create_event_for_campaign]: a string is parsed and
    the date is brought to UTC. *)
Definition resolve_event_date (L : pylib) (event_date : date_arg) : exn + datetime :=
  match event_date with
  | DateValue (VStr text) =>
      match parse_date_text L text with
      | None => inl (mkInvalidEventDate ("Invalid event_date format: " +:+ text) None)
      | Some d => to_utc d
      end
  | DateValue _ => inl (Exception "object has no attribute 'tzinfo'")
  | DateTime d => to_utc d
  end.

Definition lift {A} (r : exn + A) : M A := fun h => (r, h).

Definition future_date_message : string :=
  "⏰ La fecha del evento debe ser futura. Por favor, elige una fecha y hora que aún no haya pasado.".

Definition event_image : string :=
  "data:image/png;base64,iVBORw0KGgoAAAANSUhEUgAAAAEAAAABCAYAAAAfFcSJAAAADUlEQVR42mNkYPhfDwAChwGA60e6kgAAAABJRU5ErkJggg==".

Definition create_event_for_campaign (L : pylib) (w : world)
    (campaign_id name : value) (event_date : date_arg)
    (administrators context tz_name : value) : M (option Event) :=
  event_date <- lift (resolve_event_date L event_date) ;;
  if wall event_date <=? utcnow w then
    raise (mkInvalidEventDate "Event date must be in the future" (Some future_date_message))
  else
    let event_input :=
      mkEventInput name campaign_id event_date administrators context tz_name event_image in
    if event_input_valid L event_input then
      external (CreateEvent event_input) (api_create_event w event_input)
    else raise (Exception "validation error for EventInput").

(** ** The event creator node *)

Definition event_creator_fallback : value :=
  VDict [("should_create", VBool false);
         ("bot_response", VStr "No entendí la validación. Puedes repetir?");
         ("next_step", VStr "error");
         ("processing_status", VStr "error");
         ("timezone", VNone)].

Definition event_creator_node (L : pylib) (w : world) : M (gmap string value) :=
  event_name <- state_get "event_name" VNone ;;
  try_except
    (content <- external (LlmCall "event_creator") (llm w "event_creator") ;;
     msg <- AIMessage (VStr content) "event_creator" ;;
     state_set "messages" msg ;;;
     let llm_response := parse_llm_response L content event_creator_fallback in
     should_create <- get llm_response "should_create" (VBool true) ;;
     if truthy should_create then
       tz <- get llm_response "timezone" VNone ;;
       let timezone := py_or tz (VStr "America/Bogota") in
       event_date_value <- state_get "event_date" VNone ;;
       campaign_id <- state_get "campaign_id" VNone ;;
       admins <- state_get "admins" VNone ;;
       context <- state_get "context" VNone ;;
       outcome <- try_except
                    (result <- create_event_for_campaign L w campaign_id event_name
                                 (DateValue event_date_value) admins context timezone ;;
                     ret (inr result))
                    (fun exc => ret (inl exc)) ;;
       match outcome with
       | inl (InvalidEventDate _ bot_message) =>
           state_set "bot_response" (VStr bot_message) ;;;
           state_set "current_step" (VStr "error") ;;;
           state_set "processing_status" (VStr "error")
       | inl (Exception _) =>
           state_set "bot_response"
             (VStr "❌ No pude crear el evento. Por favor revisa los datos y vuelve a intentarlo.") ;;;
           state_set "current_step" (VStr "error") ;;;
           state_set "processing_status" (VStr "error")
       | inr (Some result) =>
           state_set "event_id" (event_id_of result) ;;;
           state_set "bot_response"
             (VStr ("✅ Evento '" +:+ py_str L event_name +:+ "' creado. Creando grupo WhatsApp...")) ;;;
           state_set "current_step" (VStr "create_whatsapp_group") ;;;
           state_set "processing_status" (VStr "creating_group")
       | inr None =>
           state_set "bot_response" (VStr "❌ Error al crear el evento.") ;;;
           state_set "current_step" (VStr "error") ;;;
           state_set "processing_status" (VStr "error")
       end
     else
       bot_response <- get llm_response "bot_response" (VStr "Error en validación") ;;
       state_set "bot_response" bot_response ;;;
       next_step <- get llm_response "next_step" (VStr "error") ;;
       state_set "current_step" next_step ;;;
       processing_status <- get llm_response "processing_status" (VStr "error") ;;
       state_set "processing_status" processing_status)
    (fun e =>
       state_set "bot_response" (VStr ("❌ Error técnico: " +:+ exn_str e)) ;;;
       state_set "current_step" (VStr "error") ;;;
       state_set "processing_status" (VStr "error")) ;;;
  return_state.

(** ** The router node *)

(** A value used as a string: [v.strip()] and [re.findall(pattern, v)] need
    [v] to be one. *)
Definition text_of (v : value) : M string :=
  match v with
  | VStr text => ret text
  | _ => raise (Exception "object is not a string")
  end.

Definition unparseable_message : string :=
  "Disculpa, no entendí completamente tu mensaje. "
  +:+ "Soy un asistente para crear campañas y eventos; si quieres, podemos empezar una campaña.".

(** What stands in for a reply that is not JSON. *)
Definition router_unparseable : value :=
  VDict [("next_step", VStr "out_of_context");
         ("bot_response", VStr unparseable_message);
         ("processing_status", VStr "out_of_context");
         ("is_campaign_related", VBool false)].

Definition router_error_message : string :=
  "Ocurrió un error. ¿Puedes repetir tu mensaje?".

Definition missing_fields_message : string :=
  "Faltan algunos datos. Te ayudo a completarlos.".

(** The pattern the router applies to a text field [k]: the model's parsed
    value when it has one, else the stripped user message when the turn
    began at step [k] and the message is not blank. *)
Definition absorb_text (L : pylib) (parsed current_step user_message : value)
    (k : string) : M unit :=
  v <- get parsed k VNone ;;
  if truthy v then state_set k (VStr (strip L (py_str L v)))
  else if eq_str current_step k then
    text <- text_of user_message ;;
    if truthy (VStr (strip L text)) then state_set k (VStr (strip L text)) else ret tt
  else ret tt.

(** The administrators: the model's list, each entry as a stripped string
    (a single value becomes a one-entry list); else, at step "admins", the
    phone numbers found in the message, or the whole stripped message when
    none is found. *)
Definition absorb_admins (L : pylib) (parsed current_step user_message : value)
  : M unit :=
  admins_parsed <- get parsed "admins" VNone ;;
  if truthy admins_parsed then
    match admins_parsed with
    | VList l => state_set "admins" (VList (map (fun a => VStr (strip L (py_str L a))) l))
    | _ => state_set "admins" (VList [VStr (strip L (py_str L admins_parsed))])
    end
  else if eq_str current_step "admins" then
    text <- text_of user_message ;;
    if truthy (VStr (strip L text)) then
      let nums := findall_phone L text in
      match nums with
      | _ :: _ => state_set "admins" (VList (map VStr nums))
      | [] => state_set "admins" (VList [VStr (strip L text)])
      end
    else ret tt
  else ret tt.

(** The fields, in the order of the source. *)
Definition router_fields (L : pylib) (parsed current_step user_message : value)
  : M unit :=
  absorb_text L parsed current_step user_message "campaign_name" ;;;
  absorb_text L parsed current_step user_message "event_name" ;;;
  absorb_text L parsed current_step user_message "event_date" ;;;
  absorb_text L parsed current_step user_message "timezone" ;;;
  absorb_admins L parsed current_step user_message ;;;
  absorb_text L parsed current_step user_message "context".

Definition required_keys : list string :=
  ["campaign_name"; "event_name"; "event_date"; "timezone"; "admins"; "context"].

(** [required_data] of a state. *)
Definition required_data (s : gmap string value) : list value :=
  map (field s) required_keys.

(** The confirmation block. *)
Definition router_confirmation (parsed : value) : M unit :=
  user_confirms <- get parsed "user_confirms" VNone ;;
  if is_not_none user_confirms then
    if truthy user_confirms then
      s <- return_state ;;
      if py_all (required_data s) then
        state_set "processing_status" (VStr "creating_campaign")
      else
        state_set "bot_response" (VStr missing_fields_message) ;;;
        state_set "processing_status" (VStr "idle")
    else state_set "processing_status" (VStr "idle")
  else ret tt.

(** The event id given for a status lookup. *)
Definition router_event_id (L : pylib) (parsed : value) : M unit :=
  event_id <- get parsed "event_id" VNone ;;
  if truthy event_id then state_set "event_id" (VStr (strip L (py_str L event_id)))
  else ret tt.

(** The branch of a message that is about campaigns. *)
Definition router_in_domain (L : pylib) (llm_res current_step user_message : value)
  : M unit :=
  next_step <- get llm_res "next_step" current_step ;;
  state_set "current_step" next_step ;;;
  bot_response <- get llm_res "bot_response" (VStr "¿Cómo puedo ayudarte?") ;;
  state_set "bot_response" bot_response ;;;
  llm_processing_status <- get llm_res "processing_status" (VStr "idle") ;;
  (if eq_str llm_processing_status "checking_status"
      || eq_str llm_processing_status "out_of_context"
   then state_set "processing_status" llm_processing_status
   else ret tt) ;;;
  p <- get llm_res "parsed" (VDict []) ;;
  let parsed := py_or p (VDict []) in
  router_fields L parsed current_step user_message ;;;
  router_confirmation parsed ;;;
  router_event_id L parsed ;;;
  logged <- state_item "bot_response" ;;
  log_slice logged.

Definition router_out_of_context (llm_res : value) : M unit :=
  state_set "current_step" (VStr "out_of_context") ;;;
  bot_response <- get llm_res "bot_response"
    (VStr ("Disculpa, soy un asistente especializado en la creación de campañas con eventos y grupos de WhatsApp. "
           +:+ "¿Te gustaría crear una campaña? Puedo ayudarte con eso.")) ;;
  state_set "bot_response" bot_response ;;;
  state_set "processing_status" (VStr "out_of_context").

Definition router_node (L : pylib) (w : world) : M (gmap string value) :=
  current_step <- state_get "current_step" (VStr "greeting") ;;
  user_message <- state_get "user_message" (VStr EmptyString) ;;
  log_slice user_message ;;;
  try_except
    (content <- external (LlmCall "router") (llm w "router") ;;
     msg <- AIMessage (VStr content) "router" ;;
     state_set "messages" msg ;;;
     let llm_res :=
       match json_loads L content with
       | Some v => v
       | None => router_unparseable
       end in
     is_campaign_related <- get llm_res "is_campaign_related" (VBool true) ;;
     if negb (truthy is_campaign_related) then router_out_of_context llm_res
     else router_in_domain L llm_res current_step user_message)
    (fun e => state_set "bot_response" (VStr router_error_message)) ;;;
  return_state.

(** ** The group status checker node *)

Definition should_check_fallback : value :=
  VDict [("should_check", VBool true);
         ("bot_response", VStr "Verificaré el estado del grupo.");
         ("next_step", VStr "wait");
         ("processing_status", VStr "pending")].

(** [_should_check_status]: the model decides whether the status is to be
    looked up; when its call raises, the answer is no. *)
Definition should_check_status (L : pylib) (w : world) : M value :=
  try_except
    (content <- external (LlmCall "status_check") (llm w "status_check") ;;
     ret (parse_llm_response L content should_check_fallback))
    (fun e =>
       ret (VDict [("should_check", VBool false);
                   ("bot_response",
                    VStr "No puedo verificar el estado en este momento. Intenta más tarde.");
                   ("next_step", VStr "error");
                   ("processing_status", VStr "error")])).

(** [_get_group_status]: the status result, the group link and the error
    message. *)
Definition get_group_status_outcome (w : world) (event_id : value)
  : M (string * value * string) :=
  try_except
    (group_status <- get_group_status w event_id ;;
     match group_status with
     | Some group =>
         if truthy (link group) then ret ("ready", link group, EmptyString)
         else ret ("pending", VStr "No disponible", EmptyString)
     | None => ret ("not_found", VStr "No disponible", EmptyString)
     end)
    (fun e => ret ("error", VStr "No disponible", "Error interno")).

(** The table of fallback responses, by status result; an unknown status
    gets the entry of "error". *)
Definition fallback_responses (L : pylib) (status_result : string) (group_link : value)
  : value :=
  if String.eqb status_result "ready" then
    VDict [("bot_response",
            VStr ("¡Perfecto! 🎉 Tu grupo está listo: " +:+ py_str L group_link));
           ("current_step", VStr "completed");
           ("processing_status", VStr "completed")]
  else if String.eqb status_result "pending" then
    VDict [("bot_response",
            VStr "⏳ Tu grupo se está generando. Consulta en unos momentos.");
           ("current_step", VStr "wait");
           ("processing_status", VStr "pending")]
  else if String.eqb status_result "not_found" then
    VDict [("bot_response",
            VStr "No encontré un grupo para ese evento. ¿Podrías verificar el ID?");
           ("current_step", VStr "error");
           ("processing_status", VStr "error")]
  else
    VDict [("bot_response",
            VStr "Hubo un problema consultando el estado. Intenta de nuevo en unos momentos.");
           ("current_step", VStr "error");
           ("processing_status", VStr "error")].

(** [_generate_status_response]: the model words the result; its reply,
    when it parses, is returned as it is. *)
Definition generate_status_response (L : pylib) (w : world)
    (status_result : string) (group_link : value) : M value :=
  try_except
    (content <- external (LlmCall "status_response") (llm w "status_response") ;;
     ret (parse_llm_response L content (fallback_responses L status_result group_link)))
    (fun e =>
       ret (VDict [("bot_response", VStr "No puedo generar una respuesta en este momento.");
                   ("current_step", VStr "error");
                   ("processing_status", VStr "error")])).

Definition group_status_checker_node (L : pylib) (w : world) : M (gmap string value) :=
  user_message <- state_get "user_message" (VStr EmptyString) ;;
  id1 <- state_get "event_id" VNone ;;
  id2 <- state_get "pending_event_id" VNone ;;
  let event_id := py_or id1 id2 in
  try_except
    (decision <- should_check_status L w ;;
     should_check <- get decision "should_check" (VBool true) ;;
     (if truthy should_check && truthy event_id then
        outcome <- get_group_status_outcome w event_id ;;
        let '(status_result, group_link, error_message) := outcome in
        (if String.eqb status_result "ready" then
           state_set "whatsapp_group_url" group_link ;;;
           state_set "came_from_status_check" (VBool true)
         else ret tt) ;;;
        response_data <- generate_status_response L w status_result group_link ;;
        bot_response <- get response_data "bot_response" (VStr "Estado consultado.") ;;
        state_set "bot_response" bot_response ;;;
        current_step <- get response_data "current_step" (VStr "wait") ;;
        state_set "current_step" current_step ;;;
        processing_status <- get response_data "processing_status" (VStr "pending") ;;
        state_set "processing_status" processing_status
      else
        bot_response <- get decision "bot_response"
          (VStr "Para consultar el estado, necesito el ID del evento. ¿Podrías proporcionármelo?") ;;
        state_set "bot_response" bot_response ;;;
        next_step <- get decision "next_step" (VStr "wait") ;;
        state_set "current_step" next_step ;;;
        processing_status <- get decision "processing_status" (VStr "pending") ;;
        state_set "processing_status" processing_status) ;;;
     said <- state_item "bot_response" ;;
     msg <- AIMessage said "group_status_checker" ;;
     state_set "messages" msg)
    (fun e =>
       state_set "bot_response"
         (VStr "No puedo consultar el estado en este momento. Intenta más tarde.") ;;;
       state_set "current_step" (VStr "error") ;;;
       state_set "processing_status" (VStr "error") ;;;
       said <- state_item "bot_response" ;;
       msg <- AIMessage said "group_status_checker" ;;
       state_set "messages" msg) ;;;
  return_state.

(** The event id the status checker works with. *)
Definition status_event_id (s : gmap string value) : value :=
  py_or (field s "event_id") (field s "pending_event_id").

(** The status checker goes to the backend: there is an event id and the
    first reply of the model is a dict that does not say no. *)
Definition queries_backend (L : pylib) (w : world) (s : gmap string value) : Prop :=
  truthy (status_event_id s) = true
  /\ exists content decision,
       llm w "status_check" = inr content
       /\ parse_llm_response L content should_check_fallback = VDict decision
       /\ truthy (item_or (VBool true) "should_check" decision) = true.

(** ** The completion node *)

Definition completion_fallback : value :=
  VDict [("action", VStr "general_response");
         ("bot_response", VStr "¡Proceso completado! ¿Te gustaría crear una nueva campaña?");
         ("reset_state", VBool false)].

(** [new_state]: the dict the node builds for a new campaign. *)
Definition new_campaign_state : gmap string value :=
  list_to_map
    [("messages", VList []);
     ("campaign_name", VNone);
     ("event_name", VNone);
     ("event_date", VNone);
     ("admins", VNone);
     ("context", VNone);
     ("current_step", VStr "campaign_name");
     ("user_message", VStr EmptyString);
     ("bot_response", VStr "¡Nueva campaña! ¿Cuál será el nombre?");
     ("campaign_id", VNone);
     ("event_id", VNone);
     ("whatsapp_group_url", VNone);
     ("processing_status", VStr "idle")].

Definition newline : string := String (ascii_of_nat 10) EmptyString.

(** The summary the node words itself when the model gives no response. *)
Definition completion_summary (L : pylib) (s : gmap string value) : string :=
  newline
  +:+ "🎉 ¡Campaña completada!" +:+ newline
  +:+ newline
  +:+ "📊 Detalles:" +:+ newline
  +:+ "• Campaña: " +:+ py_str L (field s "campaign_name")
  +:+ " (" +:+ py_str L (field s "campaign_id") +:+ ")" +:+ newline
  +:+ "• Evento: " +:+ py_str L (field s "event_name")
  +:+ " (" +:+ py_str L (field s "event_id") +:+ ")" +:+ newline
  +:+ "• Fecha: " +:+ py_str L (field s "event_date") +:+ newline
  +:+ "• Grupo: "
  +:+ py_str L (py_or (field s "whatsapp_group_url") (VStr "En proceso...")) +:+ newline
  +:+ newline
  +:+ "¿Crear otra campaña? Escribe 'nueva' o 'hola'." +:+ newline.

(** The body of the [try] block gives [Some new_state] where the source
    returns the new state at once, and [None] where it falls through to
    [return state]. *)
Definition completion_node (L : pylib) (w : world) : M (gmap string value) :=
  user_message <- state_get "user_message" (VStr EmptyString) ;;
  early <- try_except
             (content <- external (LlmCall "completion") (llm w "completion") ;;
              msg <- AIMessage (VStr content) "completion" ;;
              state_set "messages" msg ;;;
              let llm_response := parse_llm_response L content completion_fallback in
              action <- get llm_response "action" VNone ;;
              reset_state <- get llm_response "reset_state" VNone ;;
              if eq_str action "new_campaign" || truthy reset_state then
                ret (Some new_campaign_state)
              else
                s <- return_state ;;
                bot_response <- get llm_response "bot_response"
                                  (VStr (completion_summary L s)) ;;
                state_set "bot_response" bot_response ;;;
                ret None)
             (fun e =>
                state_set "bot_response"
                  (VStr "¡Campaña completada! ¿Crear otra? Escribe 'nueva'.") ;;;
                ret None) ;;
  match early with
  | Some new_state => ret new_state
  | None => return_state
  end.

(** The model's reply asks for a new campaign. *)
Definition asks_new_campaign (L : pylib) (w : world) : Prop :=
  exists content reply,
    llm w "completion" = inr content
    /\ parse_llm_response L content completion_fallback = VDict reply
    /\ eq_str (item_or VNone "action" reply) "new_campaign"
       || truthy (item_or VNone "reset_state" reply) = true.

(** ** What the graph does with a node's return *)

(** The messages a value under [messages] stands for. *)
Definition message_list (v : value) : list value :=
  match v with
  | VList l => l
  | VNone => []
  | m => [m]
  end.

(** The graph is built as [StateGraph(ConversationState)]: what a node
    returns is applied to the stored state key by key.  A key of the
    returned dict overwrites the stored value, except [messages], whose
    reducer [add_messages] appends; a key the returned dict does not have
    keeps its stored value. *)
Definition apply_node_return (stored returned : gmap string value)
  : gmap string value :=
  let merged := returned ∪ stored in
  match returned !! "messages" with
  | Some new =>
      <["messages" := VList (message_list (field stored "messages") ++ message_list new)]>
        merged
  | None => merged
  end.

(** ** The entry point of the graph *)

(** [CampaignBotStateGraph.process_message]: the graph is invoked with the
    user message under the thread id of the user. *)
Definition process_message (w : world) (user_message user_id : string)
  : M (gmap string value) :=
  try_except
    (result <- external (GraphInvoke user_message user_id)
                        (graph_ainvoke w user_message user_id) ;;
     ret result)
    (fun e =>
       ret (list_to_map
              [("bot_response", VStr ("❌ Error: " +:+ exn_str e));
               ("current_step", VStr "error");
               ("processing_status", VStr "error")])).

(** ** Decision functions and the edges of the graph *)

Inductive node : Type :=
| Router | CampaignCreator | EventCreator | WhatsappGroupCreator
| GroupStatusChecker | Completion | END.

Definition router_decision (s : gmap string value) : string :=
  let current_step := default (VStr "greeting") (s !! "current_step") in
  let processing_status := default (VStr "idle") (s !! "processing_status") in
  if eq_str current_step "out_of_context" || eq_str processing_status "out_of_context"
  then "__end__"
  else if eq_str current_step "check_status" then "check_status"
  else if eq_str processing_status "creating_campaign" then "create_campaign"
  else if eq_str current_step "create_campaign" && eq_str processing_status "idle"
  then "create_campaign"
  else if eq_str current_step "pending_group" then "pending_group"
  else if eq_str current_step "completed" then "completed"
  else if eq_str current_step "error" then "error"
  else if existsb (eq_str current_step)
            ["greeting"; "campaign_name"; "event_name"; "event_date";
             "timezone"; "admins"; "context"; "confirmation"]
  then "__end__"
  else "__end__".

Definition event_creator_decision (s : gmap string value) : string :=
  let current_step := default (VStr "error") (s !! "current_step") in
  let processing_status := default (VStr "error") (s !! "processing_status") in
  if eq_str current_step "create_whatsapp_group" && eq_str processing_status "creating_group"
  then "create_whatsapp_group"
  else if eq_str current_step "error" || eq_str processing_status "error" then "error"
  else "error".

Definition whatsapp_decision (s : gmap string value) : string :=
  let processing_status := default (VStr "idle") (s !! "processing_status") in
  if eq_str processing_status "completed" || eq_str processing_status "creating"
  then "completed"
  else "error".

Definition status_decision (s : gmap string value) : string :=
  let processing_status := default (VStr "idle") (s !! "processing_status") in
  if eq_str processing_status "completed" then "completed"
  else if eq_str processing_status "error" then "error"
  else "wait".

Definition completion_decision (s : gmap string value) : string := "end".

(** The conditional edges that [build_campaign_graph] gives the router and
    the event creator: the node that a decision's label leads to. *)
Definition router_edges (label : string) : option node :=
  if String.eqb label "create_campaign" then Some CampaignCreator
  else if String.eqb label "check_status" then Some GroupStatusChecker
  else if String.eqb label "pending_group" then Some END
  else if String.eqb label "completed" then Some Completion
  else if String.eqb label "__end__" then Some END
  else if String.eqb label "error" then Some END
  else None.

Definition event_creator_edges (label : string) : option node :=
  if String.eqb label "create_whatsapp_group" then Some WhatsappGroupCreator
  else if String.eqb label "error" then Some END
  else None.

(** ** Reasoning about node bodies *)

Arguments py_all : simpl never.
Arguments strip : simpl never.
Arguments findall_phone : simpl never.
Arguments required_data : simpl never.
Arguments router_fields : simpl never.
Arguments router_confirmation : simpl never.
Arguments router_event_id : simpl never.
Arguments router_in_domain : simpl never.
Arguments router_out_of_context : simpl never.

(** [frame keys h h']: from [h] to [h'] no external call was made and only
    the state's keys listed in [keys] can have changed. *)
Definition frame (keys : list string) (h h' : heap) : Prop :=
  calls h' = calls h
  /\ forall k, existsb (String.eqb k) keys = false -> state h' !! k = state h !! k.


(** ** Concrete collaborators for the examples *)

(** The white space of Unicode, as [str.isspace] has it: the controls tab
    to carriage return and the separators 28 to 31, the space, next line,
    the no-break space and the space and line separators beyond. *)
Definition unicode_isspace (cp : Z) : bool :=
  existsb (fun '(first, last) => (first <=? cp) && (cp <=? last))
    [(0x09, 0x0D); (0x1C, 0x20); (0x85, 0x85); (0xA0, 0xA0); (0x1680, 0x1680);
     (0x2000, 0x200A); (0x2028, 0x2029); (0x202F, 0x202F); (0x205F, 0x205F);
     (0x3000, 0x3000)].

(** The decimal digits of Unicode 14.0, the database of Python 3.11: the
    blocks of ten digits that start at the code points listed, and the
    fifty mathematical digits. *)
Definition decimal_blocks : list Z :=
  [0x30; 0x660; 0x6f0; 0x7c0; 0x966; 0x9e6; 0xa66; 0xae6; 0xb66; 0xbe6;
    0xc66; 0xce6; 0xd66; 0xde6; 0xe50; 0xed0; 0xf20; 0x1040; 0x1090; 0x17e0;
    0x1810; 0x1946; 0x19d0; 0x1a80; 0x1a90; 0x1b50; 0x1bb0; 0x1c40; 0x1c50;
    0xa620; 0xa8d0; 0xa900; 0xa9d0; 0xa9f0; 0xaa50; 0xabf0; 0xff10; 0x104a0;
    0x10d30; 0x11066; 0x110f0; 0x11136; 0x111d0; 0x112f0; 0x11450; 0x114d0;
    0x11650; 0x116c0; 0x11730; 0x118e0; 0x11950; 0x11c50; 0x11d50; 0x11da0;
    0x16a60; 0x16ac0; 0x16b50; 0x1e140; 0x1e2f0; 0x1e950; 0x1fbf0].

Definition unicode_isdecimal (cp : Z) : bool :=
  existsb (fun first => (first <=? cp) && (cp <? first + 10)) decimal_blocks
  || (0x1d7ce <=? cp) && (cp <=? 0x1d7ff).

(** A [json.loads] that reads the texts of a table and raises on any other. *)
Definition loads_table (table : list (string * value)) (text : string) : option value :=
  assoc text table.

(** A library whose JSON reader and ISO date reader are given by tables. *)
Definition lib_of (table : list (string * value)) (dates : list (string * datetime))
  : pylib :=
  mkPylib (loads_table table) (fun _ => "<repr>")
          (fun text => assoc text dates) (fun _ _ => None) (fun _ => true)
          unicode_isspace unicode_isdecimal.

(** A world in which the model answers [reply] at every call site and every
    backend call fails. *)
Definition world_down (reply : exn + string) (now : Z) : world :=
  mkWorld (fun _ => reply)
          (fun _ => inl (Exception "backend down"))
          (fun _ _ => inl (Exception "backend down"))
          (fun _ => inl (Exception "backend down"))
          (fun _ _ => inl (Exception "graph down"))
          now.

(** A world in which the model answers [reply] at every call site and the
    backend answers every call. *)
Definition world_up (reply : exn + string) (now : Z) : world :=
  mkWorld (fun _ => reply)
          (fun _ => inr (Some (mkEvent (VStr "evt-1"))))
          (fun event_id _ => inr (Some (mkEvent event_id)))
          (fun _ => inr (Some (mkMessageGroup (VStr "https://chat.example/g1"))))
          (fun _ _ => inr ∅)
          now.

(** A state that has just left the event creator with event "evt-1". *)
Definition state_creating_group : gmap string value :=
  <["event_id" := VStr "evt-1"]>
    (<["processing_status" := VStr "creating_group"]>
       (<["current_step" := VStr "create_whatsapp_group"]> ∅)).

(** A model reply that lets the activation go ahead. *)
Definition go_ahead : string := "{go}".
Definition go_ahead_json : value :=
  VDict [("should_activate", VBool true); ("should_create", VBool true)].

Definition sample_lib : pylib := lib_of [(go_ahead, go_ahead_json)] [].

(** A library that reads the date "2000-01-01" (naive, midnight) and the
    date "2030-06-01" (naive, midnight). *)
Definition dated_lib : pylib :=
  lib_of [(go_ahead, go_ahead_json)]
         [("2000-01-01", mkDatetime 63082281600000000 None);
          ("2030-06-01", mkDatetime 64042099200000000 None)].

(** The first instant of 2026, UTC. *)
Definition new_year_2026 : Z := 63902822400000000.

(** A state that has just left the campaign creator, with a past event date. *)
Definition state_past_date : gmap string value :=
  <["event_date" := VStr "2000-01-01"]>
    (<["event_name" := VStr "Lanzamiento"]>
       (<["campaign_id" := VStr "cmp-1"]>
          (<["processing_status" := VStr "creating_event"]>
             (<["current_step" := VStr "create_event"]> ∅)))).

(** A state in which every field has been collected, at the confirmation
    step, with the user's go-ahead as message. *)
Definition state_all_collected : gmap string value :=
  <["user_message" := VStr "dale, adelante"]>
    (<["context" := VStr "Lanzamiento de verano"]>
       (<["admins" := VList [VStr "573103435489"]]>
          (<["timezone" := VStr "America/Bogota"]>
             (<["event_date" := VStr "2030-06-01"]>
                (<["event_name" := VStr "Lanzamiento"]>
                   (<["campaign_name" := VStr "Verano"]>
                      (<["processing_status" := VStr "idle"]>
                         (<["current_step" := VStr "confirmation"]> ∅)))))))).

(** A reply of the model that reads the message as a confirmation. *)
Definition confirm_reply : string := "{confirm}".
Definition confirm_parsed : list (string * value) := [("user_confirms", VBool true)].
Definition confirm_json : list (string * value) :=
  [("next_step", VStr "confirmation");
   ("bot_response", VStr "Perfecto, creo la campaña.");
   ("processing_status", VStr "creating_campaign");
   ("is_campaign_related", VBool true);
   ("parsed", VDict confirm_parsed)].

Definition confirm_lib : pylib := lib_of [(confirm_reply, VDict confirm_json)] [].

(** A state after a successful activation: the group is on its way. *)
Definition state_pending_group : gmap string value :=
  <["user_message" := VStr "hola"]>
    (<["pending_event_id" := VStr "evt-1"]>
       (<["event_id" := VStr "evt-1"]>
          (<["processing_status" := VStr "completed"]>
             (<["current_step" := VStr "pending_group"]> ∅)))).

(** A state at the event-name step. *)
Definition state_event_name : gmap string value :=
  <["user_message" := VStr "Lanzamiento"]>
    (<["campaign_name" := VStr "Verano"]>
       (<["processing_status" := VStr "idle"]>
          (<["current_step" := VStr "event_name"]> ∅))).

(** A state at the admins step, with a message that holds no phone number. *)
Definition state_admins_step : gmap string value :=
  <["user_message" := VStr "  mi socio Juan  "]>
    (<["processing_status" := VStr "idle"]>
       (<["current_step" := VStr "admins"]> ∅)).

(** A reply of the model that extracts nothing. *)
Definition plain_reply : string := "{plain}".
Definition plain_json : list (string * value) :=
  [("next_step", VStr "confirmation");
   ("bot_response", VStr "Gracias.");
   ("is_campaign_related", VBool true);
   ("parsed", VDict [("admins", VNone)])].

Definition plain_lib : pylib := lib_of [(plain_reply, VDict plain_json)] [].

(** A world for the status checker: the model's replies at its two call
    sites and the backend's answer to the group lookup. *)
Definition world_status (check_reply response_reply : exn + string)
    (group : exn + option MessageGroup) : world :=
  mkWorld (fun site => if String.eqb site "status_response" then response_reply
                       else check_reply)
          (fun _ => inl (Exception "backend down"))
          (fun _ _ => inl (Exception "backend down"))
          (fun _ => group)
          (fun _ _ => inl (Exception "graph down"))
          0.

Definition group_link_1 : value := VStr "https://chat.example/g1".

(** A second reply of the model that words a ready group as still pending. *)
Definition wait_reply : string := "{wait}".
Definition wait_json : list (string * value) :=
  [("bot_response", VStr "Tu grupo aún se está generando.");
   ("current_step", VStr "wait");
   ("processing_status", VStr "pending")].

Definition status_lib : pylib :=
  lib_of [(go_ahead, go_ahead_json); (wait_reply, VDict wait_json)] [].

(** A state at the end of a campaign: everything collected, the event
    created and activated, the group ready; the user asks for a new one. *)
Definition state_completed : gmap string value :=
  <["user_message" := VStr "nueva"]>
    (<["whatsapp_group_url" := group_link_1]>
       (<["pending_event_id" := VStr "evt-1"]>
          (<["event_id" := VStr "evt-1"]>
             (<["campaign_id" := VStr "cmp-1"]>
                (<["context" := VStr "Lanzamiento de verano"]>
                   (<["admins" := VList [VStr "573103435489"]]>
                      (<["timezone" := VStr "America/Bogota"]>
                         (<["event_date" := VStr "2030-06-01"]>
                            (<["event_name" := VStr "Lanzamiento"]>
                               (<["campaign_name" := VStr "Verano"]>
                                  (<["processing_status" := VStr "completed"]>
                                     (<["current_step" := VStr "completed"]> ∅)))))))))))).

(** A reply of the model that asks for a new campaign. *)
Definition new_reply : string := "{new}".
Definition new_json : list (string * value) :=
  [("action", VStr "new_campaign");
   ("bot_response", VStr "¡Vamos con otra campaña!");
   ("reset_state", VBool true)].

Definition completion_lib : pylib := lib_of [(new_reply, VDict new_json)] [].


(** ** The remaining edges of the graph, and a turn's walk through it *)

Definition whatsapp_edges (label : string) : option node :=
  if String.eqb label "completed" then Some END
  else if String.eqb label "error" then Some END
  else None.

Definition status_edges (label : string) : option node :=
  if String.eqb label "completed" then Some END
  else if String.eqb label "wait" then Some END
  else if String.eqb label "error" then Some END
  else None.

Definition completion_edges (label : string) : option node :=
  if String.eqb label "end" then Some END else None.

(** The node the graph runs after node [n] has returned the state [s]: the
    campaign creator has a plain edge to the event creator, the other nodes
    a decision function and its table of edges.  [None] is a label without
    an edge. *)
Definition next_node (n : node) (s : gmap string value) : option node :=
  match n with
  | Router => router_edges (router_decision s)
  | CampaignCreator => Some EventCreator
  | EventCreator => event_creator_edges (event_creator_decision s)
  | WhatsappGroupCreator => whatsapp_edges (whatsapp_decision s)
  | GroupStatusChecker => status_edges (status_decision s)
  | Completion => completion_edges (completion_decision s)
  | END => None
  end.

(** The nodes a turn goes through from [n], given the states the nodes
    return one after the other. *)
Fixpoint walk (n : node) (returned : list (gmap string value)) : list node :=
  match returned with
  | [] => [n]
  | s :: rest =>
      match next_node n s with
      | Some n' => n :: walk n' rest
      | None => [n]
      end
  end.

(** The longest way from a node to the end of the turn. *)
Definition rank (n : node) : nat :=
  match n with
  | Router => 4
  | CampaignCreator => 3
  | EventCreator => 2
  | WhatsappGroupCreator | GroupStatusChecker | Completion => 1
  | END => 0
  end.

(** [state.get("current_step", "greeting")] and
    [state.get("processing_status", "idle")], as the router's decision reads
    them. *)
Definition step_of (s : gmap string value) : value :=
  default (VStr "greeting") (s !! "current_step").

Definition status_of (s : gmap string value) : value :=
  default (VStr "idle") (s !! "processing_status").

(** ** Readings of the model's replies *)

(** The group creator's reply lets the activation go ahead: it parses (or
    falls back) to a dict that does not say no. *)
Definition lets_activate (L : pylib) (w : world) : Prop :=
  exists content items,
    llm w "whatsapp_group_creator" = inr content
    /\ parse_llm_response L content whatsapp_fallback = VDict items
    /\ truthy (item_or (VBool true) "should_activate" items) = true.

(** The event creator's reply lets the creation go ahead, and [tz] is the
    time zone it gives (None when it gives none). *)
Definition lets_create (L : pylib) (w : world) (tz : value) : Prop :=
  exists content items,
    llm w "event_creator" = inr content
    /\ parse_llm_response L content event_creator_fallback = VDict items
    /\ truthy (item_or (VBool true) "should_create" items) = true
    /\ item_or VNone "timezone" items = tz.

(** ** More states for the examples *)

(** A state whose event date no reader parses, and one without event date. *)
Definition state_unreadable_date : gmap string value :=
  <["event_date" := VStr "mañana"]> state_past_date.

Definition state_no_date : gmap string value := delete "event_date" state_past_date.

(** The input the event creator hands to the backend for the state [s],
    when the model gives the time zone [tz] and the date resolves to [d]. *)
Definition event_input_for (s : gmap string value) (tz : value) (d : datetime)
  : EventInput :=
  mkEventInput (field s "event_name") (field s "campaign_id") d
    (field s "admins") (field s "context") (py_or tz (VStr "America/Bogota"))
    event_image.

(** A state that has just left the campaign creator, with a future date. *)
Definition state_future_date : gmap string value :=
  <["event_date" := VStr "2030-06-01"]> state_past_date.

(** ** From the event creator to the group creator *)

(** The end of the creation pipeline as the graph runs it: the event
    creator on the stored state, its return applied to that state, and, when
    its edge leads there, the group creator on the result.  The outcome is
    what the last node returned, with the calls of both. *)
Definition creation_tail (L : pylib) (w : world) (s : gmap string value)
  : (exn + gmap string value) * list call :=
  match run (event_creator_node L w) s with
  | (inr out, log) =>
      match next_node EventCreator out with
      | Some WhatsappGroupCreator =>
          let (r, log') :=
            run (whatsapp_group_creator_node L w) (apply_node_return s out) in
          (r, log ++ log')
      | _ => (inr out, log)
      end
  | (inl e, log) => (inl e, log)
  end.

(** The event creator's reply says no and yet names the group creator's
    step and status. *)
Definition vetoes_but_moves_on (L : pylib) (w : world) : Prop :=
  exists content items,
    llm w "event_creator" = inr content
    /\ parse_llm_response L content event_creator_fallback = VDict items
    /\ truthy (item_or (VBool true) "should_create" items) = false
    /\ item_or (VStr "error") "next_step" items = VStr "create_whatsapp_group"
    /\ item_or (VStr "error") "processing_status" items = VStr "creating_group".

(** Such a reply, and a reply of the group creator's model that lets the
    activation go ahead. *)
Definition moving_on_reply : string := "{move on}".
Definition moving_on_json : value :=
  VDict [("should_create", VBool false);
         ("next_step", VStr "create_whatsapp_group");
         ("processing_status", VStr "creating_group")].

Definition moving_on_lib : pylib :=
  lib_of [(moving_on_reply, moving_on_json); (go_ahead, go_ahead_json)] [].

Definition moving_on_world : world :=
  mkWorld (fun site => if String.eqb site "event_creator" then inr moving_on_reply
                       else inr go_ahead)
          (fun _ => inl (Exception "backend down"))
          (fun event_id _ => inr (Some (mkEvent event_id)))
          (fun _ => inl (Exception "backend down"))
          (fun _ _ => inl (Exception "graph down"))
          0.

(** ** Readings of the router's reply *)

(** The router's reply is a dict about campaigns, [d], whose parsed part is
    the dict [p] (the empty dict when the reply has none). *)
Definition router_reply (L : pylib) (w : world) (d p : list (string * value)) : Prop :=
  exists content,
    llm w "router" = inr content
    /\ json_loads L content = Some (VDict d)
    /\ truthy (item_or (VBool true) "is_campaign_related" d) = true
    /\ py_or (item_or (VDict []) "parsed" d) (VDict []) = VDict p.

(** The router's reply is a dict, [d], that is not about campaigns. *)
Definition router_reply_off_topic (L : pylib) (w : world) (d : list (string * value))
  : Prop :=
  exists content,
    llm w "router" = inr content
    /\ json_loads L content = Some (VDict d)
    /\ truthy (item_or (VBool true) "is_campaign_related" d) = false.

(** The user message of a state, when it is a string. *)
Definition message_text (s : gmap string value) (text : string) : Prop :=
  default (VStr EmptyString) (s !! "user_message") = VStr text.

Definition text_keys : list string :=
  ["campaign_name"; "event_name"; "event_date"; "timezone"; "context"].

Definition off_topic_message : string :=
  "Disculpa, soy un asistente especializado en la creación de campañas con eventos y grupos de WhatsApp. "
  +:+ "¿Te gustaría crear una campaña? Puedo ayudarte con eso.".

(** A reply of the model that is not about campaigns and yet carries a name. *)
Definition off_topic_reply : string := "{off topic}".
Definition off_topic_json : list (string * value) :=
  [("is_campaign_related", VBool false);
   ("parsed", VDict [("campaign_name", VStr "Invierno")])].

Definition off_topic_lib : pylib := lib_of [(off_topic_reply, VDict off_topic_json)] [].

(** What [json.dumps] takes: None, booleans, integers, strings, and the
    lists and dicts of such values; a message object it refuses. *)
Fixpoint json_serializable (v : value) : bool :=
  match v with
  | VNone | VBool _ | VInt _ | VStr _ => true
  | VList l => forallb json_serializable l
  | VDict items => forallb (fun item => json_serializable (snd item)) items
  | VMessage _ _ => false
  end.

(** [collected_data]: the fields of the state the router hands to the
    model, which it passes through [json.dumps] on the way. *)
Definition collected_data (s : gmap string value) : list value :=
  [field s "campaign_id"; field s "event_id"; field s "campaign_name";
   field s "event_name"; field s "event_date"; field s "timezone";
   field s "admins"; field s "context"].

(** A string the phone-number pattern can match: seven to fifteen digits,
    after a plus sign or not. *)
Definition phone_like (L : pylib) (m : string) : Prop :=
  exists digits,
    (m = join digits \/ m = join ("+" :: digits))
    /\ (7 <= length digits <= 15)%nat
    /\ all_digits L digits = true.

(** The administrators the router takes from the model's parsed value. *)
Definition admins_of_parsed (L : pylib) (a : value) : value :=
  match a with
  | VList l => VList (map (fun x => VStr (strip L (py_str L x))) l)
  | _ => VList [VStr (strip L (py_str L a))]
  end.

(** The administrators the router takes from the user message. *)
Definition admins_of_message (L : pylib) (text : string) : value :=
  match findall_phone L text with
  | [] => VList [VStr (strip L text)]
  | nums => VList (map VStr nums)
  end.

(** A state at the admins step whose message names two numbers. *)
Definition state_two_numbers : gmap string value :=
  <["user_message" := VStr "son 573103435489 y +573208765432"]> state_admins_step.

(** The keys the status checker can write. *)
Definition status_keys : list string :=
  ["bot_response"; "current_step"; "processing_status"; "messages";
   "whatsapp_group_url"; "came_from_status_check"].

(** A state in which no event is known yet. *)
Definition state_no_event : gmap string value :=
  <["user_message" := VStr "cómo va mi grupo"]>
    (<["processing_status" := VStr "checking_status"]>
       (<["current_step" := VStr "wait"]> ∅)).

(** A library that reads the text "[]" as the empty JSON list. *)
Definition list_reply : string := "[]".
Definition list_lib : pylib := lib_of [(list_reply, VList [])] [].

(** The state the status checker returns when it gives up with [said]. *)
Definition status_gave_up (said : string) (s : gmap string value) : gmap string value :=
  <["messages" := VMessage (VStr said) "group_status_checker"]>
    (<["processing_status" := VStr "error"]>
       (<["current_step" := VStr "error"]>
          (<["bot_response" := VStr said]> s))).

(** What the completion node answers when it does not start a new campaign:
    the bot_response of the model's reply, the summary of the campaign when
    the reply has none, and a fixed text when the model cannot be reached or
    its reply is no dict. *)
Definition completion_answer (L : pylib) (w : world) (s : gmap string value) : value :=
  match llm w "completion" with
  | inl _ => VStr "¡Campaña completada! ¿Crear otra? Escribe 'nueva'."
  | inr content =>
      match parse_llm_response L content completion_fallback with
      | VDict reply => item_or (VStr (completion_summary L s)) "bot_response" reply
      | _ => VStr "¡Campaña completada! ¿Crear otra? Escribe 'nueva'."
      end
  end.

(** A reply of the model that shows the summary and words nothing itself. *)
Definition summary_reply : string := "{summary}".
Definition summary_json : list (string * value) := [("action", VStr "show_summary")].
Definition summary_lib : pylib := lib_of [(summary_reply, VDict summary_json)] [].

(** ** The backend client: renaming the keys of an answer *)

(** [key_mapping] of [_snake_case_keys] *)
Definition key_mapping : list (string * string) :=
  [("companyId", "company_id");
   ("integrationId", "integration_id");
   ("messagingIntegrationId", "integration_id");
   ("externalCampaignId", "external_campaign_id");
   ("campaignId", "campaign_id");
   ("eventDate", "event_date");
   ("targetDate", "event_date");
   ("imageUrl", "image_url");
   ("name", "name");
   ("createdAt", "created_at");
   ("admins", "administrators");
   ("updatedAt", "updated_at");
   ("eventId", "event_id");
   ("externalId", "external_id");
   ("currentParticipants", "current_participants")].

(** [key_mapping.get(key, key)] *)
Definition new_key (key : string) : string := default key (assoc key key_mapping).

(** [d[k] = v] on the items of a dict: a key that is there keeps its place
    and takes the new value, a new key goes to the end. *)
Fixpoint dict_set (k : string) (v : value) (items : list (string * value))
  : list (string * value) :=
  match items with
  | [] => [(k, v)]
  | (k', v') :: rest =>
      if String.eqb k' k then (k', v) :: rest else (k', v') :: dict_set k v rest
  end.

(** [_snake_case_keys]: a value that is not a dict is returned as it is; the
    items of a dict are written, in their order, under their new keys into
    an empty dict. *)
Definition snake_case_keys (data : value) : value :=
  match data with
  | VDict items =>
      VDict (fold_left (fun snake_case_data '(key, v) =>
                          dict_set (new_key key) v snake_case_data)
                       items [])
  | _ => data
  end.

(** The items of a dict under their new keys. *)
Definition renamed (items : list (string * value)) : list (string * value) :=
  map (fun '(key, v) => (new_key key, v)) items.

(** * Properties *)

(** C3: a state whose processing_status is not creating_group, or whose
    event_id is empty, is answered with the error step and the error status
    without any external call, neither to the backend nor to the model, and
    the answer is the same whatever the model or the backend would say. *)
Theorem whatsapp_guard_short_circuits (L : pylib) (w : world) (s : gmap string value) :
  eq_str (field s "processing_status") "creating_group" = false
  \/ truthy (field s "event_id") = false ->
  exists out,
    run (whatsapp_group_creator_node L w) s = (inr out, [])
    /\ out !! "current_step" = Some (VStr "error")
    /\ out !! "processing_status" = Some (VStr "error")
    /\ forall L' w', run (whatsapp_group_creator_node L' w') s = (inr out, []).
Proof.
  intros Hguard.
  assert (Hcond : negb (eq_str (field s "processing_status") "creating_group")
                  || negb (truthy (field s "event_id")) = true).
  { destruct Hguard as [-> | ->]; [reflexivity | apply orb_true_r]. }
  eexists. split; [| split; [| split]].
  - unfold run, whatsapp_group_creator_node, bind, state_get; simpl.
    fold (field s "event_id") (field s "processing_status").
    rewrite Hcond. reflexivity.
  - simpl. by simplify_map_eq.
  - simpl. by simplify_map_eq.
  - intros L' w'.
    unfold run, whatsapp_group_creator_node, bind, state_get; simpl.
    fold (field s "event_id") (field s "processing_status").
    rewrite Hcond. reflexivity.
Qed.

Lemma whatsapp_guard_short_circuits_witness :
  (eq_str (field (∅ : gmap string value) "processing_status") "creating_group" = false
   \/ truthy (field (∅ : gmap string value) "event_id") = false)
  /\ exists out,
       run (whatsapp_group_creator_node sample_lib (world_up (inr go_ahead) 0)) ∅
       = (inr out, [])
       /\ out !! "current_step" = Some (VStr "error")
       /\ out !! "processing_status" = Some (VStr "error")
       /\ forall L' w', run (whatsapp_group_creator_node L' w') ∅ = (inr out, []).
Proof.
  split.
  - left. reflexivity.
  - apply (whatsapp_guard_short_circuits sample_lib (world_up (inr go_ahead) 0) ∅).
    left. reflexivity.
Defined.

(** C7, as the code has it: when the guard lets the state through and the
    model does not veto, the node calls the backend's activation once; when
    that call returns, pending_event_id is event_id in the returned state;
    when it raises, pending_event_id is what it was in the input state and
    the node reports the error step. *)
Theorem pending_event_id_recorded_when_activation_returns
    (L : pylib) (w : world) (s : gmap string value)
    (content : string) (items : list (string * value)) :
  passes_guard s = true ->
  llm w "whatsapp_group_creator" = inr content ->
  parse_llm_response L content whatsapp_fallback = VDict items ->
  truthy (item_or (VBool true) "should_activate" items) = true ->
  exists out,
    run (whatsapp_group_creator_node L w) s
    = (inr out, [LlmCall "whatsapp_group_creator";
                 UpdateEventStatus (field s "event_id") "scheduled"])
    /\ match api_update_event_status w (field s "event_id") "scheduled" with
       | inr _ => out !! "pending_event_id" = Some (field s "event_id")
       | inl _ => out !! "pending_event_id" = s !! "pending_event_id"
                  /\ out !! "current_step" = Some (VStr "error")
                  /\ out !! "processing_status" = Some (VStr "error")
       end.
Proof.
  intros Hguard Hllm Hparse Hshould.
  unfold passes_guard in Hguard. apply andb_true_iff in Hguard as [Hst Hid].
  unfold run, whatsapp_group_creator_node, bind, state_get, try_except, external,
    activate_event, AIMessage, item_or in *; simpl.
  fold (field s "event_id") (field s "processing_status").
  rewrite Hst, Hid, Hllm, Hparse; simpl. rewrite Hshould; simpl.
  destruct (api_update_event_status w (field s "event_id") "scheduled") as [e | r];
    simpl; eexists; (split; [reflexivity |]).
  - by simplify_map_eq.
  - by simplify_map_eq.
Qed.

Lemma pending_event_id_recorded_when_activation_returns_witness :
  passes_guard state_creating_group = true
  /\ exists out,
       run (whatsapp_group_creator_node sample_lib
                                        (world_up (inr go_ahead) 0))
           state_creating_group
       = (inr out, [LlmCall "whatsapp_group_creator";
                    UpdateEventStatus (field state_creating_group "event_id") "scheduled"])
       /\ out !! "pending_event_id" = Some (VStr "evt-1").
Proof.
  split; [reflexivity |].
  destruct (pending_event_id_recorded_when_activation_returns
              sample_lib (world_up (inr go_ahead) 0)
              state_creating_group go_ahead
              [("should_activate", VBool true); ("should_create", VBool true)]
              eq_refl eq_refl eq_refl eq_refl) as [out [Hrun Hout]].
  exists out. split; [exact Hrun | exact Hout].
Defined.

(** C7 fails as stated: the state passes the guard, the model lets the
    activation go ahead, the backend's activation raises, and the returned
    state has no pending_event_id. *)
Lemma pending_event_id_lost_when_activation_raises :
  passes_guard state_creating_group = true
  /\ parse_llm_response sample_lib go_ahead whatsapp_fallback
     = go_ahead_json
  /\ exists out,
       run (whatsapp_group_creator_node sample_lib
                                        (world_down (inr go_ahead) 0))
           state_creating_group
       = (inr out, [LlmCall "whatsapp_group_creator";
                    UpdateEventStatus (VStr "evt-1") "scheduled"])
       /\ out !! "event_id" = Some (VStr "evt-1")
       /\ out !! "pending_event_id" = None.
Proof.
  split; [reflexivity |]. split; [reflexivity |].
  eexists. split; [reflexivity |]. split; reflexivity.
Qed.

(** ** The event creator *)

Lemma create_event_past_date (L : pylib) (w : world) (event_date : date_arg) (d : datetime)
    (campaign_id name admins ctx tz : value) (h : heap) :
  resolve_event_date L event_date = inr d ->
  wall d <= utcnow w ->
  create_event_for_campaign L w campaign_id name event_date admins ctx tz h
  = (inl (InvalidEventDate "Event date must be in the future" future_date_message), h).
Proof.
  intros Hres Hpast.
  unfold create_event_for_campaign, bind, lift. rewrite Hres.
  apply Z.leb_le in Hpast. rewrite Hpast. reflexivity.
Qed.

(** C2: for every event date that resolves to an instant at or before the
    current time, the service raises InvalidEventDate with the heap (and so
    the call log) as it was; when the event date of the state is such a
    date, the node returns without any backend call in its log and with
    event_id as it was; and when the model lets the creation go ahead, the
    node answers with the future-date message, the error step and the error
    status, after which the edge of the event creator leads to END, not to
    the group creator. *)
Theorem past_event_date_never_reaches_backend
    (L : pylib) (w : world) (s : gmap string value) (d : datetime) :
  resolve_event_date L (DateValue (field s "event_date")) = inr d ->
  wall d <= utcnow w ->
  (forall event_date d' campaign_id name admins ctx tz h,
      resolve_event_date L event_date = inr d' ->
      wall d' <= utcnow w ->
      create_event_for_campaign L w campaign_id name event_date admins ctx tz h
      = (inl (InvalidEventDate "Event date must be in the future" future_date_message), h))
  /\ exists out log,
       run (event_creator_node L w) s = (inr out, log)
       /\ existsb is_backend_call log = false
       /\ out !! "event_id" = s !! "event_id"
       /\ forall content items,
            llm w "event_creator" = inr content ->
            parse_llm_response L content event_creator_fallback = VDict items ->
            truthy (item_or (VBool true) "should_create" items) = true ->
            out !! "bot_response" = Some (VStr future_date_message)
            /\ out !! "current_step" = Some (VStr "error")
            /\ out !! "processing_status" = Some (VStr "error")
            /\ event_creator_edges (event_creator_decision out) = Some END.
Proof.
  intros Hres Hpast. split.
  - intros. by apply create_event_past_date with (d := d').
  - unfold run, event_creator_node, bind, state_get, try_except, external, AIMessage,
      item_or; simpl.
    destruct (llm w "event_creator") as [e | content] eqn:Hllm; simpl.
    { do 2 eexists. split; [reflexivity |]. split; [reflexivity |].
      split; [by simplify_map_eq | discriminate]. }
    destruct (parse_llm_response L content event_creator_fallback) as
      [ | b | z | t | l | items | c t] eqn:Hparse; simpl;
      try (do 2 eexists; split; [reflexivity |]; split; [reflexivity |];
           split; [by simplify_map_eq | intros ? ? [= <-]; congruence]).
    destruct (truthy (default (VBool true) (assoc "should_create" items))) eqn:Hshould; simpl.
    + rewrite !lookup_insert_ne by done. fold (field s "event_date").
      rewrite (create_event_past_date L w _ d) by assumption. simpl.
      do 2 eexists. split; [reflexivity |]. split; [reflexivity |].
      split; [by simplify_map_eq |].
      intros ? ? _ _ _. unfold event_creator_decision. by simplify_map_eq.
    + do 2 eexists. split; [reflexivity |]. split; [reflexivity |].
      split; [by simplify_map_eq |].
      intros ? items' [= <-] Hitems. rewrite Hparse in Hitems.
      injection Hitems as <-. congruence.
Qed.

Lemma past_event_date_never_reaches_backend_witness :
  resolve_event_date dated_lib (DateValue (field state_past_date "event_date"))
  = inr (mkDatetime 63082281600000000 (Some 0))
  /\ 63082281600000000 <= utcnow (world_up (inr go_ahead) new_year_2026)
  /\ exists out log,
       run (event_creator_node dated_lib (world_up (inr go_ahead) new_year_2026))
           state_past_date = (inr out, log)
       /\ existsb is_backend_call log = false
       /\ out !! "event_id" = None
       /\ out !! "current_step" = Some (VStr "error")
       /\ event_creator_edges (event_creator_decision out) = Some END.
Proof.
  split; [reflexivity |]. split; [vm_compute; discriminate |].
  destruct (past_event_date_never_reaches_backend
              dated_lib (world_up (inr go_ahead) new_year_2026) state_past_date
              (mkDatetime 63082281600000000 (Some 0)) eq_refl
              ltac:(vm_compute; discriminate))
    as [_ [out [log [Hrun [Hlog [Hid Hgo]]]]]].
  destruct (Hgo go_ahead
              [("should_activate", VBool true); ("should_create", VBool true)]
              eq_refl eq_refl eq_refl) as [_ [Hstep [_ Hedge]]].
  exists out, log. repeat split; assumption.
Defined.

(** C8: a date text that parses to a datetime without a zone is resolved to
    the same wall-clock reading in UTC; whatever tz_name is, that is the date
    compared with the clock and the date handed to the backend, and tz_name
    only fills the timezone field of the backend's input. *)
Theorem naive_event_date_is_taken_as_utc
    (L : pylib) (w : world) (text : string) (d : datetime) :
  parse_date_text L text = Some d ->
  tzinfo d = None ->
  resolve_event_date L (DateValue (VStr text)) = inr (mkDatetime (wall d) (Some 0))
  /\ forall campaign_id name admins ctx tz_name h,
       create_event_for_campaign L w campaign_id name (DateValue (VStr text))
         admins ctx tz_name h
       = if wall d <=? utcnow w then
           (inl (InvalidEventDate "Event date must be in the future" future_date_message), h)
         else
           let input := mkEventInput name campaign_id (mkDatetime (wall d) (Some 0))
                          admins ctx tz_name event_image in
           if event_input_valid L input then
             (api_create_event w input, mkHeap (state h) (calls h ++ [CreateEvent input]))
           else (inl (Exception "validation error for EventInput"), h).
Proof.
  intros Hparse Hnaive.
  assert (Hres : resolve_event_date L (DateValue (VStr text))
                 = inr (mkDatetime (wall d) (Some 0))).
  { unfold resolve_event_date, to_utc. by rewrite Hparse, Hnaive. }
  split; [exact Hres |].
  intros. unfold create_event_for_campaign, bind, lift. rewrite Hres. simpl.
  destruct (wall d <=? utcnow w); [reflexivity |].
  destruct (event_input_valid L _); reflexivity.
Qed.

Lemma naive_event_date_is_taken_as_utc_witness :
  parse_date_text dated_lib "2030-06-01" = Some (mkDatetime 64042099200000000 None)
  /\ resolve_event_date dated_lib (DateValue (VStr "2030-06-01"))
     = inr (mkDatetime 64042099200000000 (Some 0)).
Proof.
  split; [reflexivity |].
  exact (proj1 (naive_event_date_is_taken_as_utc
                  dated_lib (world_up (inr go_ahead) new_year_2026) "2030-06-01"
                  (mkDatetime 64042099200000000 None) eq_refl eq_refl)).
Defined.

(** ** The router *)

Lemma frame_refl (keys : list string) (h : heap) : frame keys h h.
Proof. by split. Qed.

Lemma frame_trans (keys : list string) (h1 h2 h3 : heap) :
  frame keys h1 h2 -> frame keys h2 h3 -> frame keys h1 h3.
Proof.
  intros [Hc1 Hs1] [Hc2 Hs2]. split; [congruence |].
  intros k Hk. rewrite Hs2, Hs1; auto.
Qed.

Lemma frame_weaken (keys keys' : list string) (h h' : heap) :
  (forall k, existsb (String.eqb k) keys' = false -> existsb (String.eqb k) keys = false) ->
  frame keys h h' -> frame keys' h h'.
Proof. intros Hsub [Hc Hs]. split; [exact Hc | auto]. Qed.

Lemma frame_set (k : string) (v : value) (h : heap) :
  frame [k] h (mkHeap (<[k := v]> (state h)) (calls h)).
Proof.
  split; [reflexivity |]. intros k' Hk'. simpl in *.
  apply orb_false_iff in Hk' as [Hne _]. apply String.eqb_neq in Hne.
  by rewrite lookup_insert_ne.
Qed.

Lemma eq_str_true (v : value) (s : string) : eq_str v s = true -> v = VStr s.
Proof.
  destruct v; simpl; try discriminate. intros H. apply String.eqb_eq in H. by subst.
Qed.

Lemma truthy_is_not_none (v : value) : truthy v = true -> is_not_none v = true.
Proof. by destruct v. Qed.

Lemma bind_inv {A B} (m : M A) (f : A -> M B) (h h' : heap) (r : exn + B) :
  bind m f h = (r, h') ->
  (exists e, m h = (inl e, h') /\ r = inl e)
  \/ (exists a h1, m h = (inr a, h1) /\ f a h1 = (r, h')).
Proof.
  unfold bind. destruct (m h) as [[e | a] h1]; intros H.
  - left. exists e. by inversion H.
  - right. by exists a, h1.
Qed.

(** A step of a node body that is a plain read or write: its run is a
    known pair. *)
Ltac prim_step H :=
  unfold get, ret, raise, state_set, state_item, log_slice, return_state in H;
  simpl in H;
  first [ discriminate H | injection H as <- <- | injection H as <- | idtac ].

Ltac split_bind H Hs :=
  apply bind_inv in H as [(? & Hs & ->) | (? & ? & Hs & H)]; [| cbv beta in H].

Lemma absorb_text_inv (L : pylib) (parsed cs um : value) (k : string)
    (h h' : heap) (r : exn + unit) :
  absorb_text L parsed cs um k h = (r, h') ->
  frame [k] h h'
  /\ (forall p t, parsed = VDict p -> um = VStr t -> r = inr tt).
Proof.
  unfold absorb_text, bind, get, text_of, ret, raise, state_set.
  destruct parsed; simpl;
    try (intros [= <- <-]; split; [apply frame_refl | discriminate]).
  destruct (truthy (default VNone (assoc k items))).
  { intros [= <- <-]. split; [apply frame_set | reflexivity]. }
  destruct (eq_str cs k).
  2: { intros [= <- <-]. split; [apply frame_refl | reflexivity]. }
  destruct um; simpl;
    try (intros [= <- <-]; split; [apply frame_refl | discriminate]).
  destruct (strip L s); intros [= <- <-];
    (split; [first [apply frame_set | apply frame_refl] | reflexivity]).
Qed.

Lemma absorb_admins_inv (L : pylib) (parsed cs um : value)
    (h h' : heap) (r : exn + unit) :
  absorb_admins L parsed cs um h = (r, h') ->
  frame ["admins"] h h'
  /\ (forall p t, parsed = VDict p -> um = VStr t -> r = inr tt).
Proof.
  unfold absorb_admins, bind, get, text_of, ret, raise.
  destruct parsed; simpl;
    try (intros [= <- <-]; split; [apply frame_refl | discriminate]).
  destruct (truthy (default VNone (assoc "admins" items))).
  { destruct (default VNone (assoc "admins" items)); intros [= <- <-];
      (split; [apply frame_set | reflexivity]). }
  destruct (eq_str cs "admins").
  2: { intros [= <- <-]. split; [apply frame_refl | reflexivity]. }
  destruct um; simpl;
    try (intros [= <- <-]; split; [apply frame_refl | discriminate]).
  destruct (strip L s).
  { intros [= <- <-]. split; [apply frame_refl | reflexivity]. }
  destruct (findall_phone L s); intros [= <- <-];
    (split; [apply frame_set | reflexivity]).
Qed.

Lemma frame_required (k : string) (h h' : heap) :
  existsb (String.eqb k) required_keys = true -> frame [k] h h' -> frame required_keys h h'.
Proof.
  intros Hk. apply frame_weaken. intros k' Hk'. simpl.
  destruct (String.eqb_spec k' k) as [-> | Hne]; [congruence | reflexivity].
Qed.

Lemma router_fields_inv (L : pylib) (parsed cs um : value)
    (h h' : heap) (r : exn + unit) :
  router_fields L parsed cs um h = (r, h') ->
  frame required_keys h h'
  /\ (forall p t, parsed = VDict p -> um = VStr t -> r = inr tt).
Proof.
  unfold router_fields. intros H.
  repeat
    match goal with
    | H : bind _ _ _ = _ |- _ =>
        apply bind_inv in H as [(? & ?Hstep & ->) | (? & ? & ?Hstep & H)];
        [| cbv beta in H]
    end;
    repeat
      match goal with
      | H : absorb_text _ _ _ _ ?k _ = _ |- _ =>
          let Hf := fresh "Hf" in
          let Hok := fresh "Hok" in
          apply absorb_text_inv in H as [Hf Hok];
          apply (frame_required k) in Hf; [| reflexivity]
      | H : absorb_admins _ _ _ _ _ = _ |- _ =>
          let Hf := fresh "Hf" in
          let Hok := fresh "Hok" in
          apply absorb_admins_inv in H as [Hf Hok];
          apply (frame_required "admins") in Hf; [| reflexivity]
      end;
    (split;
     [ repeat (eapply frame_trans; [eassumption |]); apply frame_refl
     | intros p t -> ->;
       repeat match goal with
              | Hok : forall p t, VDict _ = VDict p -> VStr _ = VStr t -> _ = inr tt |- _ =>
                  specialize (Hok _ _ eq_refl eq_refl)
              end; congruence ]).
Qed.

Lemma router_confirmation_inv (parsed : value) (h h' : heap) (r : exn + unit) :
  router_confirmation parsed h = (r, h') ->
  frame ["bot_response"; "processing_status"] h h'
  /\ (state h' !! "processing_status" = Some (VStr "creating_campaign") ->
      state h !! "processing_status" = Some (VStr "creating_campaign")
      \/ exists p, parsed = VDict p
                   /\ truthy (item_or VNone "user_confirms" p) = true
                   /\ py_all (required_data (state h)) = true)
  /\ (forall p, parsed = VDict p ->
                truthy (item_or VNone "user_confirms" p) = true ->
                r = inr tt
                /\ if py_all (required_data (state h))
                   then state h' !! "processing_status" = Some (VStr "creating_campaign")
                   else state h' !! "processing_status" = Some (VStr "idle")
                        /\ state h' !! "bot_response" = Some (VStr missing_fields_message)).
Proof.
  unfold router_confirmation, bind, get, ret, raise, return_state, state_set, item_or.
  destruct parsed; simpl;
    try (intros [= <- <-]; split; [apply frame_refl |]; split; [by left | discriminate]).
  destruct (is_not_none (default VNone (assoc "user_confirms" items))) eqn:Hnn.
  2: { intros [= <- <-]. split; [apply frame_refl |]. split; [by left |].
       intros p [= <-] Ht. apply truthy_is_not_none in Ht. congruence. }
  destruct (truthy (default VNone (assoc "user_confirms" items))) eqn:Hconf.
  2: { intros [= <- <-]. simpl. split.
       { eapply frame_weaken; [| apply frame_set]. simpl. intros k Hk.
         repeat (apply orb_false_iff in Hk as [? Hk]). by rewrite orb_false_r. }
       split; [by simplify_map_eq |]. intros p [= <-]. congruence. }
  destruct (py_all (required_data (state h))) eqn:Hall; simpl; intros [= <- <-]; simpl.
  - split.
    { eapply frame_weaken; [| apply frame_set]. simpl. intros k Hk.
      repeat (apply orb_false_iff in Hk as [? Hk]). by rewrite orb_false_r. }
    split.
    + intros _. right. by exists items.
    + intros p [= <-] _. split; [reflexivity |]. by simplify_map_eq.
  - split.
    { split; [reflexivity |]. simpl. intros k Hk.
      apply orb_false_iff in Hk as [Hb Hk]. apply orb_false_iff in Hk as [Hp _].
      apply String.eqb_neq in Hb, Hp. by rewrite !lookup_insert_ne. }
    split; [by simplify_map_eq |].
    intros p [= <-] _. split; [reflexivity |]. by simplify_map_eq.
Qed.

Lemma router_event_id_inv (L : pylib) (parsed : value) (h h' : heap) (r : exn + unit) :
  router_event_id L parsed h = (r, h') ->
  frame ["event_id"] h h' /\ (forall p, parsed = VDict p -> r = inr tt).
Proof.
  unfold router_event_id, bind, get, ret, raise.
  destruct parsed; simpl;
    try (intros [= <- <-]; split; [apply frame_refl | discriminate]).
  destruct (truthy (default VNone (assoc "event_id" items))); intros [= <- <-];
    (split; [first [apply frame_set | apply frame_refl] | reflexivity]).
Qed.

Lemma required_data_frame (keys : list string) (h h' : heap) :
  frame keys h h' ->
  forallb (fun k => negb (existsb (String.eqb k) keys)) required_keys = true ->
  required_data (state h') = required_data (state h).
Proof.
  intros [_ Hs] Hdisj. unfold required_data, required_keys, field in *.
  simpl in Hdisj. repeat (apply andb_true_iff in Hdisj as [?Hk Hdisj]).
  repeat match goal with
         | H : negb _ = true |- _ => apply negb_true_iff in H
         end.
  simpl. by rewrite !Hs.
Qed.

Lemma adopt_status_inv (v : value) (h h1 : heap) (r : exn + unit) :
  (if eq_str v "checking_status" || eq_str v "out_of_context"
   then state_set "processing_status" v else ret tt) h = (r, h1) ->
  r = inr tt
  /\ frame ["processing_status"] h h1
  /\ (state h1 !! "processing_status" = Some (VStr "creating_campaign") ->
      state h !! "processing_status" = Some (VStr "creating_campaign")).
Proof.
  destruct (eq_str v "checking_status") eqn:H1; simpl.
  { apply eq_str_true in H1 as ->. intros [= <- <-].
    split; [reflexivity |]. split; [apply frame_set |]. simpl. by simplify_map_eq. }
  destruct (eq_str v "out_of_context") eqn:H2; simpl.
  { apply eq_str_true in H2 as ->. intros [= <- <-].
    split; [reflexivity |]. split; [apply frame_set |]. simpl. by simplify_map_eq. }
  intros [= <- <-]. split; [reflexivity |]. split; [apply frame_refl | auto].
Qed.

Lemma frame_lookup (keys : list string) (k : string) (h h' : heap) :
  frame keys h h' -> existsb (String.eqb k) keys = false ->
  state h' !! k = state h !! k.
Proof. intros [_ Hs]. apply Hs. Qed.

Lemma frame_calls (keys : list string) (h h' : heap) :
  frame keys h h' -> calls h' = calls h.
Proof. by intros [Hc _]. Qed.

Lemma router_tail_inv (L : pylib) (parsed : value) (h h' : heap) (r : exn + unit) :
  (router_event_id L parsed ;;;
   logged <- state_item "bot_response" ;; log_slice logged) h = (r, h') ->
  frame ["event_id"] h h'
  /\ (forall p text, parsed = VDict p ->
                     state h !! "bot_response" = Some (VStr text) -> r = inr tt).
Proof.
  intros H.
  split_bind H He; apply router_event_id_inv in He as [Hf Hok].
  { split; [exact Hf |]. intros p text Hp _. specialize (Hok p Hp). discriminate. }
  assert (Hb : state x0 !! "bot_response" = state h !! "bot_response")
    by (by apply (frame_lookup _ _ _ _ Hf)).
  unfold bind, state_item, log_slice, ret, raise in H.
  destruct (state x0 !! "bot_response") as [v |] eqn:Hv.
  - destruct v; injection H as <- <-;
      (split; [exact Hf |]); intros p text _ Ht; congruence.
  - injection H as <- <-. split; [exact Hf |]. intros p text _ Ht. congruence.
Qed.

Lemma router_in_domain_inv (L : pylib) (llm_res cs um : value)
    (h h' : heap) (r : exn + unit) :
  router_in_domain L llm_res cs um h = (r, h') ->
  calls h' = calls h
  /\ (state h' !! "processing_status" = Some (VStr "creating_campaign") ->
      state h !! "processing_status" = Some (VStr "creating_campaign")
      \/ exists d p,
           llm_res = VDict d
           /\ py_or (item_or (VDict []) "parsed" d) (VDict []) = VDict p
           /\ truthy (item_or VNone "user_confirms" p) = true
           /\ py_all (required_data (state h')) = true)
  /\ (forall d p t,
        llm_res = VDict d -> um = VStr t ->
        py_or (item_or (VDict []) "parsed" d) (VDict []) = VDict p ->
        truthy (item_or VNone "user_confirms" p) = true ->
        if py_all (required_data (state h'))
        then state h' !! "processing_status" = Some (VStr "creating_campaign")
        else r = inr tt
             /\ state h' !! "processing_status" = Some (VStr "idle")
             /\ state h' !! "bot_response" = Some (VStr missing_fields_message)).
Proof.
  unfold router_in_domain. intros H.
  destruct llm_res as [ | | | | | d | ];
    try (unfold bind, get, raise in H; simpl in H; injection H as <- <-;
         split; [reflexivity |]; split; [by left | discriminate]).
  split_bind H H1; prim_step H1.
  split_bind H H2; prim_step H2.
  split_bind H H3; prim_step H3.
  split_bind H H4; prim_step H4.
  split_bind H H5; prim_step H5.
  match type of H with
  | _ ?h0 = _ => remember h0 as hb eqn:Hhb
  end.
  assert (Hb : calls hb = calls h
               /\ (state hb !! "processing_status" = Some (VStr "creating_campaign") ->
                   state h !! "processing_status" = Some (VStr "creating_campaign"))).
  { subst hb. simpl. split; [reflexivity |]. by rewrite !lookup_insert_ne. }
  clear Hhb. destruct Hb as [Hbc Hbs].
  split_bind H H6; apply adopt_status_inv in H6 as (Hr6 & Hf6 & Hs6); [discriminate |].
  split_bind H H7; prim_step H7.
  fold (item_or (VDict []) "parsed" d) in H.
  set (parsed := py_or (item_or (VDict []) "parsed" d) (VDict [])) in *.
  assert (Hps : forall hx, frame required_keys x0 hx ->
                  state hx !! "processing_status" = Some (VStr "creating_campaign") ->
                  state h !! "processing_status" = Some (VStr "creating_campaign")).
  { intros hx Hx Hc. apply Hbs, Hs6. by rewrite <- (frame_lookup _ _ _ _ Hx). }
  split_bind H Hfields; apply router_fields_inv in Hfields as [Hff Hfok].
  { split; [rewrite (frame_calls _ _ _ Hff), (frame_calls _ _ _ Hf6); exact Hbc |].
    split; [intros Hc; left; by apply (Hps h') |].
    intros d0 p t [= <-] -> Hp _. specialize (Hfok p t Hp eq_refl). discriminate. }
  split_bind H Hconf; apply router_confirmation_inv in Hconf as (Hcf & Hcs & Hcok).
  { (* the confirmation block raised *)
    assert (Hreq : required_data (state h') = required_data (state x2))
      by (by apply (required_data_frame _ _ _ Hcf eq_refl)).
    split.
    { rewrite (frame_calls _ _ _ Hcf), (frame_calls _ _ _ Hff),
        (frame_calls _ _ _ Hf6). exact Hbc. }
    split.
    - intros Hc. destruct (Hcs Hc) as [Hold | (p & Hp & Hu & Hall)].
      + left. by apply (Hps x2).
      + right. exists d, p. rewrite Hreq. by repeat split.
    - intros d0 p t [= <-] -> Hp Hu. destruct (Hcok p Hp Hu) as [? _]. discriminate. }
  apply router_tail_inv in H as [Htf Htok].
  assert (Hreq : required_data (state h') = required_data (state x2)).
  { rewrite (required_data_frame _ _ _ Htf eq_refl).
    by apply (required_data_frame _ _ _ Hcf eq_refl). }
  assert (Hst : state h' !! "processing_status" = state x4 !! "processing_status")
    by (by apply (frame_lookup _ _ _ _ Htf)).
  assert (Hbot : state h' !! "bot_response" = state x4 !! "bot_response")
    by (by apply (frame_lookup _ _ _ _ Htf)).
  split.
  { rewrite (frame_calls _ _ _ Htf), (frame_calls _ _ _ Hcf), (frame_calls _ _ _ Hff),
      (frame_calls _ _ _ Hf6). exact Hbc. }
  split.
  - rewrite Hst. intros Hc. destruct (Hcs Hc) as [Hold | (p & Hp & Hu & Hall)].
    + left. by apply (Hps x2).
    + right. exists d, p. rewrite Hreq. by repeat split.
  - intros d0 p t [= <-] -> Hp Hu. destruct (Hcok p Hp Hu) as [_ Hcase].
    rewrite Hreq, Hst, Hbot. destruct (py_all (required_data (state x2))).
    + exact Hcase.
    + destruct Hcase as [Hidle Hmsg]. split; [| by split].
      by apply (Htok p missing_fields_message).
Qed.




Example router_all_collected :
  exists out,
    run (router_node confirm_lib (world_down (inr confirm_reply) 0)) state_all_collected
    = (inr out, [LlmCall "router"])
    /\ out !! "processing_status" = Some (VStr "creating_campaign")
    /\ router_edges (router_decision out) = Some CampaignCreator.
Proof. eexists. split; [reflexivity |]. split; reflexivity. Qed.

Example router_missing_context :
  exists out,
    run (router_node confirm_lib (world_down (inr confirm_reply) 0))
        (delete "context" state_all_collected)
    = (inr out, [LlmCall "router"])
    /\ out !! "processing_status" = Some (VStr "idle")
    /\ out !! "bot_response" = Some (VStr missing_fields_message)
    /\ router_edges (router_decision out) = Some END.
Proof. eexists. split; [reflexivity |]. repeat split; reflexivity. Qed.

(** C6, as the code has it: on a state whose user_message is a string the
    router never raises; when the model call raises, it returns the input
    state with bot_response replaced by the fixed error message, so
    current_step and processing_status are what they were; when the reply
    is JSON but not an object, the same holds with the reply recorded under
    messages; when the reply is not JSON, it returns the fixed
    did-not-understand message with current_step and processing_status both
    out_of_context. *)
Theorem router_survives_oracle_failure
    (L : pylib) (w : world) (s : gmap string value) (text : string) :
  default (VStr EmptyString) (s !! "user_message") = VStr text ->
  (exists out, run (router_node L w) s = (inr out, [LlmCall "router"]))
  /\ (forall e, llm w "router" = inl e ->
        run (router_node L w) s
        = (inr (<["bot_response" := VStr router_error_message]> s), [LlmCall "router"]))
  /\ (forall content v,
        llm w "router" = inr content ->
        json_loads L content = Some v ->
        (forall d, v <> VDict d) ->
        run (router_node L w) s
        = (inr (<["bot_response" := VStr router_error_message]>
                  (<["messages" := VMessage (VStr content) "router"]> s)),
           [LlmCall "router"]))
  /\ (forall content,
        llm w "router" = inr content ->
        json_loads L content = None ->
        exists out,
          run (router_node L w) s = (inr out, [LlmCall "router"])
          /\ out !! "bot_response" = Some (VStr unparseable_message)
          /\ out !! "current_step" = Some (VStr "out_of_context")
          /\ out !! "processing_status" = Some (VStr "out_of_context")).
Proof.
  intros Hum.
  unfold run, router_node, bind, state_get, try_except, external, AIMessage.
  simpl. rewrite Hum. simpl.
  split; [| split; [| split]].
  - destruct (llm w "router") as [e | content]; simpl; [by eexists |].
    destruct (match json_loads L content with Some v => v | None => _ end)
      as [ | | | | | d | ]; simpl; try (by eexists).
    destruct (truthy (default (VBool true) (assoc "is_campaign_related" d))); simpl.
    + destruct (router_in_domain _ _ _ _ _) as [r h'] eqn:E.
      apply router_in_domain_inv in E as (Hcalls & _ & _). simpl in Hcalls.
      destruct r; simpl; rewrite Hcalls; by eexists.
    + unfold router_out_of_context, bind, get, ret, state_set. simpl. by eexists.
  - intros e ->. reflexivity.
  - intros content v -> -> Hnd. simpl.
    destruct v; simpl; try reflexivity. by destruct (Hnd items).
  - intros content -> ->. simpl. eexists. split; [reflexivity |].
    simpl. repeat split; by simplify_map_eq.
Qed.

Lemma router_survives_oracle_failure_witness :
  default (VStr EmptyString) (state_pending_group !! "user_message") = VStr "hola"
  /\ run (router_node sample_lib (world_down (inl (Exception "timeout")) 0))
         state_pending_group
     = (inr (<["bot_response" := VStr router_error_message]> state_pending_group),
        [LlmCall "router"]).
Proof.
  split; [reflexivity |].
  exact (proj1 (proj2 (router_survives_oracle_failure
                         sample_lib (world_down (inl (Exception "timeout")) 0)
                         state_pending_group "hola" eq_refl))
               (Exception "timeout") eq_refl).
Defined.

(** C6 fails as stated.  When the model call raises on a state whose
    processing_status is "completed", the returned state still has
    "completed", not "idle"; and when the reply is not JSON, the returned
    state has current_step "out_of_context", not the step of the input, and
    processing_status "out_of_context". *)
Lemma router_failure_is_not_idle :
  (exists out,
      run (router_node sample_lib (world_down (inl (Exception "timeout")) 0))
          state_pending_group = (inr out, [LlmCall "router"])
      /\ out !! "bot_response" = Some (VStr router_error_message)
      /\ out !! "processing_status" = Some (VStr "completed"))
  /\ json_loads sample_lib "no entiendo" = None
  /\ (exists out,
        run (router_node sample_lib (world_down (inr "no entiendo") 0))
            state_event_name = (inr out, [LlmCall "router"])
        /\ state_event_name !! "current_step" = Some (VStr "event_name")
        /\ out !! "current_step" = Some (VStr "out_of_context")
        /\ out !! "processing_status" = Some (VStr "out_of_context")).
Proof.
  split; [| split; [reflexivity |]].
  - eexists. split; [reflexivity |]. split; reflexivity.
  - eexists. split; [reflexivity |]. repeat split; reflexivity.
Qed.

(** ** The phone-number pattern *)

Lemma take_digits_spec (L : pylib) (n : nat) (l : list string) :
  exists rest,
    l = take_digits L n l ++ rest
    /\ (length (take_digits L n l) <= n)%nat
    /\ all_digits L (take_digits L n l) = true.
Proof.
  revert l. induction n as [| n IH]; intros l.
  - exists l. destruct l; repeat split; simpl; lia.
  - destruct l as [| ch r]; [exists []; repeat split; simpl; lia |].
    simpl. destruct (isdecimal L (codepoint ch)) eqn:Hc.
    + destruct (IH r) as (rest & Hr & Hlen & Hd). exists rest.
      split; [| split].
      * simpl. by rewrite <- Hr.
      * simpl. lia.
      * simpl. by rewrite Hc.
    + exists (ch :: r). repeat split; simpl; lia.
Qed.

Lemma digits_at_spec (L : pylib) (l d : list string) :
  digits_at L l = Some d ->
  exists rest,
    l = d ++ rest /\ (7 <= length d <= 15)%nat /\ all_digits L d = true.
Proof.
  unfold digits_at.
  destruct (take_digits_spec L 15 l) as (rest & Hl & Hlen & Hd).
  destruct (7 <=? length (take_digits L 15 l))%nat eqn:Hmin; [| discriminate].
  apply Nat.leb_le in Hmin. intros [= <-]. exists rest. repeat split; try done; lia.
Qed.

Lemma digit_run_in_cons (L : pylib) (ch : string) (l : list string) :
  digit_run_in L l -> digit_run_in L (ch :: l).
Proof.
  intros (before & digits & after & -> & Hlen & Hd).
  by exists (ch :: before), digits, after.
Qed.

Lemma digits_at_run (L : pylib) (l d : list string) :
  digits_at L l = Some d -> digit_run_in L l.
Proof.
  intros H. apply digits_at_spec in H as (rest & -> & Hlen & Hd).
  by exists [], d, rest.
Qed.

Lemma match_phone_run (L : pylib) (l m : list string) :
  match_phone L l = Some m -> digit_run_in L l.
Proof.
  destruct l as [| ch r]; simpl; [discriminate |].
  destruct (String.eqb ch "+"); [| by apply digits_at_run].
  destruct (digits_at L r) as [d |] eqn:Hr.
  - intros _. apply digit_run_in_cons. by apply digits_at_run with (d := d).
  - by apply digits_at_run.
Qed.

Lemma findall_from_run (L : pylib) (skip : nat) (l : list string) :
  findall_from L skip l <> [] -> digit_run_in L l.
Proof.
  revert skip. induction l as [| ch r IH]; intros skip; [done |].
  cbn [findall_from]. destruct skip as [| k].
  - destruct (match_phone L (ch :: r)) as [m |] eqn:Hm.
    + intros _. by apply match_phone_run with (m := m).
    + intros H. apply digit_run_in_cons. by apply (IH 0%nat).
  - intros H. apply digit_run_in_cons. by apply (IH k).
Qed.

Lemma findall_phone_no_run (L : pylib) (text : string) :
  ~ has_digit_run L text -> findall_phone L text = [].
Proof.
  intros Hno. unfold findall_phone.
  destruct (findall_from L 0 (chars text)) eqn:Hf; [reflexivity |].
  exfalso. apply Hno, (findall_from_run L 0). by rewrite Hf.
Qed.

Example findall_two_numbers :
  findall_phone sample_lib "573103435489 y +573208765432"
  = ["573103435489"; "+573208765432"].
Proof. vm_compute. reflexivity. Qed.

Example findall_long_run :
  findall_phone sample_lib "tel 1234567890123456789012, ext 123456"
  = ["123456789012345"; "6789012"].
Proof. vm_compute. reflexivity. Qed.

Example findall_short_runs :
  findall_phone sample_lib "llama al 123456 o al +12 34 56" = [].
Proof. vm_compute. reflexivity. Qed.

(** Digits of other scripts are digits for the pattern, and a sign that no
    digit follows is passed over. *)
Example findall_arabic_indic_digits :
  findall_phone sample_lib "tel ٠١٢٣٤٥٦٧٨" = ["٠١٢٣٤٥٦٧٨"]
  /\ findall_phone sample_lib "nº １２３４５６７ y +" = ["１２３４５６７"].
Proof. split; vm_compute; reflexivity. Qed.

(** The white space that [strip] removes is that of Unicode: a no-break
    space (bytes 194 160) and an ideographic space (bytes 227 128 128) go,
    and the characters between them stay. *)
Example strip_unicode_space :
  strip sample_lib (String (ascii_of_nat 194) (String (ascii_of_nat 160) EmptyString))
  = EmptyString
  /\ strip sample_lib
       (String (ascii_of_nat 227) (String (ascii_of_nat 128) (String (ascii_of_nat 128)
          (" año 2030 " +:+ String (ascii_of_nat 194) (String (ascii_of_nat 160)
                                                        EmptyString)))))
     = "año 2030".
Proof. split; vm_compute; reflexivity. Qed.

(** ** The administrators' fallback *)

Lemma router_fields_admins_fallback (L : pylib) (p : list (string * value))
    (text : string) (h h' : heap) (r : exn + unit) :
  truthy (item_or VNone "admins" p) = false ->
  strip L text <> EmptyString ->
  findall_phone L text = [] ->
  router_fields L (VDict p) (VStr "admins") (VStr text) h = (r, h') ->
  r = inr tt
  /\ calls h' = calls h
  /\ state h' !! "admins" = Some (VList [VStr (strip L text)])
  /\ forall k, existsb (String.eqb k) required_keys = false ->
               state h' !! k = state h !! k.
Proof.
  intros Hadm Hstrip Hnums H.
  pose proof (router_fields_inv _ _ _ _ _ _ _ H) as [[Hcalls Hframe] Hok].
  split; [by apply (Hok p text) |]. split; [exact Hcalls |]. split; [| exact Hframe].
  unfold router_fields in H.
  do 4 (let Hi := fresh "Hi" in
        split_bind H Hi; [by specialize (Hok p text eq_refl eq_refl) |]).
  split_bind H Hadmins; [by specialize (Hok p text eq_refl eq_refl) |].
  apply absorb_text_inv in H as [Hctx _].
  rewrite (frame_lookup _ _ _ _ Hctx) by reflexivity.
  unfold absorb_admins, bind, get, text_of, ret, state_set in Hadmins.
  unfold item_or in Hadm. simpl in Hadmins. rewrite Hadm, Hnums in Hadmins.
  destruct (strip L text) eqn:Hs; [done |].
  injection Hadmins as _ <-. simpl. by rewrite lookup_insert_eq.
Qed.

Lemma router_in_domain_admins_fallback (L : pylib) (d p : list (string * value))
    (text : string) (h h' : heap) (r : exn + unit) :
  py_or (item_or (VDict []) "parsed" d) (VDict []) = VDict p ->
  truthy (item_or VNone "admins" p) = false ->
  strip L text <> EmptyString ->
  findall_phone L text = [] ->
  router_in_domain L (VDict d) (VStr "admins") (VStr text) h = (r, h') ->
  calls h' = calls h /\ state h' !! "admins" = Some (VList [VStr (strip L text)]).
Proof.
  intros Hp Hadm Hstrip Hnums H. unfold router_in_domain in H.
  split_bind H H1; prim_step H1.
  split_bind H H2; prim_step H2.
  split_bind H H3; prim_step H3.
  split_bind H H4; prim_step H4.
  split_bind H H5; prim_step H5.
  split_bind H H6; apply adopt_status_inv in H6 as (Hr6 & Hf6 & _); [discriminate |].
  apply frame_calls in Hf6. simpl in Hf6.
  split_bind H H7; prim_step H7.
  fold (item_or (VDict []) "parsed" d) in H. rewrite Hp in H.
  split_bind H Hfields;
    apply (router_fields_admins_fallback _ _ _ _ _ _ Hadm Hstrip Hnums) in Hfields
      as (Hrf & Hfc & Hfa & _); [discriminate |].
  split_bind H Hconf; apply router_confirmation_inv in Hconf as (Hcf & _ & _).
  { rewrite (frame_calls _ _ _ Hcf), (frame_lookup _ _ _ _ Hcf) by reflexivity.
    split; [congruence | exact Hfa]. }
  apply router_tail_inv in H as [Htf _].
  rewrite (frame_calls _ _ _ Htf), (frame_calls _ _ _ Hcf),
    (frame_lookup _ _ _ _ Htf), (frame_lookup _ _ _ _ Hcf) by reflexivity.
  split; [congruence | exact Hfa].
Qed.

(** C10: when the model's reply has no administrators, the turn began at
    step "admins", and the user message is not blank and holds no sequence
    of seven to fifteen digits, the router returns a state whose admins is
    the one-element list of the stripped message.  Blank and stripped are
    as [str.strip] has them and digits as [\d] has them, on the characters
    of the message and with the white space and the decimal digits of the
    runtime's Unicode database. *)
Theorem admins_fallback_keeps_whole_message
    (L : pylib) (w : world) (s : gmap string value)
    (content text : string) (d p : list (string * value)) :
  llm w "router" = inr content ->
  json_loads L content = Some (VDict d) ->
  truthy (item_or (VBool true) "is_campaign_related" d) = true ->
  py_or (item_or (VDict []) "parsed" d) (VDict []) = VDict p ->
  truthy (item_or VNone "admins" p) = false ->
  default (VStr "greeting") (s !! "current_step") = VStr "admins" ->
  default (VStr EmptyString) (s !! "user_message") = VStr text ->
  strip L text <> EmptyString ->
  ~ has_digit_run L text ->
  exists out,
    run (router_node L w) s = (inr out, [LlmCall "router"])
    /\ out !! "admins" = Some (VList [VStr (strip L text)]).
Proof.
  intros Hllm Hload Hrel Hp Hadm Hstep Hum Hstrip Hno.
  pose proof (findall_phone_no_run _ _ Hno) as Hnums.
  unfold run, router_node, bind, state_get, try_except, external, AIMessage.
  simpl. rewrite Hum, Hstep. simpl. rewrite Hllm. simpl. rewrite Hload. simpl.
  unfold item_or in Hrel. rewrite Hrel. simpl.
  destruct (router_in_domain _ _ _ _ _) as [r h'] eqn:E.
  apply (router_in_domain_admins_fallback _ _ _ _ _ _ _ Hp Hadm Hstrip Hnums) in E
    as [Hcalls Hadmins].
  simpl in Hcalls.
  destruct r as [e | []]; simpl; eexists; (split; [by rewrite Hcalls |]).
  - by rewrite lookup_insert_ne.
  - exact Hadmins.
Qed.


Lemma no_digit_run_in_sample : ~ has_digit_run plain_lib "  mi socio Juan  ".
Proof.
  intros (before & digits & after & Htext & [Hmin _] & Hd).
  destruct digits as [| ch r]; [simpl in Hmin; lia |].
  unfold all_digits in Hd. cbn [forallb] in Hd. apply andb_true_iff in Hd as [Hc _].
  assert (Hin : In ch (chars "  mi socio Juan  ")).
  { rewrite Htext. apply in_or_app. right. by left. }
  assert (Hnone : forallb (fun x => negb (isdecimal plain_lib (codepoint x)))
                    (chars "  mi socio Juan  ") = true) by (vm_compute; reflexivity).
  rewrite forallb_forall in Hnone. apply Hnone in Hin. cbv beta in Hin.
  rewrite Hc in Hin. discriminate.
Qed.

Lemma admins_fallback_keeps_whole_message_witness :
  strip plain_lib "  mi socio Juan  " = "mi socio Juan"
  /\ exists out,
       run (router_node plain_lib (world_down (inr plain_reply) 0)) state_admins_step
       = (inr out, [LlmCall "router"])
       /\ out !! "admins" = Some (VList [VStr (strip plain_lib "  mi socio Juan  ")]).
Proof.
  split; [reflexivity |].
  apply (admins_fallback_keeps_whole_message
           plain_lib (world_down (inr plain_reply) 0) state_admins_step
           plain_reply "  mi socio Juan  " plain_json [("admins", VNone)]).
  - reflexivity.
  - reflexivity.
  - reflexivity.
  - reflexivity.
  - reflexivity.
  - reflexivity.
  - reflexivity.
  - vm_compute. discriminate.
  - exact no_digit_run_in_sample.
Defined.

Example admins_from_numbers :
  fst (absorb_admins plain_lib (VDict [("admins", VNone)]) (VStr "admins")
         (VStr "son 573103435489 y +573208765432") (mkHeap ∅ []))
  = inr tt
  /\ state (snd (absorb_admins plain_lib (VDict [("admins", VNone)]) (VStr "admins")
                   (VStr "son 573103435489 y +573208765432") (mkHeap ∅ [])))
     !! "admins"
     = Some (VList [VStr "573103435489"; VStr "+573208765432"]).
Proof. split; reflexivity. Qed.

(** ** The group status checker *)

(** C4, as the code has it: when the status checker goes to the backend, a
    result with a link always sets whatsapp_group_url to that link; the step
    and the status are those the model's second reply gives when it parses
    to a dict (wait and pending for a key it leaves out); and when that reply
    does not parse, the result decides them from the fallback table: a link
    gives completed and completed, a group without a link gives wait and
    pending, no group gives error, and a backend exception gives error. *)
Theorem status_outcome_mapping (L : pylib) (w : world) (s : gmap string value) :
  queries_backend L w s ->
  exists out,
    run (group_status_checker_node L w) s
    = (inr out, [LlmCall "status_check"; GetGroupById (status_event_id s);
                 LlmCall "status_response"])
    /\ (forall g,
          api_get_group_by_id w (status_event_id s) = inr (Some g) ->
          truthy (link g) = true ->
          out !! "whatsapp_group_url" = Some (link g))
    /\ (forall content,
          llm w "status_response" = inr content ->
          (forall fallback, parse_llm_response L content fallback = fallback) ->
          match api_get_group_by_id w (status_event_id s) with
          | inr (Some g) =>
              if truthy (link g)
              then out !! "current_step" = Some (VStr "completed")
                   /\ out !! "processing_status" = Some (VStr "completed")
              else out !! "current_step" = Some (VStr "wait")
                   /\ out !! "processing_status" = Some (VStr "pending")
          | inr None =>
              out !! "current_step" = Some (VStr "error")
              /\ out !! "processing_status" = Some (VStr "error")
          | inl _ =>
              out !! "current_step" = Some (VStr "error")
              /\ out !! "processing_status" = Some (VStr "error")
          end)
    /\ (forall content reply,
          llm w "status_response" = inr content ->
          (forall fallback, parse_llm_response L content fallback = VDict reply) ->
          message_content_ok (item_or (VStr "Estado consultado.") "bot_response" reply)
          = true ->
          out !! "current_step" = Some (item_or (VStr "wait") "current_step" reply)
          /\ out !! "processing_status"
             = Some (item_or (VStr "pending") "processing_status" reply)).
Proof.
  intros [Hid (c1 & decision & Hllm1 & Hparse1 & Hcheck)].
  unfold status_event_id in *.
  unfold run, group_status_checker_node, should_check_status, get_group_status_outcome,
    generate_status_response, get_group_status, bind, state_get, try_except, external,
    item_or in *.
  simpl. fold (field s "event_id") (field s "pending_event_id").
  rewrite Hllm1. simpl. rewrite Hparse1. simpl. rewrite Hcheck, Hid. simpl.
  set (eid := py_or (field s "event_id") (field s "pending_event_id")) in *.
  destruct (api_get_group_by_id w eid) as [e | [g |]] eqn:Hapi; simpl;
    [| destruct (truthy (link g)) eqn:Hlink; simpl |].
  all: destruct (llm w "status_response") as [e2 | c2] eqn:Hllm2; simpl.
  all: try (destruct (parse_llm_response L c2 _) as [ | | | | | reply | ] eqn:Hparse2;
            simpl).
  all: try (destruct (message_content_ok
                        (default (VStr "Estado consultado.") (assoc "bot_response" reply)))
              eqn:Hmsg; simpl).
  all: unfold state_item, AIMessage, state_set, return_state, ret, raise, get; simpl;
    repeat (rewrite ?lookup_insert_eq, ?(lookup_insert_ne (M := gmap string)) by done;
            simpl; rewrite ?Hmsg; simpl).
  all: eexists; (split; [reflexivity |]).
  all: split;
    [ intros g' Hg Hl;
      first [ discriminate Hg
            | injection Hg as <-; first [congruence | by simplify_map_eq] ] |].
  all: split;
    [ intros c Hc Hfb;
      first [ discriminate Hc
            | injection Hc as <-; rewrite Hfb in Hparse2;
              unfold fallback_responses in Hparse2; simpl in Hparse2;
              first [ discriminate Hparse2
                    | injection Hparse2 as <-;
                      first [discriminate Hmsg | by simplify_map_eq] ] ]
    | intros c reply' Hc Hfb Hok;
      first [ discriminate Hc
            | injection Hc as <-; rewrite Hfb in Hparse2;
              first [ discriminate Hparse2
                    | injection Hparse2 as <-;
                      first [congruence | by simplify_map_eq] ] ] ].
Qed.

Lemma status_outcome_mapping_witness :
  queries_backend status_lib
    (world_status (inr go_ahead) (inr "listo") (inr (Some (mkMessageGroup group_link_1))))
    state_pending_group
  /\ exists out,
       run (group_status_checker_node status_lib
              (world_status (inr go_ahead) (inr "listo")
                 (inr (Some (mkMessageGroup group_link_1)))))
           state_pending_group
       = (inr out, [LlmCall "status_check"; GetGroupById (VStr "evt-1");
                    LlmCall "status_response"])
       /\ out !! "whatsapp_group_url" = Some group_link_1
       /\ out !! "current_step" = Some (VStr "completed")
       /\ out !! "processing_status" = Some (VStr "completed").
Proof.
  assert (Hq : queries_backend status_lib
                 (world_status (inr go_ahead) (inr "listo")
                    (inr (Some (mkMessageGroup group_link_1))))
                 state_pending_group).
  { split; [reflexivity |]. exists go_ahead. eexists. repeat split; reflexivity. }
  split; [exact Hq |].
  destruct (status_outcome_mapping status_lib _ _ Hq) as (out & Hrun & Hurl & Hfb & _).
  exists out. split; [exact Hrun |].
  split; [exact (Hurl _ eq_refl eq_refl) |].
  exact (Hfb "listo" eq_refl (fun fallback => eq_refl)).
Defined.

(** C4 fails as stated: the backend answers with a group that has a link,
    the model's second reply words it as pending, and the returned state has
    the link with current_step "wait" and processing_status "pending". *)
Lemma status_step_follows_the_reply :
  queries_backend status_lib
    (world_status (inr go_ahead) (inr wait_reply)
       (inr (Some (mkMessageGroup group_link_1))))
    state_pending_group
  /\ exists out,
       run (group_status_checker_node status_lib
              (world_status (inr go_ahead) (inr wait_reply)
                 (inr (Some (mkMessageGroup group_link_1)))))
           state_pending_group
       = (inr out, [LlmCall "status_check"; GetGroupById (VStr "evt-1");
                    LlmCall "status_response"])
       /\ out !! "whatsapp_group_url" = Some group_link_1
       /\ out !! "current_step" = Some (VStr "wait")
       /\ out !! "processing_status" = Some (VStr "pending").
Proof.
  split.
  - split; [reflexivity |]. exists go_ahead. eexists. repeat split; reflexivity.
  - eexists. split; [reflexivity |]. repeat split; reflexivity.
Qed.

(** ** The completion node *)

(** On the new-campaign path the node returns the new state it builds,
    whatever the state it was given. *)
Lemma completion_new_campaign_returns_new_state
    (L : pylib) (w : world) (s : gmap string value) :
  asks_new_campaign L w ->
  run (completion_node L w) s = (inr new_campaign_state, [LlmCall "completion"]).
Proof.
  intros (content & reply & Hllm & Hparse & Hnew).
  unfold run, completion_node, bind, state_get, try_except, external, AIMessage,
    item_or in *.
  simpl. rewrite Hllm. simpl. rewrite Hparse. simpl. rewrite Hnew. reflexivity.
Qed.

(** Every key of the new state that names a collected field or an external
    identifier holds None; the step is campaign_name; the new state has no
    timezone key and no pending_event_id key. *)
Lemma new_campaign_state_keys :
  Forall (fun k => new_campaign_state !! k = Some VNone)
    ["campaign_name"; "event_name"; "event_date"; "admins"; "context";
     "campaign_id"; "event_id"; "whatsapp_group_url"]
  /\ new_campaign_state !! "current_step" = Some (VStr "campaign_name")
  /\ new_campaign_state !! "processing_status" = Some (VStr "idle")
  /\ new_campaign_state !! "timezone" = None
  /\ new_campaign_state !! "pending_event_id" = None.
Proof. split; [repeat constructor | repeat split]. Qed.

(** A key the returned dict does not have keeps its stored value. *)
Lemma apply_node_return_absent (stored returned : gmap string value) (k : string) :
  k <> "messages" ->
  returned !! k = None ->
  apply_node_return stored returned !! k = stored !! k.
Proof.
  intros Hk Hnone. unfold apply_node_return.
  destruct (returned !! "messages");
    rewrite ?lookup_insert_ne by done;
    rewrite lookup_union_r; done.
Qed.

(** C5 on the code: at the end of a campaign whose state holds the timezone
    "America/Bogota" and the pending event "evt-1", the new-campaign path
    returns the new state, which sets the eight fields it names to None and
    the step to campaign_name, and names neither timezone nor
    pending_event_id; applied by the graph, it leaves both as they were. *)
Theorem completion_reset_keeps_timezone_and_pending_event_id :
  asks_new_campaign completion_lib (world_down (inr new_reply) 0)
  /\ run (completion_node completion_lib (world_down (inr new_reply) 0)) state_completed
     = (inr new_campaign_state, [LlmCall "completion"])
  /\ new_campaign_state !! "timezone" = None
  /\ new_campaign_state !! "pending_event_id" = None
  /\ apply_node_return state_completed new_campaign_state !! "current_step"
     = Some (VStr "campaign_name")
  /\ apply_node_return state_completed new_campaign_state !! "event_id" = Some VNone
  /\ apply_node_return state_completed new_campaign_state !! "timezone"
     = Some (VStr "America/Bogota")
  /\ apply_node_return state_completed new_campaign_state !! "pending_event_id"
     = Some (VStr "evt-1").
Proof.
  assert (Hnew : asks_new_campaign completion_lib (world_down (inr new_reply) 0)).
  { exists new_reply, new_json. repeat split; reflexivity. }
  split; [exact Hnew |].
  split; [by apply completion_new_campaign_returns_new_state |].
  repeat split; vm_compute; reflexivity.
Qed.

(** ** The entry point *)

(** C9: [process_message] returns a dict on every input and never raises;
    what the graph returns is passed on, and when the graph's run raises,
    the dict holds a non-empty bot_response that carries the error message,
    the error step and the error status. *)
Theorem process_message_never_raises
    (w : world) (user_message user_id : string) (h : heap) :
  exists result,
    process_message w user_message user_id h
    = (inr result, mkHeap (state h) (calls h ++ [GraphInvoke user_message user_id]))
    /\ (forall e,
          graph_ainvoke w user_message user_id = inl e ->
          result !! "bot_response" = Some (VStr ("❌ Error: " +:+ exn_str e))
          /\ "❌ Error: " +:+ exn_str e <> EmptyString
          /\ result !! "current_step" = Some (VStr "error")
          /\ result !! "processing_status" = Some (VStr "error"))
    /\ (forall answer,
          graph_ainvoke w user_message user_id = inr answer -> result = answer).
Proof.
  unfold process_message, try_except, bind, external, ret.
  destruct (graph_ainvoke w user_message user_id) as [e | answer]; simpl.
  - eexists. split; [reflexivity |]. split; [| discriminate].
    intros e' [= <-]. repeat split; done.
  - eexists. split; [reflexivity |]. split; [discriminate |].
    by intros answer' [= <-].
Qed.

Lemma process_message_never_raises_witness :
  graph_ainvoke (world_down (inr go_ahead) 0) "hola" "u1" = inl (Exception "graph down")
  /\ exists result,
       fst (process_message (world_down (inr go_ahead) 0) "hola" "u1" (mkHeap ∅ []))
       = inr result
       /\ result !! "bot_response" = Some (VStr "❌ Error: graph down")
       /\ result !! "current_step" = Some (VStr "error")
       /\ result !! "processing_status" = Some (VStr "error").
Proof.
  split; [reflexivity |].
  destruct (process_message_never_raises
              (world_down (inr go_ahead) 0) "hola" "u1" (mkHeap ∅ []))
    as (result & Hrun & Herr & _).
  exists result. split; [by rewrite Hrun |].
  destruct (Herr (Exception "graph down") eq_refl) as (Hb & _ & Hs & Hp).
  repeat split; assumption.
Defined.


(** * Further properties *)

(** ** Decisions and edges *)

Lemma if_some {A} (b : bool) (x y : option A) :
  is_Some x -> is_Some y -> is_Some (if b then x else y).
Proof. by destruct b. Qed.

Lemma next_node_defined (n : node) (s : gmap string value) :
  n <> END -> is_Some (next_node n s).
Proof.
  intros Hn. destruct n; simpl; try done.
  - unfold router_decision.
    repeat match goal with
           | |- is_Some (router_edges (if ?b then _ else _)) => destruct b
           end; by eexists.
  - unfold event_creator_decision.
    repeat match goal with
           | |- is_Some (event_creator_edges (if ?b then _ else _)) => destruct b
           end; by eexists.
  - unfold whatsapp_decision.
    repeat match goal with
           | |- is_Some (whatsapp_edges (if ?b then _ else _)) => destruct b
           end; by eexists.
  - unfold status_decision.
    repeat match goal with
           | |- is_Some (status_edges (if ?b then _ else _)) => destruct b
           end; by eexists.
Qed.

(** X1: whatever state a node returns, the label its decision function gives
    is one of the labels the graph was built with for that node: the router,
    the event creator, the group creator, the status checker and the
    completion node never name an edge that is not there. *)
Theorem every_decision_has_an_edge (s : gmap string value) :
  is_Some (router_edges (router_decision s))
  /\ is_Some (event_creator_edges (event_creator_decision s))
  /\ is_Some (whatsapp_edges (whatsapp_decision s))
  /\ is_Some (status_edges (status_decision s))
  /\ is_Some (completion_edges (completion_decision s)).
Proof.
  split; [apply (next_node_defined Router s); discriminate |].
  split; [apply (next_node_defined EventCreator s); discriminate |].
  split; [apply (next_node_defined WhatsappGroupCreator s); discriminate |].
  split; [apply (next_node_defined GroupStatusChecker s); discriminate |].
  apply (next_node_defined Completion s); discriminate.
Qed.

Lemma next_node_rank (n n' : node) (s : gmap string value) :
  next_node n s = Some n' -> (rank n' < rank n)%nat.
Proof.
  destruct n; simpl; try discriminate.
  - unfold router_decision.
    repeat match goal with
           | |- router_edges (if ?b then _ else _) = _ -> _ => destruct b
           end; intros [= <-]; simpl; lia.
  - intros [= <-]. simpl. lia.
  - unfold event_creator_decision.
    repeat match goal with
           | |- event_creator_edges (if ?b then _ else _) = _ -> _ => destruct b
           end; intros [= <-]; simpl; lia.
  - unfold whatsapp_decision.
    repeat match goal with
           | |- whatsapp_edges (if ?b then _ else _) = _ -> _ => destruct b
           end; intros [= <-]; simpl; lia.
  - unfold status_decision.
    repeat match goal with
           | |- status_edges (if ?b then _ else _) = _ -> _ => destruct b
           end; intros [= <-]; simpl; lia.
  - intros [= <-]. simpl. lia.
Qed.

Lemma walk_length (n : node) (returned : list (gmap string value)) :
  (length (walk n returned) <= S (rank n))%nat.
Proof.
  revert n. induction returned as [| s rest IH]; intros n; simpl; [lia |].
  destruct (next_node n s) as [n' |] eqn:Hn; simpl; [| lia].
  apply next_node_rank in Hn. specialize (IH n'). lia.
Qed.

Lemma walk_ends (n : node) (returned : list (gmap string value)) :
  (rank n <= length returned)%nat -> last (walk n returned) = Some END.
Proof.
  revert n. induction returned as [| s rest IH]; intros n Hlen; simpl in *.
  - destruct n; simpl in Hlen; try lia. reflexivity.
  - destruct (next_node n s) as [n' |] eqn:Hn.
    + pose proof (next_node_rank _ _ _ Hn) as Hr.
      assert (Hl : last (walk n' rest) = Some END) by (apply IH; lia).
      destruct (walk n' rest) eqn:Hw; [discriminate |].
      by rewrite last_cons, Hl.
    + destruct n; try reflexivity;
        match type of Hn with
        | next_node ?m _ = None =>
            destruct (next_node_defined m s) as [n' Hn'];
            [discriminate | congruence]
        end.
Qed.

(** X2: a turn never loops: whatever states the nodes return, the walk from
    the router goes through at most four nodes before END, and after four
    returned states it has reached END. *)
Theorem turn_reaches_end_within_four_nodes (returned : list (gmap string value)) :
  (length (walk Router returned) <= 5)%nat
  /\ ((4 <= length returned)%nat -> last (walk Router returned) = Some END).
Proof.
  split.
  - apply (walk_length Router).
  - apply (walk_ends Router).
Qed.

Lemma turn_reaches_end_within_four_nodes_witness :
  (4 <= length [state_all_collected; state_past_date; state_creating_group;
                state_pending_group])%nat
  /\ last (walk Router [state_all_collected; state_past_date; state_creating_group;
                        state_pending_group]) = Some END.
Proof.
  split; [simpl; lia |].
  apply (proj2 (turn_reaches_end_within_four_nodes _)). simpl. lia.
Defined.

(** X3: where the router's state leads.  A state out of context ends the
    turn, whatever else it holds; otherwise the step check_status leads to
    the status checker, even with the status creating_campaign; otherwise
    the creation pipeline starts when the status is creating_campaign, and
    also when the step is create_campaign with the status idle; otherwise
    the step completed leads to the completion node; every other state ends
    the turn. *)
Theorem router_routing (s : gmap string value) :
  next_node Router s
  = Some (if eq_str (step_of s) "out_of_context" || eq_str (status_of s) "out_of_context"
          then END
          else if eq_str (step_of s) "check_status" then GroupStatusChecker
          else if eq_str (status_of s) "creating_campaign"
                  || eq_str (step_of s) "create_campaign" && eq_str (status_of s) "idle"
          then CampaignCreator
          else if eq_str (step_of s) "completed" then Completion
          else END).
Proof.
  unfold next_node, router_decision. fold (step_of s) (status_of s).
  destruct (eq_str (step_of s) "out_of_context" || eq_str (status_of s) "out_of_context");
    [reflexivity |].
  destruct (eq_str (step_of s) "check_status"); [reflexivity |].
  destruct (eq_str (status_of s) "creating_campaign"); [reflexivity |]. simpl.
  destruct (eq_str (step_of s) "create_campaign" && eq_str (status_of s) "idle");
    [reflexivity |].
  destruct (eq_str (step_of s) "pending_group") eqn:Hp.
  { apply eq_str_true in Hp as ->. reflexivity. }
  destruct (eq_str (step_of s) "completed"); [reflexivity |].
  destruct (eq_str (step_of s) "error"); [reflexivity |].
  repeat match goal with
         | |- context [if ?b then _ else _] => destruct b
         end; reflexivity.
Qed.

Example router_step_create_campaign_starts_creation :
  next_node Router (<["current_step" := VStr "create_campaign"]> ∅) = Some CampaignCreator.
Proof. reflexivity. Qed.

(** ** The WhatsApp group creator, on every input *)

(** The cases of a run of the group creator. *)
Lemma whatsapp_node_cases (L : pylib) (w : world) (s : gmap string value) :
  exists out log,
    run (whatsapp_group_creator_node L w) s = (inr out, log)
    /\ ((passes_guard s = true /\ lets_activate L w
         /\ log = [LlmCall "whatsapp_group_creator";
                   UpdateEventStatus (field s "event_id") "scheduled"])
        \/ (~ (passes_guard s = true /\ lets_activate L w)
            /\ existsb is_backend_call log = false)).
Proof.
  unfold run, whatsapp_group_creator_node, bind, state_get, try_except, external,
    activate_event, AIMessage, passes_guard, lets_activate, item_or.
  simpl. fold (field s "event_id") (field s "processing_status").
  destruct (eq_str (field s "processing_status") "creating_group") eqn:Hst; simpl.
  2: { do 2 eexists. split; [reflexivity |]. right. split; [| reflexivity].
       intros [H _]. discriminate. }
  destruct (truthy (field s "event_id")) eqn:Hid; simpl.
  2: { do 2 eexists. split; [reflexivity |]. right. split; [| reflexivity].
       intros [H _]. discriminate. }
  destruct (llm w "whatsapp_group_creator") as [e | content] eqn:Hllm; simpl.
  { do 2 eexists. split; [reflexivity |]. right. split; [| reflexivity].
    intros [_ (c & i & Hc & _)]. discriminate. }
  destruct (parse_llm_response L content whatsapp_fallback)
    as [ | | | | | items | ] eqn:Hparse; simpl;
    try (do 2 eexists; split; [reflexivity |]; right; split; [| reflexivity];
         intros [_ (c & i & Hc & Hp & _)]; congruence).
  destruct (truthy (default (VBool true) (assoc "should_activate" items))) eqn:Hsh; simpl.
  - destruct (api_update_event_status w (field s "event_id") "scheduled");
      simpl; do 2 eexists; (split; [reflexivity |]); left;
      (split; [reflexivity |]); (split; [| reflexivity]);
      exists content, items; by repeat split.
  - do 2 eexists. split; [reflexivity |]. right. split; [| reflexivity].
    intros [_ (c & i & Hc & Hp & Ht)].
    assert (i = items) as -> by congruence. congruence.
Qed.

(** X4: the group creator never raises, whatever the state, the model and
    the backend do.  It calls the backend exactly when the guard lets the
    state through and the model's reply lets the activation go ahead, and
    then once, for the event id of the state, after its one model call; in
    every other case its log holds no backend call. *)
Theorem whatsapp_node_total (L : pylib) (w : world) (s : gmap string value) :
  exists out log,
    run (whatsapp_group_creator_node L w) s = (inr out, log)
    /\ ((passes_guard s = true /\ lets_activate L w
         /\ log = [LlmCall "whatsapp_group_creator";
                   UpdateEventStatus (field s "event_id") "scheduled"])
        \/ (~ (passes_guard s = true /\ lets_activate L w)
            /\ existsb is_backend_call log = false)).
Proof. apply whatsapp_node_cases. Qed.


(** X5: when the state passes the guard and the model call of the group
    creator raises, the node makes no backend call and returns the state
    with the error step, the error status and a message that carries the
    text of the exception; event_id and pending_event_id are as they were. *)
Theorem whatsapp_model_failure (L : pylib) (w : world) (s : gmap string value) (e : exn) :
  passes_guard s = true ->
  llm w "whatsapp_group_creator" = inl e ->
  exists out,
    run (whatsapp_group_creator_node L w) s
    = (inr out, [LlmCall "whatsapp_group_creator"])
    /\ out !! "bot_response" = Some (VStr ("❌ Error creando grupo: " +:+ exn_str e))
    /\ out !! "current_step" = Some (VStr "error")
    /\ out !! "processing_status" = Some (VStr "error")
    /\ out !! "event_id" = s !! "event_id"
    /\ out !! "pending_event_id" = s !! "pending_event_id".
Proof.
  intros Hguard Hllm. unfold passes_guard in Hguard.
  apply andb_true_iff in Hguard as [Hst Hid].
  unfold run, whatsapp_group_creator_node, bind, state_get, try_except, external.
  simpl. fold (field s "event_id") (field s "processing_status").
  rewrite Hst, Hid, Hllm. simpl.
  eexists. split; [reflexivity |]. repeat split; by simplify_map_eq.
Qed.

Lemma whatsapp_model_failure_witness :
  passes_guard state_creating_group = true
  /\ exists out,
       run (whatsapp_group_creator_node sample_lib
              (world_up (inl (Exception "timeout")) 0)) state_creating_group
       = (inr out, [LlmCall "whatsapp_group_creator"])
       /\ out !! "bot_response" = Some (VStr "❌ Error creando grupo: timeout").
Proof.
  split; [reflexivity |].
  destruct (whatsapp_model_failure sample_lib (world_up (inl (Exception "timeout")) 0)
              state_creating_group (Exception "timeout") eq_refl eq_refl)
    as (out & Hrun & Hbot & _).
  exists out. split; [exact Hrun | exact Hbot].
Defined.

(** X6: a reply of the model that is not JSON does not stop the activation:
    the fallback lets it go ahead.  When the state passes the guard and the
    backend's activation returns, the node answers with the fallback's
    message, the step pending_group and the status completed, and records
    pending_event_id. *)
Theorem whatsapp_unparseable_reply_activates
    (L : pylib) (w : world) (s : gmap string value) (content : string)
    (result : option Event) :
  passes_guard s = true ->
  llm w "whatsapp_group_creator" = inr content ->
  (forall fallback, parse_llm_response L content fallback = fallback) ->
  api_update_event_status w (field s "event_id") "scheduled" = inr result ->
  exists out,
    run (whatsapp_group_creator_node L w) s
    = (inr out, [LlmCall "whatsapp_group_creator";
                 UpdateEventStatus (field s "event_id") "scheduled"])
    /\ out !! "bot_response" = Some (VStr "Activando evento para generar grupo.")
    /\ out !! "current_step" = Some (VStr "pending_group")
    /\ out !! "processing_status" = Some (VStr "completed")
    /\ out !! "pending_event_id" = Some (field s "event_id")
    /\ whatsapp_decision out = "completed".
Proof.
  intros Hguard Hllm Hfb Hapi. unfold passes_guard in Hguard.
  apply andb_true_iff in Hguard as [Hst Hid].
  unfold run, whatsapp_group_creator_node, bind, state_get, try_except, external,
    activate_event, AIMessage.
  simpl. fold (field s "event_id") (field s "processing_status").
  rewrite Hst, Hid, Hllm. simpl. rewrite Hfb. simpl. rewrite Hapi. simpl.
  eexists. split; [reflexivity |].
  unfold whatsapp_decision. repeat split; by simplify_map_eq.
Qed.

Lemma whatsapp_unparseable_reply_activates_witness :
  passes_guard state_creating_group = true
  /\ exists out,
       run (whatsapp_group_creator_node sample_lib (world_up (inr "claro") 0))
           state_creating_group
       = (inr out, [LlmCall "whatsapp_group_creator";
                    UpdateEventStatus (field state_creating_group "event_id") "scheduled"])
       /\ out !! "current_step" = Some (VStr "pending_group").
Proof.
  split; [reflexivity |].
  destruct (whatsapp_unparseable_reply_activates sample_lib (world_up (inr "claro") 0)
              state_creating_group "claro" (Some (mkEvent (VStr "evt-1")))
              eq_refl eq_refl (fun fallback => eq_refl) eq_refl)
    as (out & Hrun & _ & Hstep & _).
  exists out. split; [exact Hrun | exact Hstep].
Defined.

(** ** The event service and the event creator, on every input *)

Lemma to_utc_aware (d d' : datetime) : to_utc d = inr d' -> tzinfo d' = Some 0.
Proof.
  unfold to_utc. destruct (tzinfo d) as [offset |].
  - destruct ((0 <=? wall d - offset) && (wall d - offset <=? datetime_max));
      [| discriminate]. by intros [= <-].
  - by intros [= <-].
Qed.

Lemma resolve_event_date_aware (L : pylib) (event_date : date_arg) (d : datetime) :
  resolve_event_date L event_date = inr d -> tzinfo d = Some 0.
Proof.
  unfold resolve_event_date.
  destruct event_date as [v | d0]; [| apply to_utc_aware].
  destruct v; try discriminate.
  destruct (parse_date_text L s) as [d0 |]; [apply to_utc_aware | discriminate].
Qed.

(** What a call of the service comes to: it raises with the heap as it was,
    or it hands the backend one input and passes its answer on. *)
Lemma create_event_for_campaign_inv (L : pylib) (w : world)
    (campaign_id name : value) (event_date : date_arg)
    (admins ctx tz : value) (h h' : heap) (r : exn + option Event) :
  create_event_for_campaign L w campaign_id name event_date admins ctx tz h = (r, h') ->
  (h' = h /\ exists e, r = inl e)
  \/ exists d,
       resolve_event_date L event_date = inr d
       /\ utcnow w < wall d
       /\ event_input_valid L
            (mkEventInput name campaign_id d admins ctx tz event_image) = true
       /\ r = api_create_event w (mkEventInput name campaign_id d admins ctx tz event_image)
       /\ h' = mkHeap (state h)
                 (calls h ++ [CreateEvent
                                (mkEventInput name campaign_id d admins ctx tz event_image)]).
Proof.
  unfold create_event_for_campaign, bind, lift, raise, external.
  destruct (resolve_event_date L event_date) as [e | d] eqn:Hres.
  { intros [= <- <-]. left. split; [reflexivity | by eexists]. }
  destruct (wall d <=? utcnow w) eqn:Hcmp.
  { intros [= <- <-]. left. split; [reflexivity | by eexists]. }
  destruct (event_input_valid L _) eqn:Hvalid.
  2: { intros [= <- <-]. left. split; [reflexivity | by eexists]. }
  intros [= <- <-]. right. exists d. apply Z.leb_gt in Hcmp. by repeat split.
Qed.

(** X7: whenever the event service reaches the backend, it does so once, and
    the date it hands over is in UTC and strictly after the current time;
    the name, the campaign id, the administrators, the context and the time
    zone name are the arguments it was given.  Otherwise it raises and the
    call log is as it was. *)
Theorem service_sends_future_utc_dates (L : pylib) (w : world)
    (campaign_id name : value) (event_date : date_arg)
    (admins ctx tz : value) (h h' : heap) (r : exn + option Event) :
  create_event_for_campaign L w campaign_id name event_date admins ctx tz h = (r, h') ->
  state h' = state h
  /\ ((calls h' = calls h /\ exists e, r = inl e)
      \/ exists input,
           calls h' = calls h ++ [CreateEvent input]
           /\ r = api_create_event w input
           /\ tzinfo (ei_event_date input) = Some 0
           /\ utcnow w < wall (ei_event_date input)
           /\ ei_name input = name
           /\ ei_campaign_id input = campaign_id
           /\ ei_administrators input = admins
           /\ ei_context input = ctx
           /\ ei_timezone input = tz).
Proof.
  intros H. apply create_event_for_campaign_inv in H
    as [[-> He] | (d & Hres & Hfuture & _ & -> & ->)].
  - split; [reflexivity |]. left. by split.
  - split; [reflexivity |]. right. eexists. split; [reflexivity |].
    apply resolve_event_date_aware in Hres. by repeat split.
Qed.

Lemma service_sends_future_utc_dates_witness :
  exists input,
    calls (snd (create_event_for_campaign dated_lib (world_up (inr go_ahead) new_year_2026)
                  (VStr "cmp-1") (VStr "Lanzamiento") (DateValue (VStr "2030-06-01"))
                  (VList [VStr "573103435489"]) VNone (VStr "America/Lima")
                  (mkHeap ∅ [])))
    = [CreateEvent input]
    /\ tzinfo (ei_event_date input) = Some 0
    /\ ei_timezone input = VStr "America/Lima".
Proof.
  destruct (create_event_for_campaign dated_lib (world_up (inr go_ahead) new_year_2026)
              (VStr "cmp-1") (VStr "Lanzamiento") (DateValue (VStr "2030-06-01"))
              (VList [VStr "573103435489"]) VNone (VStr "America/Lima") (mkHeap ∅ []))
    as [r h'] eqn:Hrun.
  pose proof (service_sends_future_utc_dates _ _ _ _ _ _ _ _ _ _ _ Hrun) as [_ Hcases].
  vm_compute in Hrun. injection Hrun as <- <-.
  destruct Hcases as [[Hc _] | (input & Hc & _ & Htz & _ & _ & _ & _ & _ & Hzone)].
  - simpl in Hc. discriminate.
  - exists input. simpl in *. by repeat split.
Defined.

(** X8: the event creator never raises, whatever the state, the model and
    the backend do, and it makes at most one backend call, after its one
    model call: the creation of an event whose date is in UTC and strictly
    after the current time, for the campaign id, the event name, the
    administrators and the context of the state. *)
Theorem event_creator_node_total (L : pylib) (w : world) (s : gmap string value) :
  exists out log,
    run (event_creator_node L w) s = (inr out, log)
    /\ (log = [LlmCall "event_creator"]
        \/ exists input,
             log = [LlmCall "event_creator"; CreateEvent input]
             /\ tzinfo (ei_event_date input) = Some 0
             /\ utcnow w < wall (ei_event_date input)
             /\ ei_campaign_id input = field s "campaign_id"
             /\ ei_name input = field s "event_name"
             /\ ei_administrators input = field s "admins"
             /\ ei_context input = field s "context").
Proof.
  unfold run, event_creator_node, bind, state_get, try_except, external, AIMessage.
  simpl.
  destruct (llm w "event_creator") as [e | content]; simpl.
  { do 2 eexists. split; [reflexivity | by left]. }
  destruct (parse_llm_response L content event_creator_fallback)
    as [ | | | | | items | ]; simpl;
    try (do 2 eexists; split; [reflexivity | by left]).
  destruct (truthy (default (VBool true) (assoc "should_create" items))); simpl.
  2: { do 2 eexists. split; [reflexivity | by left]. }
  rewrite !lookup_insert_ne by done.
  fold (field s "campaign_id") (field s "event_name") (field s "event_date")
    (field s "admins") (field s "context").
  destruct (create_event_for_campaign _ _ _ _ _ _ _ _ _) as [r h'] eqn:E.
  apply create_event_for_campaign_inv in E
    as [[-> [e ->]] | (d & Hres & Hfuture & _ & -> & ->)]; simpl.
  - destruct e; do 2 eexists; (split; [reflexivity | by left]).
  - apply resolve_event_date_aware in Hres.
    destruct (api_create_event w _) as [e | [ev |]]; simpl; [destruct e | |];
      do 2 eexists; (split; [reflexivity |]); right; eexists;
      (split; [reflexivity |]); by repeat split.
Qed.

(** The event creator up to its call of the service, when the model lets
    the creation go ahead. *)
Ltac enter_event_creation Hllm Hparse Hshould :=
  unfold run, event_creator_node, bind, state_get, try_except, external, AIMessage,
    item_or in *;
  simpl; rewrite Hllm; simpl; rewrite Hparse; simpl; rewrite Hshould; simpl;
  rewrite !lookup_insert_ne by done.

(** X9: when the model lets the creation go ahead and the event date of the
    state is a text that neither the ISO reader nor any of the four formats
    parses, the event creator makes no backend call and answers with the
    message "Invalid event_date format: " followed by the text, the error
    step and the error status; event_id is as it was and the turn ends. *)
Theorem event_creator_unparseable_date
    (L : pylib) (w : world) (s : gmap string value) (tz : value) (text : string) :
  lets_create L w tz ->
  field s "event_date" = VStr text ->
  parse_date_text L text = None ->
  exists out,
    run (event_creator_node L w) s = (inr out, [LlmCall "event_creator"])
    /\ out !! "bot_response" = Some (VStr ("Invalid event_date format: " +:+ text))
    /\ out !! "current_step" = Some (VStr "error")
    /\ out !! "processing_status" = Some (VStr "error")
    /\ out !! "event_id" = s !! "event_id"
    /\ next_node EventCreator out = Some END.
Proof.
  intros (content & items & Hllm & Hparse & Hshould & _) Hdate Hnone.
  enter_event_creation Hllm Hparse Hshould.
  fold (field s "event_date"). rewrite Hdate.
  unfold create_event_for_campaign, bind, lift, resolve_event_date. rewrite Hnone. simpl.
  eexists. split; [reflexivity |].
  unfold next_node, event_creator_decision. repeat split; by simplify_map_eq.
Qed.

Lemma event_creator_unparseable_date_witness :
  lets_create dated_lib (world_up (inr go_ahead) new_year_2026) VNone
  /\ parse_date_text dated_lib "mañana" = None
  /\ exists out,
       run (event_creator_node dated_lib (world_up (inr go_ahead) new_year_2026))
           state_unreadable_date
       = (inr out, [LlmCall "event_creator"])
       /\ out !! "bot_response" = Some (VStr "Invalid event_date format: mañana").
Proof.
  assert (Hlets : lets_create dated_lib (world_up (inr go_ahead) new_year_2026) VNone).
  { exists go_ahead. eexists. repeat split; reflexivity. }
  split; [exact Hlets |]. split; [reflexivity |].
  destruct (event_creator_unparseable_date dated_lib _
              state_unreadable_date VNone "mañana"
              Hlets eq_refl eq_refl) as (out & Hrun & Hbot & _).
  exists out. split; [exact Hrun | exact Hbot].
Defined.

(** X10: when the model lets the creation go ahead and the state has no
    event date, or one that is not a string, the event creator makes no
    backend call and answers with its general failure message, the error
    step and the error status. *)
Theorem event_creator_missing_date
    (L : pylib) (w : world) (s : gmap string value) (tz : value) :
  lets_create L w tz ->
  (forall text, field s "event_date" <> VStr text) ->
  exists out,
    run (event_creator_node L w) s = (inr out, [LlmCall "event_creator"])
    /\ out !! "bot_response"
       = Some (VStr "❌ No pude crear el evento. Por favor revisa los datos y vuelve a intentarlo.")
    /\ out !! "current_step" = Some (VStr "error")
    /\ out !! "processing_status" = Some (VStr "error")
    /\ next_node EventCreator out = Some END.
Proof.
  intros (content & items & Hllm & Hparse & Hshould & _) Hdate.
  enter_event_creation Hllm Hparse Hshould.
  fold (field s "event_date").
  unfold create_event_for_campaign, bind, lift, resolve_event_date.
  destruct (field s "event_date") as [ | | | text | | | ]; try (by destruct (Hdate text));
    simpl; (eexists; split; [reflexivity |]);
    unfold next_node, event_creator_decision; repeat split; by simplify_map_eq.
Qed.

Lemma event_creator_missing_date_witness :
  lets_create dated_lib (world_up (inr go_ahead) new_year_2026) VNone
  /\ exists out,
       run (event_creator_node dated_lib (world_up (inr go_ahead) new_year_2026))
           state_no_date
       = (inr out, [LlmCall "event_creator"])
       /\ out !! "current_step" = Some (VStr "error").
Proof.
  assert (Hlets : lets_create dated_lib (world_up (inr go_ahead) new_year_2026) VNone).
  { exists go_ahead. eexists. repeat split; reflexivity. }
  split; [exact Hlets |].
  destruct (event_creator_missing_date dated_lib _
              state_no_date VNone Hlets
              ltac:(intros text; vm_compute; discriminate))
    as (out & Hrun & _ & Hstep & _).
  exists out. split; [exact Hrun | exact Hstep].
Defined.

(** X11: when the model lets the creation go ahead, the date of the state
    resolves to an instant after the current time, the input is valid and
    the backend returns an event, the event creator makes that one backend
    call, with the model's time zone or "America/Bogota" when it gives
    none, stores the id of the event under event_id and moves to the step
    create_whatsapp_group with the status creating_group.  The graph then
    runs the group creator, whose guard the state passes exactly when the
    id the backend returned is not empty. *)
Theorem event_creator_success
    (L : pylib) (w : world) (s : gmap string value)
    (tz : value) (d : datetime) (ev : Event) :
  lets_create L w tz ->
  resolve_event_date L (DateValue (field s "event_date")) = inr d ->
  utcnow w < wall d ->
  event_input_valid L (event_input_for s tz d) = true ->
  api_create_event w (event_input_for s tz d) = inr (Some ev) ->
  exists out,
    run (event_creator_node L w) s
    = (inr out, [LlmCall "event_creator"; CreateEvent (event_input_for s tz d)])
    /\ out !! "event_id" = Some (event_id_of ev)
    /\ out !! "current_step" = Some (VStr "create_whatsapp_group")
    /\ out !! "processing_status" = Some (VStr "creating_group")
    /\ next_node EventCreator out = Some WhatsappGroupCreator
    /\ passes_guard out = truthy (event_id_of ev).
Proof.
  intros (content & items & Hllm & Hparse & Hshould & Htz) Hres Hfuture Hvalid Hapi.
  unfold event_input_for in *.
  enter_event_creation Hllm Hparse Hshould.
  fold (field s "campaign_id") (field s "event_name") (field s "event_date")
    (field s "admins") (field s "context").
  unfold create_event_for_campaign, bind, lift. rewrite Hres.
  apply Z.leb_gt in Hfuture. rewrite Hfuture. rewrite Htz, Hvalid.
  unfold external. simpl. rewrite Hapi. simpl.
  eexists. split; [reflexivity |].
  unfold next_node, event_creator_decision, passes_guard, field.
  repeat split; simplify_map_eq; done.
Qed.

Lemma event_creator_success_witness :
  lets_create dated_lib (world_up (inr go_ahead) new_year_2026) VNone
  /\ exists out,
       run (event_creator_node dated_lib (world_up (inr go_ahead) new_year_2026))
           state_future_date
       = (inr out,
          [LlmCall "event_creator";
           CreateEvent (event_input_for state_future_date VNone
                          (mkDatetime 64042099200000000 (Some 0)))])
       /\ out !! "event_id" = Some (VStr "evt-1")
       /\ passes_guard out = true.
Proof.
  assert (Hlets : lets_create dated_lib (world_up (inr go_ahead) new_year_2026) VNone).
  { exists go_ahead. eexists. repeat split; reflexivity. }
  split; [exact Hlets |].
  destruct (event_creator_success dated_lib (world_up (inr go_ahead) new_year_2026)
              state_future_date VNone (mkDatetime 64042099200000000 (Some 0))
              (mkEvent (VStr "evt-1")) Hlets eq_refl
              ltac:(vm_compute; reflexivity) eq_refl eq_refl)
    as (out & Hrun & Hid & _ & _ & _ & Hguard).
  exists out. split; [exact Hrun |]. split; [exact Hid | exact Hguard].
Defined.

(** X12: when the model lets the creation go ahead, the date and the input
    are good and the backend's call raises, the event creator answers with
    its general failure message, the error step and the error status;
    event_id is as it was, and the turn ends without the group creator. *)
Theorem event_creator_backend_failure
    (L : pylib) (w : world) (s : gmap string value)
    (tz : value) (d : datetime) (message : string) :
  lets_create L w tz ->
  resolve_event_date L (DateValue (field s "event_date")) = inr d ->
  utcnow w < wall d ->
  event_input_valid L (event_input_for s tz d) = true ->
  api_create_event w (event_input_for s tz d) = inl (Exception message) ->
  exists out,
    run (event_creator_node L w) s
    = (inr out, [LlmCall "event_creator"; CreateEvent (event_input_for s tz d)])
    /\ out !! "bot_response"
       = Some (VStr "❌ No pude crear el evento. Por favor revisa los datos y vuelve a intentarlo.")
    /\ out !! "current_step" = Some (VStr "error")
    /\ out !! "processing_status" = Some (VStr "error")
    /\ out !! "event_id" = s !! "event_id"
    /\ next_node EventCreator out = Some END.
Proof.
  intros (content & items & Hllm & Hparse & Hshould & Htz) Hres Hfuture Hvalid Hapi.
  unfold event_input_for in *.
  enter_event_creation Hllm Hparse Hshould.
  fold (field s "campaign_id") (field s "event_name") (field s "event_date")
    (field s "admins") (field s "context").
  unfold create_event_for_campaign, bind, lift. rewrite Hres.
  apply Z.leb_gt in Hfuture. rewrite Hfuture. rewrite Htz, Hvalid.
  unfold external. simpl. rewrite Hapi. simpl.
  eexists. split; [reflexivity |].
  unfold next_node, event_creator_decision.
  repeat split; by simplify_map_eq.
Qed.

Lemma event_creator_backend_failure_witness :
  lets_create dated_lib (world_down (inr go_ahead) new_year_2026) VNone
  /\ exists out,
       run (event_creator_node dated_lib (world_down (inr go_ahead) new_year_2026))
           state_future_date
       = (inr out,
          [LlmCall "event_creator";
           CreateEvent (event_input_for state_future_date VNone
                          (mkDatetime 64042099200000000 (Some 0)))])
       /\ out !! "current_step" = Some (VStr "error")
       /\ out !! "event_id" = None.
Proof.
  assert (Hlets : lets_create dated_lib (world_down (inr go_ahead) new_year_2026) VNone).
  { exists go_ahead. eexists. repeat split; reflexivity. }
  split; [exact Hlets |].
  destruct (event_creator_backend_failure dated_lib
              (world_down (inr go_ahead) new_year_2026)
              state_future_date VNone (mkDatetime 64042099200000000 (Some 0))
              "backend down" Hlets eq_refl
              ltac:(vm_compute; reflexivity) eq_refl eq_refl)
    as (out & Hrun & _ & Hstep & _ & Hid & _).
  exists out. split; [exact Hrun |]. split; [exact Hstep | exact Hid].
Defined.

(** ** From the event creator to the group creator *)

Lemma apply_node_return_present (stored returned : gmap string value)
    (k : string) (v : value) :
  k <> "messages" ->
  returned !! k = Some v ->
  apply_node_return stored returned !! k = Some v.
Proof.
  intros Hk Hsome. unfold apply_node_return.
  destruct (returned !! "messages");
    rewrite ?lookup_insert_ne by done;
    by apply lookup_union_Some_l.
Qed.

(** The cases of a run of the event creator when the model lets the
    creation go ahead: an error answer, or the id of the created event with
    the status creating_group. *)
Lemma event_creator_approved_cases (L : pylib) (w : world) (s : gmap string value)
    (tz : value) :
  lets_create L w tz ->
  exists out log,
    run (event_creator_node L w) s = (inr out, log)
    /\ ((out !! "current_step" = Some (VStr "error")
         /\ out !! "processing_status" = Some (VStr "error")
         /\ out !! "event_id" = s !! "event_id"
         /\ (log = [LlmCall "event_creator"]
             \/ exists input, log = [LlmCall "event_creator"; CreateEvent input]))
        \/ exists input ev,
             log = [LlmCall "event_creator"; CreateEvent input]
             /\ api_create_event w input = inr (Some ev)
             /\ out !! "event_id" = Some (event_id_of ev)
             /\ out !! "current_step" = Some (VStr "create_whatsapp_group")
             /\ out !! "processing_status" = Some (VStr "creating_group")).
Proof.
  intros (content & items & Hllm & Hparse & Hshould & _).
  enter_event_creation Hllm Hparse Hshould.
  destruct (create_event_for_campaign _ _ _ _ _ _ _ _ _) as [r h'] eqn:E.
  apply create_event_for_campaign_inv in E
    as [[-> [e ->]] | (d & Hres & Hfuture & _ & -> & ->)]; simpl.
  - destruct e; do 2 eexists; (split; [reflexivity |]); left;
      (split; [by simplify_map_eq |]); (split; [by simplify_map_eq |]);
      (split; [by simplify_map_eq | by left]).
  - destruct (api_create_event w _) as [e | [ev |]] eqn:Hapi; simpl; [destruct e | |];
      do 2 eexists; (split; [reflexivity |]);
      first [ right; do 2 eexists; split; [reflexivity |];
              split; [exact Hapi |]; repeat split; by simplify_map_eq
            | left; (split; [by simplify_map_eq |]); (split; [by simplify_map_eq |]);
              (split; [by simplify_map_eq | right; by eexists]) ].
Qed.

(** X13: when the model lets the creation go ahead, the end of the creation
    pipeline activates an event only after the backend has created it in
    the same turn: a status update in the log is the last of four calls,
    it follows the creation call whose answer carried the id it names, that
    id is not empty, and the new status is "scheduled". *)
Theorem activation_follows_creation
    (L : pylib) (w : world) (s : gmap string value) (tz : value)
    (r : exn + gmap string value) (log : list call) (id : value) (status : string) :
  lets_create L w tz ->
  creation_tail L w s = (r, log) ->
  In (UpdateEventStatus id status) log ->
  exists input ev,
    log = [LlmCall "event_creator"; CreateEvent input;
           LlmCall "whatsapp_group_creator"; UpdateEventStatus id "scheduled"]
    /\ api_create_event w input = inr (Some ev)
    /\ event_id_of ev = id
    /\ truthy id = true
    /\ status = "scheduled".
Proof.
  intros Hlets Htail Hin. unfold creation_tail in Htail.
  destruct (event_creator_approved_cases L w s tz Hlets)
    as (out & log1 & Hrun & [(Hcs & Hps & _ & Hlog) | (input & ev & -> & Hapi & Hid & Hcs & Hps)]);
    rewrite Hrun in Htail.
  - assert (Hnext : next_node EventCreator out = Some END).
    { unfold next_node, event_creator_decision. by rewrite Hcs, Hps. }
    rewrite Hnext in Htail. injection Htail as <- <-.
    destruct Hlog as [-> | [input ->]]; simpl in Hin; intuition discriminate.
  - assert (Hnext : next_node EventCreator out = Some WhatsappGroupCreator).
    { unfold next_node, event_creator_decision. by rewrite Hcs, Hps. }
    rewrite Hnext in Htail.
    destruct (whatsapp_node_cases L w (apply_node_return s out))
      as (out2 & log2 & Hrun2 & Hcases).
    rewrite Hrun2 in Htail. injection Htail as <- <-.
    assert (Hfield : field (apply_node_return s out) "event_id" = event_id_of ev).
    { unfold field. by rewrite (apply_node_return_present s out "event_id" _ ltac:(done) Hid). }
    destruct Hcases as [(Hguard & _ & ->) | (_ & Hno)].
    + rewrite Hfield in *. simpl in Hin.
      destruct Hin as [Hin | [Hin | [Hin | [Hin | []]]]]; try discriminate.
      injection Hin as <- <-.
      exists input, ev. split; [reflexivity |]. split; [exact Hapi |].
      split; [reflexivity |]. split; [| reflexivity].
      unfold passes_guard in Hguard. apply andb_true_iff in Hguard as [_ Hguard].
      by rewrite Hfield in Hguard.
    + simpl in Hin. destruct Hin as [Hin | [Hin | Hin]]; try discriminate.
      exfalso. assert (Hex : existsb is_backend_call log2 = true).
      { apply existsb_exists. by exists (UpdateEventStatus id status). }
      congruence.
Qed.

Lemma activation_follows_creation_witness :
  lets_create dated_lib (world_up (inr go_ahead) new_year_2026) VNone
  /\ exists input ev,
       snd (creation_tail dated_lib (world_up (inr go_ahead) new_year_2026)
              state_future_date)
       = [LlmCall "event_creator"; CreateEvent input;
          LlmCall "whatsapp_group_creator";
          UpdateEventStatus (VStr "evt-1") "scheduled"]
       /\ api_create_event (world_up (inr go_ahead) new_year_2026) input = inr (Some ev)
       /\ event_id_of ev = VStr "evt-1".
Proof.
  assert (Hlets : lets_create dated_lib (world_up (inr go_ahead) new_year_2026) VNone).
  { exists go_ahead. eexists. repeat split; reflexivity. }
  split; [exact Hlets |].
  destruct (creation_tail dated_lib (world_up (inr go_ahead) new_year_2026)
              state_future_date) as [r log] eqn:Htail.
  assert (Hin : In (UpdateEventStatus (VStr "evt-1") "scheduled") log).
  { assert (Hlog : log = snd (creation_tail dated_lib
                                (world_up (inr go_ahead) new_year_2026)
                                state_future_date)) by (by rewrite Htail).
    rewrite Hlog. vm_compute. tauto. }
  destruct (activation_follows_creation _ _ _ _ _ _ _ _ Hlets Htail Hin)
    as (input & ev & Hlog & Hapi & Hid & _ & _).
  exists input, ev. simpl. by repeat split.
Defined.

(** X14: the event creator's veto branch copies the step and the status the
    model names.  When the reply says no and yet names the step
    create_whatsapp_group with the status creating_group, the state has a
    non-empty event_id and the group creator's model lets the activation go
    ahead, the pipeline activates that event id without any creation call. *)
Theorem veto_can_reach_activation (L : pylib) (w : world) (s : gmap string value) :
  vetoes_but_moves_on L w ->
  truthy (field s "event_id") = true ->
  lets_activate L w ->
  exists r,
    creation_tail L w s
    = (r, [LlmCall "event_creator"; LlmCall "whatsapp_group_creator";
           UpdateEventStatus (field s "event_id") "scheduled"]).
Proof.
  intros (content & items & Hllm & Hparse & Hshould & Hstep & Hstatus) Hid Hact.
  unfold creation_tail.
  unfold run at 1.
  unfold event_creator_node, bind, state_get, try_except, external, AIMessage,
    item_or in *.
  simpl. rewrite Hllm. simpl. rewrite Hparse. simpl. rewrite Hshould. simpl.
  unfold state_set, return_state. simpl.
  rewrite Hstep, Hstatus.
  match goal with
  | |- context [event_creator_edges (event_creator_decision ?out)] =>
      set (out1 := out);
      assert (Hnext : event_creator_edges (event_creator_decision out1)
                      = Some WhatsappGroupCreator)
        by (unfold event_creator_decision, out1; by simplify_map_eq)
  end.
  rewrite Hnext.
  assert (Hfid : field (apply_node_return s out1) "event_id" = field s "event_id").
  { unfold field in *. destruct (s !! "event_id") as [v |] eqn:Hv; [| discriminate].
    rewrite (apply_node_return_present s out1 "event_id" v); [done | done |].
    unfold out1. by simplify_map_eq. }
  assert (Hfst : field (apply_node_return s out1) "processing_status"
                 = VStr "creating_group").
  { unfold field.
    rewrite (apply_node_return_present s out1 "processing_status" (VStr "creating_group"));
      [done | done |].
    unfold out1. by simplify_map_eq. }
  destruct (whatsapp_node_cases L w (apply_node_return s out1))
    as (out2 & log2 & Hrun2 & [(_ & _ & ->) | (Hnot & _)]).
  - rewrite Hrun2, Hfid. by eexists.
  - exfalso. apply Hnot. split; [| exact Hact].
    unfold passes_guard. by rewrite Hfst, Hfid, Hid.
Qed.

Lemma veto_can_reach_activation_witness :
  vetoes_but_moves_on moving_on_lib moving_on_world
  /\ truthy (field state_pending_group "event_id") = true
  /\ lets_activate moving_on_lib moving_on_world
  /\ exists r,
       creation_tail moving_on_lib moving_on_world state_pending_group
       = (r, [LlmCall "event_creator"; LlmCall "whatsapp_group_creator";
              UpdateEventStatus (field state_pending_group "event_id") "scheduled"]).
Proof.
  assert (Hveto : vetoes_but_moves_on moving_on_lib moving_on_world).
  { exists moving_on_reply. eexists. repeat split; reflexivity. }
  assert (Hact : lets_activate moving_on_lib moving_on_world).
  { exists go_ahead. eexists. repeat split; reflexivity. }
  split; [exact Hveto |]. split; [reflexivity |]. split; [exact Hact |].
  exact (veto_can_reach_activation moving_on_lib moving_on_world state_pending_group
           Hveto eq_refl Hact).
Defined.

(** ** The router, step by step *)

(** The router on a reply about campaigns: the run of the in-domain branch
    decides what is returned. *)
Lemma router_node_in_domain (L : pylib) (w : world) (s : gmap string value)
    (d p : list (string * value)) (text : string) :
  message_text s text ->
  router_reply L w d p ->
  exists content r h',
    router_in_domain L (VDict d) (step_of s) (VStr text)
      (mkHeap (<["messages" := VMessage (VStr content) "router"]> s) [LlmCall "router"])
    = (r, h')
    /\ calls h' = [LlmCall "router"]
    /\ run (router_node L w) s
       = (inr (match r with
               | inl _ => <["bot_response" := VStr router_error_message]> (state h')
               | inr _ => state h'
               end), [LlmCall "router"]).
Proof.
  intros Hum (content & Hllm & Hload & Hrel & _). unfold message_text in Hum.
  exists content.
  unfold run, router_node, bind, state_get, try_except, external, AIMessage, step_of.
  simpl. rewrite Hum. simpl. rewrite Hllm. simpl. rewrite Hload. simpl.
  unfold item_or in Hrel. rewrite Hrel. simpl.
  destruct (router_in_domain _ _ _ _ _) as [r h'] eqn:E.
  exists r, h'. split; [reflexivity |].
  pose proof (router_in_domain_inv _ _ _ _ _ _ _ E) as (Hcalls & _ & _).
  simpl in Hcalls. split; [exact Hcalls |].
  destruct r; simpl; by rewrite Hcalls.
Qed.

(** The in-domain branch on a dict reply with a dict as parsed part and a
    string as message: its blocks all return, one after the other. *)
Lemma router_in_domain_steps (L : pylib) (d p : list (string * value))
    (cs : value) (text : string) (h h' : heap) (r : exn + unit) :
  py_or (item_or (VDict []) "parsed" d) (VDict []) = VDict p ->
  router_in_domain L (VDict d) cs (VStr text) h = (r, h') ->
  exists h1 h2 h3,
    frame ["current_step"; "bot_response"; "processing_status"] h h1
    /\ (state h1 !! "current_step" = Some (item_or cs "next_step" d)
        /\ state h1 !! "processing_status"
           = if eq_str (item_or (VStr "idle") "processing_status" d) "checking_status"
                || eq_str (item_or (VStr "idle") "processing_status" d) "out_of_context"
             then Some (item_or (VStr "idle") "processing_status" d)
             else state h !! "processing_status")
    /\ router_fields L (VDict p) cs (VStr text) h1 = (inr tt, h2)
    /\ router_confirmation (VDict p) h2 = (inr tt, h3)
    /\ router_event_id L (VDict p) h3 = (inr tt, h').
Proof.
  intros Hp H. unfold router_in_domain in H.
  split_bind H H1; prim_step H1.
  split_bind H H2; prim_step H2.
  split_bind H H3; prim_step H3.
  split_bind H H4; prim_step H4.
  split_bind H H5; prim_step H5.
  match type of H with
  | _ ?h0 = _ => remember h0 as hb eqn:Hhb
  end.
  assert (Hb : frame ["current_step"; "bot_response"; "processing_status"] h hb
               /\ state hb !! "current_step" = Some (item_or cs "next_step" d)).
  { subst hb. split; [| simpl; by simplify_map_eq].
    split; [reflexivity |]. simpl. intros k Hk.
    apply orb_false_iff in Hk as [Hk1 Hk]. apply orb_false_iff in Hk as [Hk2 _].
    apply String.eqb_neq in Hk1, Hk2. by rewrite !lookup_insert_ne. }
  assert (Hbp : state hb !! "processing_status" = state h !! "processing_status").
  { subst hb. simpl. by rewrite !lookup_insert_ne. }
  clear Hhb. destruct Hb as [Hbf Hbs].
  split_bind H H6; pose proof (adopt_status_inv _ _ _ _ H6) as (Hr6 & Hf6 & _);
    [discriminate |].
  assert (Hadopt : state x0 !! "processing_status"
                   = if eq_str (item_or (VStr "idle") "processing_status" d)
                          "checking_status"
                        || eq_str (item_or (VStr "idle") "processing_status" d)
                             "out_of_context"
                     then Some (item_or (VStr "idle") "processing_status" d)
                     else state h !! "processing_status").
  { unfold item_or.
    destruct (eq_str (default (VStr "idle") (assoc "processing_status" d))
                "checking_status"
              || eq_str (default (VStr "idle") (assoc "processing_status" d))
                   "out_of_context");
      unfold state_set, ret in H6; injection H6 as _ <-; simpl;
      [by rewrite lookup_insert_eq | exact Hbp]. }
  split_bind H H7; prim_step H7.
  fold (item_or (VDict []) "parsed" d) in H. rewrite Hp in H.
  assert (Hh1 : frame ["current_step"; "bot_response"; "processing_status"] h x0
                /\ (state x0 !! "current_step" = Some (item_or cs "next_step" d)
                    /\ state x0 !! "processing_status"
                       = if eq_str (item_or (VStr "idle") "processing_status" d)
                              "checking_status"
                            || eq_str (item_or (VStr "idle") "processing_status" d)
                                 "out_of_context"
                         then Some (item_or (VStr "idle") "processing_status" d)
                         else state h !! "processing_status")).
  { split.
    - eapply frame_trans; [exact Hbf |].
      eapply frame_weaken; [| exact Hf6]. simpl. intros k Hk.
      apply orb_false_iff in Hk as [_ Hk]. apply orb_false_iff in Hk as [_ Hk].
      by rewrite Hk.
    - split; [by rewrite (frame_lookup _ _ _ _ Hf6) | exact Hadopt]. }
  split_bind H Hfields.
  { apply router_fields_inv in Hfields as [_ Hok].
    specialize (Hok p text eq_refl eq_refl). discriminate. }
  split_bind H Hconf.
  { unfold router_confirmation, bind, get, ret, return_state, state_set in Hconf.
    simpl in Hconf.
    repeat match type of Hconf with
           | context [if ?b then _ else _] => destruct b; simpl in Hconf
           end; discriminate. }
  split_bind H Hevent.
  { apply router_event_id_inv in Hevent as [_ Hok]. specialize (Hok p eq_refl).
    discriminate. }
  destruct x1, x3, x5.
  exists x0, x2, x4. destruct Hh1 as [Hf Hs].
  split; [exact Hf |]. split; [exact Hs |]. split; [exact Hfields |].
  split; [exact Hconf |].
  unfold bind, state_item, log_slice, ret, raise in H.
  destruct (state x6 !! "bot_response") as [v |]; [destruct v |];
    injection H as _ <-; exact Hevent.
Qed.

Lemma absorb_text_run (L : pylib) (p : list (string * value)) (cs : value)
    (text k : string) (h h' : heap) (r : exn + unit) :
  absorb_text L (VDict p) cs (VStr text) k h = (r, h') ->
  state h' !! k
  = if truthy (item_or VNone k p) then Some (VStr (strip L (py_str L (item_or VNone k p))))
    else if eq_str cs k && truthy (VStr (strip L text)) then Some (VStr (strip L text))
    else state h !! k.
Proof.
  unfold absorb_text, bind, get, text_of, ret, state_set, item_or. simpl.
  destruct (truthy (default VNone (assoc k p))).
  { intros [= <- <-]. simpl. by rewrite lookup_insert_eq. }
  destruct (eq_str cs k); simpl; [| by intros [= <- <-]].
  destruct (strip L text); intros [= <- <-]; simpl; [done |].
  by rewrite lookup_insert_eq.
Qed.

Lemma router_fields_text (L : pylib) (p : list (string * value)) (cs : value)
    (text k : string) (h h' : heap) (r : exn + unit) :
  In k text_keys ->
  router_fields L (VDict p) cs (VStr text) h = (r, h') ->
  r = inr tt ->
  state h' !! k
  = if truthy (item_or VNone k p) then Some (VStr (strip L (py_str L (item_or VNone k p))))
    else if eq_str cs k && truthy (VStr (strip L text)) then Some (VStr (strip L text))
    else state h !! k.
Proof.
  intros Hk H Hr. unfold router_fields in H.
  split_bind H H1; [discriminate |]. split_bind H H2; [discriminate |].
  split_bind H H3; [discriminate |]. split_bind H H4; [discriminate |].
  split_bind H H5; [discriminate |].
  pose proof (absorb_text_run _ _ _ _ _ _ _ _ H1) as R1.
  pose proof (absorb_text_run _ _ _ _ _ _ _ _ H2) as R2.
  pose proof (absorb_text_run _ _ _ _ _ _ _ _ H3) as R3.
  pose proof (absorb_text_run _ _ _ _ _ _ _ _ H4) as R4.
  pose proof (absorb_text_run _ _ _ _ _ _ _ _ H) as R6.
  apply absorb_text_inv in H1 as [F1 _], H2 as [F2 _], H3 as [F3 _], H4 as [F4 _],
    H as [F6 _].
  apply absorb_admins_inv in H5 as [F5 _].
  simpl in Hk.
  destruct Hk as [<- | [<- | [<- | [<- | [<- | []]]]]].
  - rewrite (frame_lookup _ _ _ _ F6), (frame_lookup _ _ _ _ F5),
      (frame_lookup _ _ _ _ F4), (frame_lookup _ _ _ _ F3),
      (frame_lookup _ _ _ _ F2) by reflexivity. exact R1.
  - rewrite (frame_lookup _ _ _ _ F6), (frame_lookup _ _ _ _ F5),
      (frame_lookup _ _ _ _ F4), (frame_lookup _ _ _ _ F3) by reflexivity.
    rewrite R2. by rewrite (frame_lookup _ _ _ _ F1).
  - rewrite (frame_lookup _ _ _ _ F6), (frame_lookup _ _ _ _ F5),
      (frame_lookup _ _ _ _ F4) by reflexivity.
    rewrite R3. by rewrite (frame_lookup _ _ _ _ F2), (frame_lookup _ _ _ _ F1).
  - rewrite (frame_lookup _ _ _ _ F6), (frame_lookup _ _ _ _ F5) by reflexivity.
    rewrite R4.
    by rewrite (frame_lookup _ _ _ _ F3), (frame_lookup _ _ _ _ F2),
      (frame_lookup _ _ _ _ F1).
  - rewrite R6.
    by rewrite (frame_lookup _ _ _ _ F5), (frame_lookup _ _ _ _ F4),
      (frame_lookup _ _ _ _ F3), (frame_lookup _ _ _ _ F2), (frame_lookup _ _ _ _ F1).
Qed.

Lemma text_key_frames (k : string) :
  In k text_keys ->
  existsb (String.eqb k) ["current_step"; "bot_response"; "processing_status"] = false
  /\ existsb (String.eqb k) ["bot_response"; "processing_status"] = false
  /\ existsb (String.eqb k) ["event_id"] = false
  /\ k <> "bot_response" /\ k <> "messages".
Proof.
  simpl. intros [<- | [<- | [<- | [<- | [<- | []]]]]]; by repeat split.
Qed.

(** X15: what the router makes of a text field.  On a reply about campaigns,
    each of campaign_name, event_name, event_date, timezone and context is,
    in the returned state, the stripped text of the model's parsed value
    when that value is not empty (also when stripping leaves nothing); else
    the stripped user message when the turn began at the step of that name
    and the message is not blank; else what it was. *)
Theorem router_text_field (L : pylib) (w : world) (s : gmap string value)
    (d p : list (string * value)) (text k : string) :
  message_text s text ->
  router_reply L w d p ->
  In k text_keys ->
  exists out,
    run (router_node L w) s = (inr out, [LlmCall "router"])
    /\ out !! k
       = if truthy (item_or VNone k p)
         then Some (VStr (strip L (py_str L (item_or VNone k p))))
         else if eq_str (step_of s) k && truthy (VStr (strip L text))
         then Some (VStr (strip L text))
         else s !! k.
Proof.
  intros Hum Hreply Hk.
  destruct (text_key_frames k Hk) as (K1 & K2 & K3 & K4 & K5).
  pose proof Hreply as (c0 & _ & _ & _ & Hp).
  destruct (router_node_in_domain L w s d p text Hum Hreply)
    as (content & r & h' & Hrun & _ & Hout).
  destruct (router_in_domain_steps _ _ _ _ _ _ _ _ Hp Hrun)
    as (h1 & h2 & h3 & F1 & _ & Hfields & Hconf & Hevent).
  pose proof (router_fields_text _ _ _ _ _ _ _ _ Hk Hfields eq_refl) as Hval.
  apply router_confirmation_inv in Hconf as (F2 & _ & _).
  apply router_event_id_inv in Hevent as (F3 & _).
  assert (Hfinal : state h' !! k = state h2 !! k).
  { by rewrite (frame_lookup _ _ _ _ F3), (frame_lookup _ _ _ _ F2). }
  assert (Hstart : state h1 !! k = s !! k).
  { rewrite (frame_lookup _ _ _ _ F1) by done. simpl. by rewrite lookup_insert_ne. }
  eexists. split; [exact Hout |].
  rewrite <- Hstart, <- Hval, <- Hfinal.
  destruct r; [by rewrite lookup_insert_ne | reflexivity].
Qed.

Lemma router_text_field_witness :
  message_text state_event_name "Lanzamiento"
  /\ router_reply plain_lib (world_down (inr plain_reply) 0) plain_json [("admins", VNone)]
  /\ exists out,
       run (router_node plain_lib (world_down (inr plain_reply) 0)) state_event_name
       = (inr out, [LlmCall "router"])
       /\ out !! "event_name" = Some (VStr "Lanzamiento").
Proof.
  assert (Hreply : router_reply plain_lib (world_down (inr plain_reply) 0)
                     plain_json [("admins", VNone)]).
  { exists plain_reply. repeat split; reflexivity. }
  split; [reflexivity |]. split; [exact Hreply |].
  destruct (router_text_field plain_lib (world_down (inr plain_reply) 0)
              state_event_name plain_json [("admins", VNone)] "Lanzamiento" "event_name"
              eq_refl Hreply ltac:(simpl; tauto)) as (out & Hrun & Hval).
  exists out. split; [exact Hrun | exact Hval].
Defined.

Lemma router_confirmation_run (p : list (string * value)) (h h' : heap)
    (r : exn + unit) :
  router_confirmation (VDict p) h = (r, h') ->
  state h' !! "processing_status"
  = if is_not_none (item_or VNone "user_confirms" p) then
      if truthy (item_or VNone "user_confirms" p) then
        if py_all (required_data (state h)) then Some (VStr "creating_campaign")
        else Some (VStr "idle")
      else Some (VStr "idle")
    else state h !! "processing_status".
Proof.
  unfold router_confirmation, bind, get, ret, return_state, state_set, item_or. simpl.
  destruct (is_not_none (default VNone (assoc "user_confirms" p)));
    [| by intros [= <- <-]].
  destruct (truthy (default VNone (assoc "user_confirms" p))).
  - destruct (py_all (required_data (state h))); simpl; intros [= <- <-]; simpl;
      by simplify_map_eq.
  - intros [= <- <-]. simpl. by simplify_map_eq.
Qed.

(** X16: the status the router returns when the user does not confirm.  On
    a reply about campaigns whose user_confirms is false, the returned
    processing_status is idle.  When the reply has no user_confirms (or
    null), the status named by the model is taken over only when it is
    checking_status or out_of_context; any other status it names,
    creating_campaign included, is ignored and the status stays what it
    was. *)
Theorem router_status_without_confirmation
    (L : pylib) (w : world) (s : gmap string value)
    (d p : list (string * value)) (text : string) :
  message_text s text ->
  router_reply L w d p ->
  truthy (item_or VNone "user_confirms" p) = false ->
  exists out,
    run (router_node L w) s = (inr out, [LlmCall "router"])
    /\ out !! "processing_status"
       = if is_not_none (item_or VNone "user_confirms" p) then Some (VStr "idle")
         else if eq_str (item_or (VStr "idle") "processing_status" d) "checking_status"
                 || eq_str (item_or (VStr "idle") "processing_status" d) "out_of_context"
         then Some (item_or (VStr "idle") "processing_status" d)
         else s !! "processing_status".
Proof.
  intros Hum Hreply Hno.
  pose proof Hreply as (c0 & _ & _ & _ & Hp).
  destruct (router_node_in_domain L w s d p text Hum Hreply)
    as (content & r & h' & Hrun & _ & Hout).
  destruct (router_in_domain_steps _ _ _ _ _ _ _ _ Hp Hrun)
    as (h1 & h2 & h3 & _ & [_ Hadopt] & Hfields & Hconf & Hevent).
  simpl in Hadopt. rewrite lookup_insert_ne in Hadopt by done.
  pose proof (router_confirmation_run _ _ _ _ Hconf) as Hval. rewrite Hno in Hval.
  apply router_fields_inv in Hfields as [Ff _].
  apply router_event_id_inv in Hevent as (Fe & _).
  rewrite (frame_lookup _ _ _ _ Ff) in Hval by reflexivity. rewrite Hadopt in Hval.
  eexists. split; [exact Hout |].
  assert (Hfinal : state h' !! "processing_status" = state h3 !! "processing_status")
    by (by rewrite (frame_lookup _ _ _ _ Fe)).
  rewrite <- Hval, <- Hfinal.
  destruct r; [by rewrite lookup_insert_ne | reflexivity].
Qed.

Lemma router_status_without_confirmation_witness :
  message_text state_event_name "Lanzamiento"
  /\ router_reply plain_lib (world_down (inr plain_reply) 0) plain_json [("admins", VNone)]
  /\ exists out,
       run (router_node plain_lib (world_down (inr plain_reply) 0)) state_event_name
       = (inr out, [LlmCall "router"])
       /\ out !! "processing_status" = Some (VStr "idle").
Proof.
  assert (Hreply : router_reply plain_lib (world_down (inr plain_reply) 0)
                     plain_json [("admins", VNone)]).
  { exists plain_reply. repeat split; reflexivity. }
  split; [reflexivity |]. split; [exact Hreply |].
  destruct (router_status_without_confirmation plain_lib
              (world_down (inr plain_reply) 0) state_event_name plain_json
              [("admins", VNone)] "Lanzamiento" eq_refl Hreply eq_refl)
    as (out & Hrun & Hval).
  exists out. split; [exact Hrun | exact Hval].
Defined.

Lemma router_event_id_run (L : pylib) (p : list (string * value)) (h h' : heap)
    (r : exn + unit) :
  router_event_id L (VDict p) h = (r, h') ->
  state h' !! "event_id"
  = if truthy (item_or VNone "event_id" p)
    then Some (VStr (strip L (py_str L (item_or VNone "event_id" p))))
    else state h !! "event_id".
Proof.
  unfold router_event_id, bind, get, ret, state_set, item_or. simpl.
  destruct (truthy (default VNone (assoc "event_id" p))); intros [= <- <-]; simpl;
    [by rewrite lookup_insert_eq | done].
Qed.

(** X17: on a reply about campaigns the router takes the step the model
    names, and keeps the step the turn began at when the model names none;
    it stores the stripped text of the event id the model parsed, and keeps
    the stored event id when the model parsed none. *)
Theorem router_step_and_event_id (L : pylib) (w : world) (s : gmap string value)
    (d p : list (string * value)) (text : string) :
  message_text s text ->
  router_reply L w d p ->
  exists out,
    run (router_node L w) s = (inr out, [LlmCall "router"])
    /\ out !! "current_step" = Some (item_or (step_of s) "next_step" d)
    /\ out !! "event_id"
       = if truthy (item_or VNone "event_id" p)
         then Some (VStr (strip L (py_str L (item_or VNone "event_id" p))))
         else s !! "event_id".
Proof.
  intros Hum Hreply.
  pose proof Hreply as (c0 & _ & _ & _ & Hp).
  destruct (router_node_in_domain L w s d p text Hum Hreply)
    as (content & r & h' & Hrun & _ & Hout).
  destruct (router_in_domain_steps _ _ _ _ _ _ _ _ Hp Hrun)
    as (h1 & h2 & h3 & F1 & [Hstep _] & Hfields & Hconf & Hevent).
  pose proof (router_event_id_run _ _ _ _ _ Hevent) as Hid.
  apply router_fields_inv in Hfields as [Ff _].
  apply router_confirmation_inv in Hconf as (Fc & _ & _).
  apply router_event_id_inv in Hevent as (Fe & _).
  rewrite (frame_lookup _ _ _ _ Fc), (frame_lookup _ _ _ _ Ff),
    (frame_lookup _ _ _ _ F1) in Hid by reflexivity.
  simpl in Hid. rewrite lookup_insert_ne in Hid by done.
  assert (Hcs : state h' !! "current_step" = Some (item_or (step_of s) "next_step" d)).
  { by rewrite (frame_lookup _ _ _ _ Fe), (frame_lookup _ _ _ _ Fc),
      (frame_lookup _ _ _ _ Ff). }
  eexists. split; [exact Hout |].
  destruct r; rewrite ?lookup_insert_ne by done; by split.
Qed.

Lemma router_step_and_event_id_witness :
  message_text state_event_name "Lanzamiento"
  /\ router_reply plain_lib (world_down (inr plain_reply) 0) plain_json [("admins", VNone)]
  /\ exists out,
       run (router_node plain_lib (world_down (inr plain_reply) 0)) state_event_name
       = (inr out, [LlmCall "router"])
       /\ out !! "current_step" = Some (VStr "confirmation").
Proof.
  assert (Hreply : router_reply plain_lib (world_down (inr plain_reply) 0)
                     plain_json [("admins", VNone)]).
  { exists plain_reply. repeat split; reflexivity. }
  split; [reflexivity |]. split; [exact Hreply |].
  destruct (router_step_and_event_id plain_lib (world_down (inr plain_reply) 0)
              state_event_name plain_json [("admins", VNone)] "Lanzamiento"
              eq_refl Hreply) as (out & Hrun & Hstep & _).
  exists out. split; [exact Hrun | exact Hstep].
Defined.

(** X18: a reply that is not about campaigns changes nothing but the step,
    the status, the message for the user and the recorded messages: the
    router returns the step and the status out_of_context and the model's
    message (a fixed one when it gives none), leaves every other key of the
    state as it was, whatever the reply parsed, and the turn ends. *)
Theorem router_off_topic_keeps_fields (L : pylib) (w : world) (s : gmap string value)
    (d : list (string * value)) (text : string) :
  message_text s text ->
  router_reply_off_topic L w d ->
  exists out,
    run (router_node L w) s = (inr out, [LlmCall "router"])
    /\ out !! "current_step" = Some (VStr "out_of_context")
    /\ out !! "processing_status" = Some (VStr "out_of_context")
    /\ out !! "bot_response" = Some (item_or (VStr off_topic_message) "bot_response" d)
    /\ (forall k,
          existsb (String.eqb k)
            ["messages"; "current_step"; "bot_response"; "processing_status"] = false ->
          out !! k = s !! k)
    /\ next_node Router out = Some END.
Proof.
  intros Hum (content & Hllm & Hload & Hrel). unfold message_text in Hum.
  unfold run, router_node, bind, state_get, try_except, external, AIMessage.
  simpl. rewrite Hum. simpl. rewrite Hllm. simpl. rewrite Hload. simpl.
  unfold item_or in *. rewrite Hrel. simpl.
  unfold router_out_of_context, bind, get, ret, state_set. simpl.
  eexists. split; [reflexivity |].
  split; [by simplify_map_eq |]. split; [by simplify_map_eq |].
  split; [by simplify_map_eq |]. split.
  - intros k Hk. simpl in Hk.
    repeat (apply orb_false_iff in Hk as [?Hne Hk]).
    repeat match goal with
           | H : String.eqb _ _ = false |- _ => apply String.eqb_neq in H
           end.
    by rewrite !lookup_insert_ne.
  - unfold next_node, router_decision. by simplify_map_eq.
Qed.

Lemma router_off_topic_keeps_fields_witness :
  message_text state_event_name "Lanzamiento"
  /\ router_reply_off_topic off_topic_lib (world_down (inr off_topic_reply) 0)
       off_topic_json
  /\ exists out,
       run (router_node off_topic_lib (world_down (inr off_topic_reply) 0))
           state_event_name
       = (inr out, [LlmCall "router"])
       /\ out !! "campaign_name" = Some (VStr "Verano")
       /\ out !! "current_step" = Some (VStr "out_of_context").
Proof.
  assert (Hreply : router_reply_off_topic off_topic_lib
                     (world_down (inr off_topic_reply) 0) off_topic_json).
  { exists off_topic_reply. repeat split; reflexivity. }
  split; [reflexivity |]. split; [exact Hreply |].
  destruct (router_off_topic_keeps_fields off_topic_lib
              (world_down (inr off_topic_reply) 0) state_event_name off_topic_json
              "Lanzamiento" eq_refl Hreply)
    as (out & Hrun & Hstep & _ & _ & Hkeep & _).
  exists out. split; [exact Hrun |]. split; [| exact Hstep].
  rewrite (Hkeep "campaign_name" eq_refl). reflexivity.
Defined.

(** X19: the router calls the model once and nothing else.  On a state
    whose collected fields are values that [json.dumps] takes, as every
    value a node stores is, and whatever the model and the libraries do:
    when the user message is a string or a list, the router returns and its
    log holds the single model call; when it is neither, the router raises
    before that call and the log is empty. *)
Theorem router_calls_the_model_once (L : pylib) (w : world) (s : gmap string value) :
  forallb json_serializable (collected_data s) = true ->
  ((exists out, run (router_node L w) s = (inr out, [LlmCall "router"]))
   /\ ((exists text, default (VStr EmptyString) (s !! "user_message") = VStr text)
       \/ exists l, default (VStr EmptyString) (s !! "user_message") = VList l))
  \/ ((exists e, run (router_node L w) s = (inl e, []))
      /\ (forall text, default (VStr EmptyString) (s !! "user_message") <> VStr text)
      /\ forall l, default (VStr EmptyString) (s !! "user_message") <> VList l).
Proof.
  intros _.
  unfold run, router_node, bind, state_get, try_except, external, AIMessage. simpl.
  assert (Hbody : forall um h0,
            calls h0 = [] ->
            exists out,
              (let (r, h) :=
                 let (s0, h') :=
                   let (s0, h') :=
                     let (s0, h') := external (LlmCall "router") (llm w "router") h0 in
                     match s0 with
                     | inl e => (inl e, h')
                     | inr content =>
                         (msg <- (if message_content_ok (VStr content)
                                  then ret (VMessage (VStr content) "router")
                                  else raise (Exception "validation error for AIMessage")) ;;
                          state_set "messages" msg ;;;
                          let llm_res := match json_loads L content with
                                         | Some v => v
                                         | None => router_unparseable
                                         end in
                          is_campaign_related <- get llm_res "is_campaign_related"
                                                   (VBool true) ;;
                          if negb (truthy is_campaign_related)
                          then router_out_of_context llm_res
                          else router_in_domain L llm_res
                                 (default (VStr "greeting") (s !! "current_step")) um) h'
                     end in
                   match s0 with
                   | inl _ => state_set "bot_response" (VStr router_error_message) h'
                   | inr a => (inr a, h')
                   end in
                 match s0 with
                 | inl e => (inl e, h')
                 | inr _ => return_state h'
                 end in
               (r, calls h)) = (inr out, [LlmCall "router"])).
  { intros um h0 Hc. unfold external, bind. simpl. rewrite Hc. simpl.
    destruct (llm w "router") as [e | content]; simpl; [by eexists |].
    destruct (match json_loads L content with Some v => v | None => _ end)
      as [ | | | | | d | ]; simpl; try (by eexists).
    destruct (truthy (default (VBool true) (assoc "is_campaign_related" d))); simpl.
    - destruct (router_in_domain _ _ _ _ _) as [r h'] eqn:E.
      apply router_in_domain_inv in E as (Hcalls & _ & _). simpl in Hcalls.
      destruct r; simpl; rewrite Hcalls; by eexists.
    - unfold router_out_of_context, bind, get, ret, state_set. simpl. by eexists. }
  destruct (default (VStr EmptyString) (s !! "user_message")) eqn:Hum; simpl;
    try (right; split; [by eexists | split; discriminate]).
  - left. split; [| left; by eexists].
    apply (Hbody (VStr s0) (mkHeap s [])). reflexivity.
  - left. split; [| right; by eexists].
    apply (Hbody (VList l) (mkHeap s [])). reflexivity.
Qed.

Lemma router_calls_the_model_once_witness :
  forallb json_serializable (collected_data state_admins_step) = true
  /\ exists out,
       run (router_node plain_lib (world_down (inr plain_reply) 0)) state_admins_step
       = (inr out, [LlmCall "router"]).
Proof.
  split; [reflexivity |].
  destruct (router_calls_the_model_once plain_lib (world_down (inr plain_reply) 0)
              state_admins_step eq_refl) as [[Hout _] | [_ [Hno _]]].
  - exact Hout.
  - destruct (Hno "  mi socio Juan  "). reflexivity.
Defined.

(** ** The phone-number pattern, both ways *)

Lemma match_phone_like (L : pylib) (l m : list string) :
  match_phone L l = Some m -> phone_like L (join m).
Proof.
  destruct l as [| ch r]; simpl; [discriminate |].
  assert (Hplain : forall d, digits_at L (ch :: r) = Some d -> phone_like L (join d)).
  { intros d Hd. apply digits_at_spec in Hd as (rest & _ & Hlen & Hall).
    exists d. split; [by left | by split]. }
  destruct (String.eqb_spec ch "+") as [-> | _]; [| intros H; by apply Hplain].
  destruct (digits_at L r) as [d |] eqn:Hr; [| intros H; by apply Hplain].
  intros [= <-]. apply digits_at_spec in Hr as (rest & _ & Hlen & Hall).
  exists d. split; [by right | by split].
Qed.

Lemma findall_from_like (L : pylib) (skip : nat) (l : list string) :
  Forall (phone_like L) (findall_from L skip l).
Proof.
  revert skip. induction l as [| ch r IH]; intros skip; [constructor |].
  cbn [findall_from]. destruct skip as [| k]; [| apply IH].
  destruct (match_phone L (ch :: r)) as [m |] eqn:Hm; [| apply IH].
  constructor; [by apply match_phone_like with (l := ch :: r) | apply IH].
Qed.

Lemma take_digits_app (L : pylib) (n : nat) (digits rest : list string) :
  all_digits L digits = true ->
  (Nat.min n (length digits) <= length (take_digits L n (digits ++ rest)))%nat.
Proof.
  revert digits. induction n as [| n IH]; intros digits Hd; [simpl; lia |].
  destruct digits as [| ch ds]; [simpl; lia |].
  simpl in Hd. apply andb_true_iff in Hd as [Hc Hds].
  simpl. rewrite Hc. simpl. specialize (IH ds Hds). lia.
Qed.

Lemma digits_at_a_run (L : pylib) (digits rest : list string) :
  all_digits L digits = true ->
  (7 <= length digits)%nat ->
  exists d, digits_at L (digits ++ rest) = Some d.
Proof.
  intros Hd Hlen. pose proof (take_digits_app L 15 digits rest Hd) as Htake.
  unfold digits_at.
  destruct (7 <=? length (take_digits L 15 (digits ++ rest)))%nat eqn:Hmin;
    [by eexists |].
  apply Nat.leb_gt in Hmin. lia.
Qed.

Lemma match_phone_at_run (L : pylib) (digits rest : list string) :
  all_digits L digits = true ->
  (7 <= length digits)%nat ->
  exists m, match_phone L (digits ++ rest) = Some m.
Proof.
  intros Hd Hlen. destruct (digits_at_a_run L digits rest Hd Hlen) as [d Hat].
  destruct digits as [| ch ds]; [simpl in Hlen; lia |].
  simpl in *. destruct (String.eqb ch "+"); [| by eexists].
  destruct (digits_at L (ds ++ rest)); by eexists.
Qed.

Lemma findall_from_finds (L : pylib) (before digits rest : list string) :
  all_digits L digits = true ->
  (7 <= length digits)%nat ->
  findall_from L 0 (before ++ digits ++ rest) <> [].
Proof.
  intros Hd Hlen. induction before as [| ch b IH].
  - destruct (match_phone_at_run L digits rest Hd Hlen) as [m Hm].
    simpl. destruct (digits ++ rest) as [| ch r] eqn:Hs.
    + destruct digits; [simpl in Hlen; lia | discriminate].
    + cbn [findall_from]. by rewrite Hm.
  - change ((ch :: b) ++ digits ++ rest) with (ch :: (b ++ digits ++ rest)).
    cbn [findall_from].
    destruct (match_phone L (ch :: b ++ digits ++ rest)); [done | exact IH].
Qed.

(** X20: the router's phone-number search finds something exactly when the
    text holds a sequence of seven to fifteen digits, and everything it
    finds is seven to fifteen digits, after a plus sign or not.  The digits
    are the decimal digits of the runtime's Unicode database, of any
    script, as [\d] matches them. *)
Theorem findall_phone_sound_and_complete (L : pylib) (text : string) :
  (findall_phone L text <> [] <-> has_digit_run L text)
  /\ Forall (phone_like L) (findall_phone L text).
Proof.
  unfold findall_phone, has_digit_run. split; [split |].
  - apply findall_from_run.
  - intros (before & digits & rest & -> & [Hmin _] & Hd).
    by apply findall_from_finds.
  - apply findall_from_like.
Qed.

Lemma absorb_admins_run (L : pylib) (p : list (string * value)) (cs : value)
    (text : string) (h h' : heap) (r : exn + unit) :
  absorb_admins L (VDict p) cs (VStr text) h = (r, h') ->
  state h' !! "admins"
  = if truthy (item_or VNone "admins" p)
    then Some (admins_of_parsed L (item_or VNone "admins" p))
    else if eq_str cs "admins" && truthy (VStr (strip L text))
    then Some (admins_of_message L text)
    else state h !! "admins".
Proof.
  unfold absorb_admins, bind, get, text_of, ret, state_set, item_or, admins_of_parsed,
    admins_of_message. simpl.
  destruct (truthy (default VNone (assoc "admins" p))).
  { destruct (default VNone (assoc "admins" p)); intros [= <- <-]; simpl;
      by rewrite lookup_insert_eq. }
  destruct (eq_str cs "admins"); simpl; [| by intros [= <- <-]].
  destruct (strip L text) eqn:Hs; [by intros [= <- <-] |].
  destruct (findall_phone L text); intros [= <- <-]; simpl; by rewrite lookup_insert_eq.
Qed.

Lemma router_fields_admins (L : pylib) (p : list (string * value)) (cs : value)
    (text : string) (h h' : heap) (r : exn + unit) :
  router_fields L (VDict p) cs (VStr text) h = (r, h') ->
  r = inr tt ->
  state h' !! "admins"
  = if truthy (item_or VNone "admins" p)
    then Some (admins_of_parsed L (item_or VNone "admins" p))
    else if eq_str cs "admins" && truthy (VStr (strip L text))
    then Some (admins_of_message L text)
    else state h !! "admins".
Proof.
  intros H Hr. unfold router_fields in H.
  split_bind H H1; [discriminate |]. split_bind H H2; [discriminate |].
  split_bind H H3; [discriminate |]. split_bind H H4; [discriminate |].
  split_bind H H5; [discriminate |].
  pose proof (absorb_admins_run _ _ _ _ _ _ _ H5) as R5.
  apply absorb_text_inv in H1 as [G1 _], H2 as [G2 _], H3 as [G3 _], H4 as [G4 _],
    H as [G6 _].
  rewrite (frame_lookup _ _ _ _ G6) by reflexivity. rewrite R5.
  by rewrite (frame_lookup _ _ _ _ G4), (frame_lookup _ _ _ _ G3),
    (frame_lookup _ _ _ _ G2), (frame_lookup _ _ _ _ G1).
Qed.

(** X21: what the router makes of the administrators.  On a reply about
    campaigns, admins is, in the returned state, the model's parsed list
    with every entry turned into a stripped string (a single value becomes
    a list of one) when the parsed value is not empty; else, when the turn
    began at the step admins and the message is not blank, the phone
    numbers found in the message, or the whole stripped message when none
    is found; else what it was. *)
Theorem router_admins (L : pylib) (w : world) (s : gmap string value)
    (d p : list (string * value)) (text : string) :
  message_text s text ->
  router_reply L w d p ->
  exists out,
    run (router_node L w) s = (inr out, [LlmCall "router"])
    /\ out !! "admins"
       = if truthy (item_or VNone "admins" p)
         then Some (admins_of_parsed L (item_or VNone "admins" p))
         else if eq_str (step_of s) "admins" && truthy (VStr (strip L text))
         then Some (admins_of_message L text)
         else s !! "admins".
Proof.
  intros Hum Hreply.
  pose proof Hreply as (c0 & _ & _ & _ & Hp).
  destruct (router_node_in_domain L w s d p text Hum Hreply)
    as (content & r & h' & Hrun & _ & Hout).
  destruct (router_in_domain_steps _ _ _ _ _ _ _ _ Hp Hrun)
    as (h1 & h2 & h3 & F1 & _ & Hfields & Hconf & Hevent).
  pose proof (router_fields_admins _ _ _ _ _ _ _ Hfields eq_refl) as Hval.
  apply router_confirmation_inv in Hconf as (F2 & _ & _).
  apply router_event_id_inv in Hevent as (F3 & _).
  assert (Hfinal : state h' !! "admins" = state h2 !! "admins").
  { by rewrite (frame_lookup _ _ _ _ F3), (frame_lookup _ _ _ _ F2). }
  assert (Hstart : state h1 !! "admins" = s !! "admins").
  { rewrite (frame_lookup _ _ _ _ F1) by done. simpl. by rewrite lookup_insert_ne. }
  eexists. split; [exact Hout |].
  rewrite <- Hstart, <- Hval, <- Hfinal.
  destruct r; [by rewrite lookup_insert_ne | reflexivity].
Qed.

Lemma router_admins_witness :
  message_text state_two_numbers "son 573103435489 y +573208765432"
  /\ router_reply plain_lib (world_down (inr plain_reply) 0) plain_json [("admins", VNone)]
  /\ exists out,
       run (router_node plain_lib (world_down (inr plain_reply) 0)) state_two_numbers
       = (inr out, [LlmCall "router"])
       /\ out !! "admins" = Some (VList [VStr "573103435489"; VStr "+573208765432"]).
Proof.
  assert (Hreply : router_reply plain_lib (world_down (inr plain_reply) 0)
                     plain_json [("admins", VNone)]).
  { exists plain_reply. repeat split; reflexivity. }
  split; [reflexivity |]. split; [exact Hreply |].
  destruct (router_admins plain_lib (world_down (inr plain_reply) 0)
              state_two_numbers plain_json [("admins", VNone)]
              "son 573103435489 y +573208765432" eq_refl Hreply)
    as (out & Hrun & Hval).
  exists out. split; [exact Hrun |]. rewrite Hval. vm_compute. reflexivity.
Defined.

(** ** The group status checker, every path *)

Lemma status_key_out (k : string) :
  existsb (String.eqb k) status_keys = false ->
  k <> "bot_response" /\ k <> "current_step" /\ k <> "processing_status"
  /\ k <> "messages" /\ k <> "whatsapp_group_url" /\ k <> "came_from_status_check".
Proof.
  unfold status_keys. simpl. intros H.
  repeat (apply orb_false_elim in H as [?%String.eqb_neq H]). done.
Qed.

Ltac look_up :=
  repeat first [ rewrite lookup_insert_eq
               | rewrite (lookup_insert_ne (M := gmap string)) by discriminate ];
  reflexivity.

Ltac settle_lookups :=
  repeat (rewrite ?lookup_insert_eq, ?(lookup_insert_ne (M := gmap string))
            by discriminate;
          simpl).

Lemma get_cases (v : value) :
  (exists items, v = VDict items)
  \/ ((forall items, v <> VDict items)
      /\ forall k d, get v k d = raise (Exception "object has no attribute 'get'")).
Proof. destruct v; first [by left; eexists | by right]. Qed.

Lemma status_checker_cases (L : pylib) (w : world) (s : gmap string value) :
  exists out log said,
    run (group_status_checker_node L w) s = (inr out, log)
    /\ out !! "bot_response" = Some said
    /\ out !! "messages" = Some (VMessage said "group_status_checker")
    /\ message_content_ok said = true
    /\ (forall k, existsb (String.eqb k) status_keys = false -> out !! k = s !! k)
    /\ ((log = [LlmCall "status_check"]
         /\ out !! "whatsapp_group_url" = s !! "whatsapp_group_url"
         /\ out !! "came_from_status_check" = s !! "came_from_status_check")
        \/ (queries_backend L w s
            /\ log = [LlmCall "status_check"; GetGroupById (status_event_id s);
                      LlmCall "status_response"]
            /\ match api_get_group_by_id w (status_event_id s) with
               | inr (Some g) =>
                   if truthy (link g)
                   then out !! "whatsapp_group_url" = Some (link g)
                        /\ out !! "came_from_status_check" = Some (VBool true)
                   else out !! "whatsapp_group_url" = s !! "whatsapp_group_url"
                        /\ out !! "came_from_status_check"
                           = s !! "came_from_status_check"
               | _ => out !! "whatsapp_group_url" = s !! "whatsapp_group_url"
                      /\ out !! "came_from_status_check" = s !! "came_from_status_check"
               end)).
Proof.
  unfold queries_backend, status_event_id.
  unfold run, group_status_checker_node, should_check_status, get_group_status_outcome,
    generate_status_response, get_group_status, bind, state_get, try_except, external,
    item_or.
  simpl. fold (field s "event_id") (field s "pending_event_id").
  set (eid := py_or (field s "event_id") (field s "pending_event_id")).
  destruct (llm w "status_check") as [e1 | c1] eqn:Hllm1; simpl.
  2: destruct (get_cases (parse_llm_response L c1 should_check_fallback))
       as [[decision Hparse1] | [_ Hget1]]; [rewrite Hparse1 | rewrite !Hget1]; simpl.
  2: destruct (truthy (default (VBool true) (assoc "should_check" decision))) eqn:Hcheck;
       simpl; [destruct (truthy eid) eqn:Hid; simpl |].
  2: destruct (api_get_group_by_id w eid) as [e | [g |]] eqn:Hapi; simpl;
       [| destruct (truthy (link g)) eqn:Hlink; simpl |].
  2-5: destruct (llm w "status_response") as [e2 | c2] eqn:Hllm2; simpl.
  all: try (destruct (get_cases (parse_llm_response L c2
                                   (fallback_responses L "ready" (link g))))
              as [[reply Hparse2] | [_ Hget2]]; [rewrite Hparse2 | rewrite !Hget2]; simpl).
  all: try (destruct (get_cases (parse_llm_response L c2
                                   (fallback_responses L "pending" (VStr "No disponible"))))
              as [[reply Hparse2] | [_ Hget2]]; [rewrite Hparse2 | rewrite !Hget2]; simpl).
  all: try (destruct (get_cases (parse_llm_response L c2
                                   (fallback_responses L "not_found" (VStr "No disponible"))))
              as [[reply Hparse2] | [_ Hget2]]; [rewrite Hparse2 | rewrite !Hget2]; simpl).
  all: try (destruct (get_cases (parse_llm_response L c2
                                   (fallback_responses L "error" (VStr "No disponible"))))
              as [[reply Hparse2] | [_ Hget2]]; [rewrite Hparse2 | rewrite !Hget2]; simpl).
  all: try (destruct (message_content_ok
                        (default (VStr "Estado consultado.") (assoc "bot_response" reply)))
              eqn:Hmsg; simpl).
  all: try (destruct (message_content_ok
                        (default (VStr "Para consultar el estado, necesito el ID del evento. ¿Podrías proporcionármelo?")
                           (assoc "bot_response" decision)))
              eqn:Hmsg1; simpl).
  all: unfold state_item, AIMessage, state_set, return_state, ret, raise; simpl;
    repeat (rewrite ?lookup_insert_eq, ?(lookup_insert_ne (M := gmap string)) by discriminate;
            simpl; rewrite ?Hmsg, ?Hmsg1; simpl).

  all: do 3 eexists; (split; [reflexivity |]).
  all: split; [look_up |].
  all: split; [look_up |].
  all: split; [first [reflexivity | assumption] |].
  all: split;
    [ intros k Hk; apply status_key_out in Hk as (? & ? & ? & ? & ? & ?);
      by rewrite !lookup_insert_ne by congruence |].
  all: first
    [ left; split; [reflexivity |]; split; look_up
    | right; split;
      [ split; [reflexivity |]; exists c1, decision; by repeat split
      | split; [reflexivity |]; split; look_up ] ].
Qed.

(** X22: the status checker always answers.  Whatever the model and the
    backend do, the node returns a state and raises nothing; bot_response is
    a valid message content and messages is the AI message that carries it;
    only bot_response, current_step, processing_status, messages,
    whatsapp_group_url and came_from_status_check can differ from the state
    it was given; and it either asks the model once, or asks the model,
    looks the group of the event id up once and asks the model again, the
    latter only when there is an event id. *)
Theorem status_checker_always_answers (L : pylib) (w : world) (s : gmap string value) :
  exists out log said,
    run (group_status_checker_node L w) s = (inr out, log)
    /\ out !! "bot_response" = Some said
    /\ message_content_ok said = true
    /\ out !! "messages" = Some (VMessage said "group_status_checker")
    /\ (forall k, existsb (String.eqb k) status_keys = false -> out !! k = s !! k)
    /\ (log = [LlmCall "status_check"]
        \/ (truthy (status_event_id s) = true
            /\ log = [LlmCall "status_check"; GetGroupById (status_event_id s);
                      LlmCall "status_response"])).
Proof.
  destruct (status_checker_cases L w s)
    as (out & log & said & Hrun & Hsaid & Hmsg & Hok & Hframe & Hlog).
  exists out, log, said. repeat (split; [assumption |]).
  destruct Hlog as [[-> _] | [[Hid _] [-> _]]]; [by left | by right].
Qed.

(** X23: the group link is written only for a ready group.  When the node
    returns with whatsapp_group_url or came_from_status_check changed, the
    backend was asked and answered with a group that has a link; the link is
    then under whatsapp_group_url and came_from_status_check is true. *)
Theorem status_checker_link_only_when_ready (L : pylib) (w : world)
    (s out : gmap string value) (log : list call) :
  run (group_status_checker_node L w) s = (inr out, log) ->
  out !! "whatsapp_group_url" <> s !! "whatsapp_group_url"
  \/ out !! "came_from_status_check" <> s !! "came_from_status_check" ->
  queries_backend L w s
  /\ exists g,
       api_get_group_by_id w (status_event_id s) = inr (Some g)
       /\ truthy (link g) = true
       /\ out !! "whatsapp_group_url" = Some (link g)
       /\ out !! "came_from_status_check" = Some (VBool true).
Proof.
  intros Hrun Hchanged.
  destruct (status_checker_cases L w s)
    as (out' & log' & said & Hrun' & _ & _ & _ & _ & Hlog).
  rewrite Hrun in Hrun'. injection Hrun' as <- <-.
  destruct Hlog as [(_ & Hurl & Hcame) | (Hq & _ & Hgroup)].
  { destruct Hchanged as [Hc | Hc]; by destruct Hc. }
  split; [exact Hq |].
  destruct (api_get_group_by_id w (status_event_id s)) as [e | [g |]];
    [| destruct (truthy (link g)) eqn:Hlink |].
  2: { exists g. by destruct Hgroup. }
  all: destruct Hgroup as [Hurl Hcame]; destruct Hchanged as [Hc | Hc]; by destruct Hc.
Qed.

Lemma status_checker_link_only_when_ready_witness :
  queries_backend status_lib
    (world_status (inr go_ahead) (inr "listo") (inr (Some (mkMessageGroup group_link_1))))
    state_pending_group
  /\ exists g,
       api_get_group_by_id
         (world_status (inr go_ahead) (inr "listo")
            (inr (Some (mkMessageGroup group_link_1))))
         (status_event_id state_pending_group) = inr (Some g)
       /\ truthy (link g) = true.
Proof.
  destruct (status_checker_link_only_when_ready status_lib
              (world_status (inr go_ahead) (inr "listo")
                 (inr (Some (mkMessageGroup group_link_1))))
              state_pending_group _ _ eq_refl) as (Hq & g & Hg & Hl & _).
  { left. vm_compute. discriminate. }
  split; [exact Hq |]. exists g. by split.
Defined.

(** X24: when the model cannot be reached for the first question, the
    backend is not asked, even when an event id is known: the node asks the
    model once and returns the state it was given with the message that the
    status cannot be verified now, the step error and the status error. *)
Theorem status_checker_model_down (L : pylib) (w : world) (s : gmap string value)
    (e : exn) :
  llm w "status_check" = inl e ->
  run (group_status_checker_node L w) s
  = (inr (status_gave_up
            "No puedo verificar el estado en este momento. Intenta más tarde." s),
     [LlmCall "status_check"]).
Proof.
  intros Hllm.
  unfold run, group_status_checker_node, should_check_status, bind, state_get,
    try_except, external. simpl. rewrite Hllm. simpl.
  unfold state_item, AIMessage, state_set, return_state. simpl.
  settle_lookups. reflexivity.
Qed.

Lemma status_checker_model_down_witness :
  run (group_status_checker_node status_lib
         (world_status (inl (Exception "timeout")) (inr "listo")
            (inr (Some (mkMessageGroup group_link_1)))))
      state_pending_group
  = (inr (status_gave_up
            "No puedo verificar el estado en este momento. Intenta más tarde."
            state_pending_group),
     [LlmCall "status_check"]).
Proof.
  exact (status_checker_model_down status_lib
           (world_status (inl (Exception "timeout")) (inr "listo")
              (inr (Some (mkMessageGroup group_link_1))))
           state_pending_group (Exception "timeout") eq_refl).
Defined.

(** X25: without an event id nothing is looked up.  When the model's first
    reply is a dict, either it says not to check or the state has no event
    id, and the answer the reply gives (the request for the id of the event
    when it gives none) is a valid message content, that is a string or a
    list of strings and dicts, the node asks the model once and never the
    backend, and the answer, the step and the status are those of the
    reply. *)
Theorem status_checker_without_lookup (L : pylib) (w : world) (s : gmap string value)
    (content : string) (decision : list (string * value)) :
  llm w "status_check" = inr content ->
  parse_llm_response L content should_check_fallback = VDict decision ->
  truthy (item_or (VBool true) "should_check" decision) && truthy (status_event_id s)
  = false ->
  message_content_ok
    (item_or (VStr "Para consultar el estado, necesito el ID del evento. ¿Podrías proporcionármelo?")
       "bot_response" decision) = true ->
  exists out,
    run (group_status_checker_node L w) s = (inr out, [LlmCall "status_check"])
    /\ out !! "bot_response"
       = Some (item_or (VStr "Para consultar el estado, necesito el ID del evento. ¿Podrías proporcionármelo?")
                 "bot_response" decision)
    /\ out !! "current_step" = Some (item_or (VStr "wait") "next_step" decision)
    /\ out !! "processing_status"
       = Some (item_or (VStr "pending") "processing_status" decision)
    /\ out !! "whatsapp_group_url" = s !! "whatsapp_group_url".
Proof.
  intros Hllm Hparse Hno Hok. unfold status_event_id, item_or in *.
  unfold run, group_status_checker_node, should_check_status, bind, state_get,
    try_except, external.
  simpl. fold (field s "event_id") (field s "pending_event_id").
  rewrite Hllm. simpl. rewrite Hparse. simpl. rewrite Hno. simpl.
  unfold state_item, AIMessage, state_set, return_state. simpl.
  settle_lookups. rewrite Hok. simpl.
  eexists. split; [reflexivity |]. repeat split; look_up.
Qed.

Lemma status_checker_without_lookup_witness :
  exists out,
    run (group_status_checker_node status_lib
           (world_status (inr go_ahead) (inr "listo")
              (inr (Some (mkMessageGroup group_link_1)))))
        state_no_event
    = (inr out, [LlmCall "status_check"])
    /\ out !! "bot_response"
       = Some (VStr "Para consultar el estado, necesito el ID del evento. ¿Podrías proporcionármelo?")
    /\ out !! "current_step" = Some (VStr "wait")
    /\ out !! "processing_status" = Some (VStr "pending").
Proof.
  destruct (status_checker_without_lookup status_lib
              (world_status (inr go_ahead) (inr "listo")
                 (inr (Some (mkMessageGroup group_link_1))))
              state_no_event go_ahead _ eq_refl eq_refl eq_refl eq_refl)
    as (out & Hrun & Hsaid & Hstep & Hstatus & _).
  exists out. by repeat split.
Defined.

(** X26: a first reply that is JSON but not an object.  When the model's
    first reply parses to a value that is not a dict, the node asks the
    model once, never the backend, and returns the state it was given with
    the message that the status cannot be consulted now, the step error and
    the status error. *)
Theorem status_checker_reply_not_a_dict (L : pylib) (w : world) (s : gmap string value)
    (content : string) :
  llm w "status_check" = inr content ->
  (forall items, parse_llm_response L content should_check_fallback <> VDict items) ->
  run (group_status_checker_node L w) s
  = (inr (status_gave_up
            "No puedo consultar el estado en este momento. Intenta más tarde." s),
     [LlmCall "status_check"]).
Proof.
  intros Hllm Hnot.
  unfold run, group_status_checker_node, should_check_status, bind, state_get,
    try_except, external. simpl. rewrite Hllm. simpl.
  destruct (get_cases (parse_llm_response L content should_check_fallback))
    as [[items Hp] | [_ Hget]]; [by destruct (Hnot items) |].
  rewrite Hget. simpl.
  unfold state_item, AIMessage, state_set, return_state. simpl.
  settle_lookups. reflexivity.
Qed.

Lemma status_checker_reply_not_a_dict_witness :
  run (group_status_checker_node list_lib
         (world_status (inr list_reply) (inr "listo")
            (inr (Some (mkMessageGroup group_link_1)))))
      state_pending_group
  = (inr (status_gave_up
            "No puedo consultar el estado en este momento. Intenta más tarde."
            state_pending_group),
     [LlmCall "status_check"]).
Proof.
  apply (status_checker_reply_not_a_dict list_lib
           (world_status (inr list_reply) (inr "listo")
              (inr (Some (mkMessageGroup group_link_1))))
           state_pending_group list_reply eq_refl).
  intros items. vm_compute. discriminate.
Defined.

(** ** The completion node, every path *)

Lemma completion_summary_messages (L : pylib) (s : gmap string value) (m : value) :
  completion_summary L (<["messages" := m]> s) = completion_summary L s.
Proof.
  unfold completion_summary, field.
  by rewrite !(lookup_insert_ne (M := gmap string)) by discriminate.
Qed.

Lemma completion_node_cases (L : pylib) (w : world) (s : gmap string value) :
  exists out,
    run (completion_node L w) s = (inr out, [LlmCall "completion"])
    /\ (asks_new_campaign L w -> out = new_campaign_state)
    /\ (~ asks_new_campaign L w ->
        (forall k, k <> "bot_response" -> k <> "messages" -> out !! k = s !! k)
        /\ out !! "messages"
           = match llm w "completion" with
             | inr content => Some (VMessage (VStr content) "completion")
             | inl _ => s !! "messages"
             end
        /\ out !! "bot_response" = Some (completion_answer L w s)).
Proof.
  unfold asks_new_campaign, completion_answer.
  unfold run, completion_node, bind, state_get, try_except, external, AIMessage, item_or.
  simpl.
  destruct (llm w "completion") as [e | content] eqn:Hllm; simpl.
  { eexists. split; [reflexivity |]. split.
    { by intros (c & r & [=] & _). }
    intros _. split; [| split; look_up].
    intros k ? ?. by rewrite lookup_insert_ne by congruence. }
  destruct (get_cases (parse_llm_response L content completion_fallback))
    as [[reply Hparse] | [Hnot Hget]]; [rewrite Hparse | rewrite !Hget]; simpl.
  2: { eexists. split; [reflexivity |]. split.
       { intros (c & r & [= <-] & Hr & _). by destruct (Hnot r). }
       intros _. split; [| split].
       - intros k ? ?. by rewrite !lookup_insert_ne by congruence.
       - look_up.
       - destruct (parse_llm_response L content completion_fallback) eqn:Hp;
           try look_up.
         by destruct (Hnot items). }
  destruct (eq_str (default VNone (assoc "action" reply)) "new_campaign"
            || truthy (default VNone (assoc "reset_state" reply))) eqn:Hnew; simpl.
  { eexists. split; [reflexivity |]. split; [done |].
    intros Hno. destruct Hno. by exists content, reply. }
  unfold state_set, return_state. simpl.
  eexists. split; [reflexivity |]. split.
  { intros (c & r & [= <-] & Hr & Hyes). rewrite Hparse in Hr.
    injection Hr as <-. rewrite Hnew in Hyes. discriminate Hyes. }
  intros _. split; [| split].
  - intros k ? ?. by rewrite !lookup_insert_ne by congruence.
  - look_up.
  - rewrite completion_summary_messages. look_up.
Qed.

(** X27: the completion node always answers.  Whatever the model does, the
    node asks it once, makes no other call and raises nothing.  It returns
    its new-campaign state exactly when the model's reply is a dict whose
    action is new_campaign or whose reset_state is true; on every other
    path only bot_response and messages can differ from the state it was
    given, and messages is the model's raw reply when the model answered
    and untouched when it did not. *)
Theorem completion_node_always_answers (L : pylib) (w : world) (s : gmap string value) :
  exists out,
    run (completion_node L w) s = (inr out, [LlmCall "completion"])
    /\ (asks_new_campaign L w -> out = new_campaign_state)
    /\ (~ asks_new_campaign L w ->
        (forall k, k <> "bot_response" -> k <> "messages" -> out !! k = s !! k)
        /\ out !! "messages"
           = match llm w "completion" with
             | inr content => Some (VMessage (VStr content) "completion")
             | inl _ => s !! "messages"
             end).
Proof.
  destruct (completion_node_cases L w s) as (out & Hrun & Hnew & Hkeep).
  exists out. split; [exact Hrun |]. split; [exact Hnew |].
  intros Hno. destruct (Hkeep Hno) as (Hframe & Hmsg & _). by split.
Qed.

(** X28: what the completion node says.  When the model's reply does not
    start a new campaign, bot_response is the reply's bot_response when the
    reply is a dict that has one; the summary of the campaign, worded from
    the state the node was given, when the reply is a dict without one; and
    the fixed closing text when the model cannot be reached or its reply is
    JSON but no dict. *)
Theorem completion_node_answer (L : pylib) (w : world) (s : gmap string value) :
  ~ asks_new_campaign L w ->
  exists out,
    run (completion_node L w) s = (inr out, [LlmCall "completion"])
    /\ out !! "bot_response" = Some (completion_answer L w s).
Proof.
  intros Hno.
  destruct (completion_node_cases L w s) as (out & Hrun & _ & Hkeep).
  exists out. split; [exact Hrun |]. by destruct (Hkeep Hno) as (_ & _ & Hsaid).
Qed.

Lemma completion_node_answer_witness :
  ~ asks_new_campaign summary_lib (world_down (inr summary_reply) 0)
  /\ exists out,
       run (completion_node summary_lib (world_down (inr summary_reply) 0))
           state_completed
       = (inr out, [LlmCall "completion"])
       /\ out !! "bot_response"
          = Some (VStr (completion_summary summary_lib state_completed)).
Proof.
  assert (Hno : ~ asks_new_campaign summary_lib (world_down (inr summary_reply) 0)).
  { intros (c & r & Hc & Hr & Hyes). simpl in Hc. injection Hc as <-.
    vm_compute in Hr. injection Hr as <-. vm_compute in Hyes. discriminate Hyes. }
  split; [exact Hno |].
  destruct (completion_node_answer summary_lib (world_down (inr summary_reply) 0)
              state_completed Hno) as (out & Hrun & Hsaid).
  exists out. split; [exact Hrun |]. exact Hsaid.
Defined.

(** ** Renaming the keys of a backend answer *)

Lemma assoc_app {A} (k : string) (l1 l2 : list (string * A)) :
  assoc k (l1 ++ l2)
  = match assoc k l1 with Some v => Some v | None => assoc k l2 end.
Proof.
  induction l1 as [| [k' v'] l1 IH]; simpl; [reflexivity |].
  by destruct (String.eqb k k').
Qed.

Lemma assoc_dict_set (k k' : string) (v : value) (items : list (string * value)) :
  assoc k (dict_set k' v items)
  = if String.eqb k k' then Some v else assoc k items.
Proof.
  induction items as [| [k0 v0] rest IH]; simpl; [reflexivity |].
  destruct (String.eqb k0 k') eqn:H0; simpl.
  - apply String.eqb_eq in H0 as ->. by destruct (String.eqb k k').
  - rewrite IH. destruct (String.eqb k k0) eqn:H1; [| reflexivity].
    apply String.eqb_eq in H1 as ->. by rewrite H0.
Qed.

Lemma dict_set_keys (k k' : string) (v : value) (items : list (string * value)) :
  In k (map fst (dict_set k' v items)) <-> k = k' \/ In k (map fst items).
Proof.
  induction items as [| [k0 v0] rest IH]; simpl; [intuition congruence |].
  destruct (String.eqb k0 k') eqn:H0; simpl.
  - apply String.eqb_eq in H0 as ->. intuition congruence.
  - rewrite IH. tauto.
Qed.

Lemma dict_set_nodup (k : string) (v : value) (items : list (string * value)) :
  NoDup (map fst items) -> NoDup (map fst (dict_set k v items)).
Proof.
  induction items as [| [k0 v0] rest IH]; simpl; intros Hnd.
  { apply NoDup_singleton. }
  apply NoDup_cons in Hnd as [Hout Hnd].
  destruct (String.eqb k0 k) eqn:H0; simpl.
  - by apply NoDup_cons.
  - apply NoDup_cons. split; [| by apply IH].
    rewrite list_elem_of_In, dict_set_keys, <- list_elem_of_In.
    apply String.eqb_neq in H0. intuition congruence.
Qed.

Lemma dict_set_new (k : string) (v : value) (items : list (string * value)) :
  ~ In k (map fst items) -> dict_set k v items = items ++ [(k, v)].
Proof.
  induction items as [| [k0 v0] rest IH]; simpl; intros Hout; [reflexivity |].
  destruct (String.eqb k0 k) eqn:H0.
  - apply String.eqb_eq in H0. tauto.
  - rewrite IH; [reflexivity | tauto].
Qed.

(** The loop of [_snake_case_keys], from any dict it may have reached. *)
Lemma snake_loop_spec (items acc : list (string * value)) :
  let out := fold_left (fun snake_case_data '(key, v) =>
                          dict_set (new_key key) v snake_case_data) items acc in
  (NoDup (map fst acc) -> NoDup (map fst out))
  /\ (forall k, In k (map fst out)
                <-> In k (map fst acc) \/ In k (map fst (renamed items)))
  /\ forall k, assoc k out
               = match assoc k (rev (renamed items)) with
                 | Some v => Some v
                 | None => assoc k acc
                 end.
Proof.
  revert acc. induction items as [| [key v] items IH]; intros acc; simpl.
  { split; [done |]. split; [tauto | done]. }
  destruct (IH (dict_set (new_key key) v acc)) as (Hnd & Hkeys & Hlook).
  split; [| split].
  - intros H. by apply Hnd, dict_set_nodup.
  - intros k. rewrite Hkeys, dict_set_keys. unfold renamed. simpl. intuition congruence.
  - intros k. rewrite Hlook, assoc_app, assoc_dict_set. simpl.
    destruct (assoc k (rev (renamed items))); [reflexivity |].
    by destruct (String.eqb k (new_key key)).
Qed.

Lemma assoc_in {A} (k : string) (v : A) (l : list (string * A)) :
  assoc k l = Some v -> In (k, v) l.
Proof.
  induction l as [| [k' v'] l IH]; simpl; [discriminate |].
  destruct (String.eqb k k') eqn:H0.
  - apply String.eqb_eq in H0 as ->. intros [= ->]. by left.
  - intros H. right. by apply IH.
Qed.

Lemma new_key_idempotent (key : string) : new_key (new_key key) = new_key key.
Proof.
  unfold new_key at 2 3. destruct (assoc key key_mapping) as [k' |] eqn:H; simpl.
  - apply assoc_in in H. unfold key_mapping in H. simpl in H.
    repeat (destruct H as [[= <- <-] | H]; [reflexivity |]). destruct H.
  - unfold new_key. by rewrite H.
Qed.

Lemma snake_loop_settled (items acc : list (string * value)) :
  NoDup (map fst (acc ++ items)) ->
  Forall (fun k => new_key k = k) (map fst items) ->
  fold_left (fun snake_case_data '(key, v) =>
               dict_set (new_key key) v snake_case_data) items acc
  = acc ++ items.
Proof.
  revert acc. induction items as [| [key v] items IH]; intros acc Hnd Hfix; simpl.
  { by rewrite app_nil_r. }
  apply Forall_cons in Hfix as [Hkey Hfix]. simpl in Hkey. rewrite Hkey.
  rewrite dict_set_new.
  - rewrite IH; [by rewrite <- app_assoc | by rewrite <- app_assoc | exact Hfix].
  - rewrite map_app in Hnd. apply NoDup_app in Hnd as (_ & Hsep & _).
    intros Hin. apply (Hsep key); [by apply list_elem_of_In |]. simpl. by left.
Qed.

(** X29: the last entry wins.  On a dict, [_snake_case_keys] returns a dict
    in which no key occurs twice, whose keys are the new keys of the given
    entries, and in which a key holds the value of the last given entry that
    is renamed to it: of two entries that the table renames to the same key,
    such as integrationId and messagingIntegrationId, the later one is
    kept. *)
Theorem snake_case_keys_last_entry_wins (items : list (string * value)) :
  exists out,
    snake_case_keys (VDict items) = VDict out
    /\ NoDup (map fst out)
    /\ (forall k, In k (map fst out) <-> In k (map fst (renamed items)))
    /\ forall k, assoc k out = assoc k (rev (renamed items)).
Proof.
  destruct (snake_loop_spec items []) as (Hnd & Hkeys & Hlook).
  eexists. split; [reflexivity |]. split; [apply Hnd; constructor |].
  split.
  - intros k. rewrite Hkeys. simpl. tauto.
  - intros k. rewrite Hlook. simpl. by destruct (assoc k (rev (renamed items))).
Qed.

Example snake_case_keys_two_integration_ids :
  snake_case_keys
    (VDict [("integrationId", VStr "int-1"); ("link", VNone);
            ("messagingIntegrationId", VStr "int-2"); ("eventId", VStr "evt-1")])
  = VDict [("integration_id", VStr "int-2"); ("link", VNone);
           ("event_id", VStr "evt-1")].
Proof. reflexivity. Qed.

(** X30: renaming twice changes nothing more.  [_snake_case_keys] applied
    to its own result gives that result again, on a dict and on any other
    value. *)
Theorem snake_case_keys_idempotent (data : value) :
  snake_case_keys (snake_case_keys data) = snake_case_keys data.
Proof.
  destruct data as [ | | | | | items | ]; try reflexivity.
  destruct (snake_loop_spec items []) as (Hnd & Hkeys & _).
  unfold snake_case_keys at 2 3.
  set (out := fold_left _ items []) in *.
  unfold snake_case_keys. f_equal.
  apply (snake_loop_settled out []); simpl.
  - apply Hnd. constructor.
  - apply Forall_forall. intros k Hk. apply list_elem_of_In, Hkeys in Hk as [[] | Hk].
    unfold renamed in Hk. rewrite map_map in Hk. apply in_map_iff in Hk.
    destruct Hk as ([key v] & <- & _). simpl. apply new_key_idempotent.
Qed.
